(** * VecTiles server: a shallow embedding of
      [TileStache/Goodies/VecTiles/server.py]

    The development follows the source file: the module-level [tolerances]
    table, the module functions [query_columns], [get_features] and
    [build_query], the classes [Response], [EmptyResponse], [Provider] (its
    [__init__], [renderTile] and [getTypeByExtension]), [MultiProvider] and
    [MultiResponse].

    Modelling conventions.
    - Python [int] is [Z]; Python [float] is idealised as an exact rational
      [Q]: no rounding, no infinities, no NaN, no negative zero.  [math.pi]
      is the exact rational value of the double the code uses.
    - Exceptions are values of [Py.exn]; a computation yields a [Py.outcome],
      a call into the database a sum [Py.exn + _].  The one unbounded loop
      takes a fuel argument and yields [OutOfFuel] when it is exhausted.
    - Mutable objects ([Provider.columns], the layer registry) and the
      database traffic are threaded through a small state monad [Py.M].
    - A Python [set] is a [gset], a [dict] a [gmap]; where Python iterates
      over one in an order it does not specify, the order of [elements] is
      used.
    - Encoders ([mvt], [geojson], [topojson], [oscimap], [mapbox]), the host
      framework ([getTile], layer objects, projections), the database and
      the files and URLs query texts are loaded from are outside this source
      file: encoders are represented by the call that is dispatched to them,
      the rest by the interface classes below. *)

From Stdlib Require Import ZArith QArith Qabs Lqa String Ascii DecimalString DecimalPos DecimalN.
From stdpp Require Import gmap strings list.

Local Open Scope string_scope.

(** ** Python runtime primitives *)

Module Py.

(** The exceptions this file can raise or let through. *)
Inductive exn : Type :=
| IndexError
| KeyError (key : string)
| TypeError (msg : string)
| ValueError (msg : string)
| KnownUnknown (msg : string)
| Exception (msg : string)
| DatabaseError (msg : string).

Inductive outcome (A : Type) : Type :=
| Ok (a : A)
| Raise (e : exn)
| OutOfFuel.
Arguments Ok {A} a.
Arguments Raise {A} e.
Arguments OutOfFuel {A}.

Definition obind {A B} (m : outcome A) (k : A -> outcome B) : outcome B :=
  match m with
  | Ok a => k a
  | Raise e => Raise e
  | OutOfFuel => OutOfFuel
  end.

(** State-and-exception monad: the state survives a raise, as mutations of
    Python objects do. *)
Definition M (S A : Type) : Type := S -> outcome A * S.

Definition ret {S A} (a : A) : M S A := fun s => (Ok a, s).
Definition raise {S A} (e : exn) : M S A := fun s => (Raise e, s).
Definition bind {S A B} (m : M S A) (k : A -> M S B) : M S B :=
  fun s =>
    match m s with
    | (Ok a, s') => k a s'
    | (Raise e, s') => (Raise e, s')
    | (OutOfFuel, s') => (OutOfFuel, s')
    end.
Definition get {S} : M S S := fun s => (Ok s, s).
Definition put {S} (s : S) : M S unit := fun _ => (Ok tt, s).
Definition lift {S A} (o : outcome A) : M S A := fun s => (o, s).

(** The answer of a call into a library: a value or an exception. *)
Definition answer {A} (r : exn + A) : outcome A :=
  match r with
  | inl e => Raise e
  | inr a => Ok a
  end.

(** Run a computation on the second component of a pair state. *)
Definition on_snd {S T A} (m : M T A) : M (S * T) A :=
  fun st =>
    let '(r, t') := m (snd st) in (r, (fst st, t')).

(** [l[i]] on a Python list: negative indices count from the end, anything
    else out of range raises [IndexError]. *)
Definition getitem {A} (l : list A) (i : Z) : outcome A :=
  let n := Z.of_nat (length l) in
  let j := if (i <? 0)%Z then (i + n)%Z else i in
  if ((0 <=? j)%Z && (j <? n)%Z)%bool
  then match nth_error l (Z.to_nat j) with
       | Some a => Ok a
       | None => Raise IndexError
       end
  else Raise IndexError.

(** [range(n)] *)
Definition range (n : nat) : list Z := map Z.of_nat (seq 0 n).

(** *** Strings *)

Definition nl : string := String (ascii_of_nat 10) EmptyString.

Fixpoint spaces (n : nat) : string :=
  match n with
  | O => EmptyString
  | S k => String " " (spaces k)
  end.

(** [sep.join(l)] *)
Fixpoint join (sep : string) (l : list string) : string :=
  match l with
  | [] => ""
  | [x] => x
  | x :: rest => x ++ sep ++ join sep rest
  end.

(** [s.replace(old, new)]: non-overlapping occurrences, left to right.
    [skip] counts the characters of a match that are still to be dropped. *)
Fixpoint replace_from (skip : nat) (old new s : string) : string :=
  match s with
  | EmptyString => EmptyString
  | String c s' =>
      match skip with
      | S k => replace_from k old new s'
      | O =>
          if String.prefix old s
          then new ++ replace_from (String.length old - 1) old new s'
          else String c (replace_from 0 old new s')
      end
  end.

Definition replace (s old new : string) : string := replace_from 0 old new s.

Fixpoint rev (s : string) : string :=
  match s with
  | EmptyString => EmptyString
  | String c s' => rev s' ++ String c EmptyString
  end.

(** [s.endswith(suffix)] *)
Definition endswith (s suffix : string) : bool :=
  String.prefix (rev suffix) (rev s).

Definition lower_ascii (c : ascii) : ascii :=
  let n := nat_of_ascii c in
  if ((65 <=? n)%nat && (n <=? 90)%nat)%bool then ascii_of_nat (n + 32) else c.

(** [s.lower()] on ASCII text *)
Fixpoint lower (s : string) : string :=
  match s with
  | EmptyString => EmptyString
  | String c s' => String (lower_ascii c) (lower s')
  end.

(** Number of positions of [s] at which [pat] occurs. *)
Fixpoint count_sub (pat s : string) : nat :=
  match s with
  | EmptyString => O
  | String c s' =>
      ((if String.prefix pat s then 1 else 0) + count_sub pat s')%nat
  end.

(** [sub in s], for a [sub] that is not empty. *)
Definition contains (sub s : string) : bool := (0 <? count_sub sub s)%nat.

(** *** Number formatting *)

Definition digits (n : N) : string := NilZero.string_of_uint (N.to_uint n).

(** ['%d' % z] *)
Definition format_d (z : Z) : string :=
  (if (z <? 0)%Z then "-" else "") ++ digits (Z.abs_N z).

(** Nearest integer to [n/d], ties to even ([0 <= n], [0 < d]). *)
Definition round_half_even (n d : Z) : Z :=
  let q := (n / d)%Z in
  let r := (n mod d)%Z in
  match (2 * r ?= d)%Z with
  | Lt => q
  | Gt => (q + 1)%Z
  | Eq => if Z.even q then q else (q + 1)%Z
  end.

Fixpoint zero_pad (width : nat) (s : string) : string :=
  match width with
  | O => s
  | S k => if (String.length s <=? k)%nat then String "0" (zero_pad k s) else s
  end.

(** ['%.<prec>f' % x]: sign, integer part, point, [prec] decimals, the
    value correctly rounded (ties to even) as C's printf does. *)
Definition format_f (prec : nat) (x : Q) : string :=
  let p := (10 ^ Z.of_nat prec)%Z in
  let m := round_half_even (Z.abs (Qnum x) * p) (Zpos (Qden x)) in
  (if (Qnum x <? 0)%Z then "-" else "")
    ++ digits (Z.to_N (m / p)) ++ "."
    ++ zero_pad prec (digits (Z.to_N (m mod p))).

(** *** Floats as rationals *)

Definition ltb (x y : Q) : bool :=
  match (x ?= y)%Q with Lt => true | _ => false end.

(** [math.pi], the double 0x1.921fb54442d18p+1. *)
Definition pi : Q := 884279719003555 # 281474976710656.

End Py.

Notation "'let*' x ':=' m 'in' k" := (Py.bind m (fun x => k))
  (at level 10, x name, m at level 100, k at level 200).
Notation "'let?' x ':=' m 'in' k" := (Py.obind m (fun x => k))
  (at level 10, x name, m at level 100, k at level 200).

(** ** Data model *)

(** A bounding box, the 4-tuple [(xmin, ymin, xmax, ymax)]. *)
Record Bounds : Type := mkBounds { xmin : Q; ymin : Q; xmax : Q; ymax : Q }.

(** A tile coordinate (ModestMaps [Coordinate]) with the two neighbours the
    provider asks for. *)
Module Coordinate.
Record t : Type := mk { row : Z; column : Z; zoom : Z }.

Definition down (c : t) : t := mk (row c + 1) (column c) (zoom c).
Definition right (c : t) : t := mk (row c) (column c + 1) (zoom c).
End Coordinate.

(** What the provider uses of its host layer: [layer.name()], [layer.dim],
    [layer.projection.srs] and [layer.projection.coordinateProj], the latter
    returning the point [(x, y)]. *)
Module Layer.
Record t : Type := mk {
  name : string;
  dim : Z;
  srs : string;
  coordinateProj : Coordinate.t -> Q * Q
}.
End Layer.

(** A value in a result row; [SqlNull] is Python's [None]. *)
Inductive SqlValue : Type :=
| SqlNull
| SqlInt (z : Z)
| SqlText (s : string)
| SqlBytes (s : string).

Definition is_null (v : SqlValue) : bool :=
  match v with SqlNull => true | _ => false end.

(** [bytes(v)] (Python 2: [str(v)]) *)
Definition bytes (v : SqlValue) : string :=
  match v with
  | SqlNull => "None"
  | SqlInt z => Py.format_d z
  | SqlText s => s
  | SqlBytes s => s
  end.

(** A feature is the tuple [(wkb, prop)] or [(wkb, prop, id)]. *)
Inductive Feature : Type :=
| Feature2 (wkb : string) (prop : gmap string SqlValue)
| Feature3 (wkb : string) (prop : gmap string SqlValue) (id : SqlValue).

(** The SQL statements handed to [db.execute], oldest first. *)
Definition Trace : Type := list string.

(** The database behind [psycopg2.connect]: connecting either raises or
    yields a cursor, which answers a statement with its rows (each a
    [RealDictCursor] dictionary) or raises. *)
Definition Cursor : Type := string -> Py.exn + list (gmap string SqlValue).

Class Database : Type := {
  connect : gmap string string -> Py.exn + Cursor
}.

(** Constants of the sibling encoder modules [oscimap] and [mapbox]. *)
Class Codecs : Type := {
  oscimap_padding : Q;
  oscimap_extents : Q;
  mapbox_padding : Q;
  mapbox_extents : Q
}.

(** [SphericalMercator().projLocation(Point(x, y))], as [(lon, lat)]. *)
Class Geography : Type := {
  projLocation : Q * Q -> Q * Q
}.

(** Where [Provider.__init__] loads query texts from: [urljoin] and
    [urlparse] of the [urlparse] module (of the parsed URL the scheme and the
    path are used), [os.path.exists], [open(path).read()] and
    [urlopen(url).read()]. *)
Class Resources : Type := {
  urljoin : string -> string -> string;
  urlparse : string -> string * string;
  path_exists : string -> bool;
  read_file : string -> Py.exn + string;
  urlopen : string -> Py.exn + string
}.

(** A value of the configuration as [Provider.__init__] receives it from
    the JSON reader: null, a boolean, a number, text, an array or an object
    (of the last two only whether they are empty and their kind matter). *)
Inductive Value : Type :=
| VNone
| VBool (b : bool)
| VInt (z : Z)
| VFloat (x : Q)
| VStr (s : string)
| VList (empty : bool)
| VDict (empty : bool).

(** Python's readers of numeric text, [int(s)] and [float(s)] for a string
    [s]. *)
Class Numerals : Type := {
  int_of_str : string -> Py.exn + Z;
  float_of_str : string -> Py.exn + Q
}.

(** [bool(v)] *)
Definition bool_of (v : Value) : bool :=
  match v with
  | VNone => false
  | VBool b => b
  | VInt z => negb (z =? 0)%Z
  | VFloat x => negb (Qeq_bool x 0)
  | VStr s => negb (String.eqb s "")
  | VList empty => negb empty
  | VDict empty => negb empty
  end.

(** [int(v)]; a float is truncated toward zero. *)
Definition int_of `{Numerals} (v : Value) : Py.outcome Z :=
  match v with
  | VNone =>
      Py.Raise (Py.TypeError
        "int() argument must be a string or a number, not 'NoneType'")
  | VBool b => Py.Ok (if b then 1 else 0)%Z
  | VInt z => Py.Ok z
  | VFloat x => Py.Ok (Z.quot (Qnum x) (Zpos (Qden x)))
  | VStr s => Py.answer (int_of_str s)
  | VList _ =>
      Py.Raise (Py.TypeError "int() argument must be a string or a number, not 'list'")
  | VDict _ =>
      Py.Raise (Py.TypeError "int() argument must be a string or a number, not 'dict'")
  end.

(** [float(v)] *)
Definition float_of `{Numerals} (v : Value) : Py.outcome Q :=
  match v with
  | VBool b => Py.Ok (if b then 1 else 0)%Q
  | VInt z => Py.Ok (inject_Z z)
  | VFloat x => Py.Ok x
  | VStr s => Py.answer (float_of_str s)
  | VNone | VList _ | VDict _ =>
      Py.Raise (Py.TypeError "float() argument must be a string or a number")
  end.

(** The encoder modules and the values passed to them besides the sink and
    the features. *)
Inductive Encoder : Type := mvt | geojson | topojson | oscimap | mapbox.

Inductive PyVal : Type :=
| PNone
| PInt (z : Z)
| PBool (b : bool)
| PStr (s : string)
| PCoord (c : Coordinate.t)
| PTuple4 (a b c d : Q).

(** [tolerances = [6378137 * 2 * pi / (2 ** (zoom + 8)) for zoom in range(22)]] *)
Definition tolerances : list Q :=
  map (fun zoom : Z => (inject_Z (6378137 * 2) * Py.pi / inject_Z (2 ^ (zoom + 8)))%Q)
      (Py.range 22).

(** ** Module functions *)

Section Functions.
Context `{Database}.

(** [with Connection(dbinfo) as db: body]; closing the connection on exit
    has no effect that this file observes. *)
Definition Connection {A} (dbinfo : gmap string string)
    (body : Cursor -> Py.M Trace A) : Py.M Trace A :=
  match connect dbinfo with
  | inr db => body db
  | inl e => Py.raise e
  end.

(** [db.execute(query)] followed by reading the result set. *)
Definition execute (db : Cursor) (query : string)
    : Py.M Trace (list (gmap string SqlValue)) :=
  fun trace => (Py.answer (db query), (trace ++ [query])%list).

(** The bbox text of [query_columns] (six decimals, no padding). *)
Definition probe_bbox (srid : Z) (bounds : Bounds) : string :=
  let bbox := "ST_MakeBox2D(ST_MakePoint(" ++ Py.format_f 6 (xmin bounds) ++ ", "
                ++ Py.format_f 6 (ymin bounds) ++ "), ST_MakePoint("
                ++ Py.format_f 6 (xmax bounds) ++ ", "
                ++ Py.format_f 6 (ymax bounds) ++ "))" in
  "ST_SetSRID(" ++ bbox ++ ", " ++ Py.format_d srid ++ ")".

(** The statement one probe executes. *)
Definition probe_query (srid : Z) (subquery : string) (bounds : Bounds) : string :=
  Py.replace subquery "!bbox!" (probe_bbox srid bounds) ++ Py.nl ++ " LIMIT 1".

(** "Try zooming out three levels (8x) to look for features." *)
Definition expand (bounds : Bounds) : Bounds :=
  mkBounds (xmin bounds - (xmax bounds - xmin bounds) * (7 # 2))
           (ymin bounds - (ymax bounds - ymin bounds) * (7 # 2))
           (xmax bounds + (xmax bounds - xmin bounds) * (7 # 2))
           (ymax bounds + (ymax bounds - ymin bounds) * (7 # 2)).

(** The loop condition,
    [abs(bounds[2] - bounds[0]) * abs(bounds[2] - bounds[0]) < 1.61e15]. *)
Definition cutoff : Q := 1610000000000000 # 1.

Definition below_cutoff (bounds : Bounds) : bool :=
  Py.ltb (Qabs (xmax bounds - xmin bounds) * Qabs (xmax bounds - xmin bounds)) cutoff.

(** The [while] loop of [query_columns]; falling out of it returns [None]. *)
Fixpoint query_columns_loop (fuel : nat) (db : Cursor)
    (srid : Z) (subquery : string) (bounds : Bounds)
    : Py.M Trace (option (gset string)) :=
  if below_cutoff bounds then
    match fuel with
    | O => Py.lift Py.OutOfFuel
    | S fuel' =>
        let* rows := execute db (probe_query srid subquery bounds) in
        match rows with
        | [] => query_columns_loop fuel' db srid subquery (expand bounds)
        | row :: _ => Py.ret (Some (dom row))
        end
    end
  else Py.ret None.

Definition query_columns (fuel : nat) (dbinfo : gmap string string) (srid : Z)
    (subquery : string) (bounds : Bounds) : Py.M Trace (option (gset string)) :=
  Connection dbinfo (fun db => query_columns_loop fuel db srid subquery bounds).

(** The body of the [for row in db.fetchall()] loop of [get_features]. *)
Definition feature_of_row (row : gmap string SqlValue) : Py.outcome (option Feature) :=
  match row !! "__geometry__" with
  | None => Py.Raise (Py.KeyError "__geometry__")
  | Some geometry =>
      if is_null geometry then Py.Ok None
      else
        let wkb := bytes geometry in
        let prop := filter (fun kv => negb (bool_decide (kv.1 = "__geometry__")
                                             || bool_decide (kv.1 = "__id__"))
                                      && negb (is_null kv.2) = true) row in
        match row !! "__id__" with
        | Some id => Py.Ok (Some (Feature3 wkb prop id))
        | None => Py.Ok (Some (Feature2 wkb prop))
        end
  end.

Fixpoint features_of_rows (rows : list (gmap string SqlValue)) : Py.outcome (list Feature) :=
  match rows with
  | [] => Py.Ok []
  | row :: rest =>
      let? f := feature_of_row row in
      let? features := features_of_rows rest in
      Py.Ok (match f with Some x => x :: features | None => features end)
  end.

Definition get_features (dbinfo : gmap string string) (query : string)
    : Py.M Trace (list Feature) :=
  Connection dbinfo (fun db =>
    let* rows := execute db query in
    Py.lift (features_of_rows rows)).

End Functions.

(** *** [build_query] *)

Definition dquote : string := String (ascii_of_nat 34) EmptyString.

(** Lines 444-445: the padded, SRID-tagged bounding box. *)
Definition padded_bbox (srid : Z) (bounds : Bounds) (padding : Q) : string :=
  let bbox := "ST_MakeBox2D(ST_MakePoint(" ++ Py.format_f 2 (xmin bounds - padding) ++ ", "
                ++ Py.format_f 2 (ymin bounds - padding) ++ "), ST_MakePoint("
                ++ Py.format_f 2 (xmax bounds + padding) ++ ", "
                ++ Py.format_f 2 (ymax bounds + padding) ++ "))" in
  "ST_SetSRID(" ++ bbox ++ ", " ++ Py.format_d srid ++ ")".

(** The four optional wrappers of lines 448-459, each applied to the
    expression built so far. *)
Definition clip_step (is_clipped : bool) (bbox geom : string) : string :=
  if is_clipped then "ST_Intersection(" ++ geom ++ ", " ++ bbox ++ ")" else geom.

Definition simplify_step (tolerance : option Q) (geom : string) : string :=
  match tolerance with
  | Some t => "ST_SimplifyPreserveTopology(" ++ geom ++ ", " ++ Py.format_f 2 t ++ ")"
  | None => geom
  end.

Definition transform_step (is_geo : bool) (geom : string) : string :=
  if is_geo then "ST_Transform(" ++ geom ++ ", 4326)" else geom.

(** Truth value of [scale]: neither [None] nor zero. *)
Definition truthy (scale : option Q) : option Q :=
  match scale with
  | Some s => if Qeq_bool s 0 then None else Some s
  | None => None
  end.

(** The numbers line 459 formats after the geometry: the translation
    [-bounds[0]], [-bounds[1]] and, for either axis, the scale with the two
    bounds whose difference divides it. *)
Definition scale_operands (bounds : Bounds) (s : Q) : Q * Q * Q * Q * Q * Q * Q * Q :=
  (- xmin bounds, - ymin bounds, s, xmax bounds, xmin bounds, s, ymax bounds, ymin bounds)%Q.

Definition scale_step (scale : option Q) (bounds : Bounds) (geom : string) : string :=
  match truthy scale with
  | Some s =>
      let '(dx, dy, sx, x1, x0, sy, y1, y0) := scale_operands bounds s in
      "ST_TransScale(" ++ geom ++ ", " ++ Py.format_f 2 dx ++ ", " ++ Py.format_f 2 dy
        ++ ", (" ++ Py.format_f 2 sx ++ " / (" ++ Py.format_f 2 x1
        ++ " - " ++ Py.format_f 2 x0
        ++ ")), (" ++ Py.format_f 2 sy ++ " / (" ++ Py.format_f 2 y1
        ++ " - " ++ Py.format_f 2 y0 ++ ")))"
  | None => geom
  end.

(** Lines 446-459: the geometry expression selected by the query. *)
Definition geometry_expression (bbox : string) (bounds : Bounds) (tolerance : option Q)
    (is_geo is_clipped : bool) (scale : option Q) : string :=
  let geom := "q.__geometry__" in
  let geom := clip_step is_clipped bbox geom in
  let geom := simplify_step tolerance geom in
  let geom := transform_step is_geo geom in
  let geom := scale_step scale bounds geom in
  geom.

(** Lines 462-470: the projected columns; iterating [None] is a
    [TypeError], a column set without [__geometry__] is refused. *)
Definition select_columns (subcolumns : option (gset string)) : Py.outcome string :=
  match subcolumns with
  | None => Py.Raise (Py.TypeError "'NoneType' object is not iterable")
  | Some cols =>
      let columns :=
        map (fun c => "q." ++ dquote ++ c ++ dquote)
            (filter (fun c => c <> "__geometry__") (elements cols)) in
      if bool_decide ("__geometry__" ∈ cols) then
        let columns :=
          if bool_decide ("__id__" ∈ cols) then columns
          else (columns ++ ["Substr(MD5(ST_AsBinary(q.__geometry__)), 1, 10) AS __id__"])%list in
        Py.Ok (Py.join ", " columns)
      else Py.Raise (Py.Exception "There's supposed to be a __geometry__ column.")
  end.

(** The [WHERE] clause the template ends with. *)
Definition where_clause (bbox : string) : string :=
  "WHERE ST_IsValid(q.__geometry__)" ++ Py.nl
    ++ Py.spaces 16 ++ "AND q.__geometry__ && " ++ bbox ++ Py.nl
    ++ Py.spaces 16 ++ "AND ST_Intersects(q.__geometry__, " ++ bbox ++ ")".

(** The template of lines 472-480 filled from the local variables. *)
Definition query_template (columns geom subquery bbox : string) : string :=
  "SELECT " ++ columns ++ "," ++ Py.nl
    ++ Py.spaces 21 ++ "ST_AsBinary(" ++ geom ++ ") AS __geometry__" ++ Py.nl
    ++ Py.spaces 14 ++ "FROM (" ++ Py.nl
    ++ Py.spaces 16 ++ subquery ++ Py.nl
    ++ Py.spaces 16 ++ ") AS q" ++ Py.nl
    ++ Py.spaces 14 ++ where_clause bbox.

Definition build_query (srid : Z) (subquery : string) (subcolumns : option (gset string))
    (bounds : Bounds) (tolerance : option Q) (is_geo is_clipped : bool)
    (padding : Q) (scale : option Q) : Py.outcome string :=
  let bbox := padded_bbox srid bounds padding in
  let geom := geometry_expression bbox bounds tolerance is_geo is_clipped scale in
  let subquery := Py.replace subquery "!bbox!" bbox in
  let? columns := select_columns subcolumns in
  Py.Ok (query_template columns geom subquery bbox).

(** ** Response classes *)

(** What a [save] hands to an encoder module, [encode(out, features, ...)]:
    the module, the features and the remaining positional arguments.  The
    sink [out] is the receiver of the call and is left out. *)
Record Encode : Type := encode {
  encoder : Encoder;
  features : list Feature;
  context : list PyVal
}.

Module Response.
Section Response.
Context `{Database} `{Codecs} `{Geography}.

Record t : Type := mk {
  dbinfo : gmap string string;
  bounds : Bounds;
  zoom : Z;
  clip : bool;
  coord : Coordinate.t;
  layer_name : string;
  query : gmap string string
}.

(** [Response.__init__] *)
Definition init (dbinfo : gmap string string) (srid : Z) (subquery : string)
    (columns : option (gset string)) (bounds : Bounds) (tolerance : option Q)
    (zoom : Z) (clip : bool) (coord : Coordinate.t) (layer_name : string)
    : Py.outcome t :=
  let? geo_query := build_query srid subquery columns bounds tolerance true clip 0 None in
  let? merc_query := build_query srid subquery columns bounds tolerance false clip 0 None in
  let? unit_o := Py.getitem tolerances (Coordinate.zoom coord) in
  let? oscimap_query :=
    build_query srid subquery columns bounds tolerance false clip
                (oscimap_padding * unit_o) (Some oscimap_extents) in
  let? unit_m := Py.getitem tolerances (Coordinate.zoom coord) in
  let? mapbox_query :=
    build_query srid subquery columns bounds tolerance false clip
                (mapbox_padding * unit_m) (Some mapbox_extents) in
  Py.Ok (mk dbinfo bounds zoom clip coord layer_name
            (<["TopoJSON" := geo_query]>
               (<["JSON" := geo_query]>
                  (<["MVT" := merc_query]>
                     (<["OpenScienceMap" := oscimap_query]>
                        (<["Mapbox" := mapbox_query]> ∅)))))).

(** [Response.save]: the features are fetched before the format is
    dispatched on, so a format without a query is a [KeyError]. *)
Definition save (self : t) (format : string) : Py.M Trace Encode :=
  let* q := Py.lift (match query self !! format with
                     | Some q => Py.Ok q
                     | None => Py.Raise (Py.KeyError format)
                     end) in
  let* features := get_features (dbinfo self) q in
  if bool_decide (format = "MVT") then
    Py.ret (encode mvt features [])
  else if bool_decide (format = "JSON") then
    Py.ret (encode geojson features [PInt (zoom self); PBool (clip self)])
  else if bool_decide (format = "TopoJSON") then
    let ll := projLocation (xmin (bounds self), ymin (bounds self)) in
    let ur := projLocation (xmax (bounds self), ymax (bounds self)) in
    Py.ret (encode topojson features
                   [PTuple4 ll.1 ll.2 ur.1 ur.2; PBool (clip self)])
  else if bool_decide (format = "OpenScienceMap") then
    Py.ret (encode oscimap features [PCoord (coord self); PStr (layer_name self)])
  else if bool_decide (format = "Mapbox") then
    Py.ret (encode mapbox features [PCoord (coord self); PStr (layer_name self)])
  else Py.raise (Py.ValueError (format ++ " is not supported")).
End Response.
End Response.

Module EmptyResponse.
Section EmptyResponse.
Context `{Geography}.

Record t : Type := mk { bounds : Bounds }.

(** [EmptyResponse.save] *)
Definition save (self : t) (format : string) : Py.outcome Encode :=
  if bool_decide (format = "MVT") then
    Py.Ok (encode mvt [] [])
  else if bool_decide (format = "JSON") then
    Py.Ok (encode geojson [] [PInt 0; PBool false])
  else if bool_decide (format = "TopoJSON") then
    let ll := projLocation (xmin (bounds self), ymin (bounds self)) in
    let ur := projLocation (xmax (bounds self), ymax (bounds self)) in
    Py.Ok (encode topojson [] [PTuple4 ll.1 ll.2 ur.1 ur.2; PBool false])
  else if bool_decide (format = "OpenScienceMap") then
    Py.Ok (encode oscimap [] [PNone])
  else if bool_decide (format = "Mapbox") then
    Py.Ok (encode mapbox [] [PNone])
  else Py.Raise (Py.ValueError (format ++ " is not supported")).
End EmptyResponse.
End EmptyResponse.

(** What [Provider.renderTile] returns; [isinstance(tile, EmptyResponse)]
    is the test on the constructor. *)
Inductive Tile : Type :=
| TileResponse (r : Response.t)
| TileEmpty (e : EmptyResponse.t).

(** ** [Provider] *)

Module Provider.
Section Provider.
Context `{Database} `{Codecs}.

(** The attributes [__init__] leaves on the object; [queries] holds the
    texts already loaded from files and URLs, [columns] is the cache of
    discovered column sets, whose values can be [None]. *)
Record t : Type := mk {
  layer : Layer.t;
  dbinfo : gmap string string;
  clip : bool;
  srid : Z;
  simplify : Q;
  simplify_until : Z;
  queries : list (option string);
  columns : gmap string (option (gset string))
}.

Definition set_columns (self : t) (c : gmap string (option (gset string))) : t :=
  mk (layer self) (dbinfo self) (clip self) (srid self) (simplify self)
     (simplify_until self) (queries self) c.

(** Lines 145-148: [self.queries[coord.zoom]], falling back to
    [self.queries[-1]] on [IndexError]. *)
Definition resolve_query (queries : list (option string)) (zoom : Z)
    : Py.outcome (option string) :=
  match Py.getitem queries zoom with
  | Py.Raise Py.IndexError => Py.getitem queries (-1)
  | r => r
  end.

(** [not query]: [None] and the empty string are both false. *)
Definition nonempty (query : option string) : option string :=
  match query with
  | Some EmptyString => None
  | q => q
  end.

(** Line 160. *)
Definition resolve_tolerance (simplify : Q) (simplify_until : Z) (zoom : Z)
    : Py.outcome (option Q) :=
  if (zoom <? simplify_until)%Z then
    let? unit := Py.getitem tolerances zoom in
    Py.Ok (Some (simplify * unit)%Q)
  else Py.Ok None.

(** Lines 150-152. *)
Definition tile_bounds (layer : Layer.t) (coord : Coordinate.t) : Bounds :=
  let ll := Layer.coordinateProj layer (Coordinate.down coord) in
  let ur := Layer.coordinateProj layer (Coordinate.right coord) in
  mkBounds ll.1 ll.2 ur.1 ur.2.

(** Lines 157-158: fill the column cache on a miss. *)
Definition ensure_columns (fuel : nat) (query : string) (bounds : Bounds)
    : Py.M (t * Trace) unit :=
  let* st := Py.get in
  let self := st.1 in
  match columns self !! query with
  | Some _ => Py.ret tt
  | None =>
      let* found := Py.on_snd (query_columns fuel (dbinfo self) (srid self) query bounds) in
      let* st := Py.get in
      Py.put (set_columns st.1 (<[query := found]> (columns st.1)), st.2)
  end.

(** [Provider.renderTile]; the state is the provider object itself and
    the database trace.  The parameters [width], [height] and [srs] are
    not used by the body and are left out. *)
Definition renderTile (fuel : nat) (coord : Coordinate.t) : Py.M (t * Trace) Tile :=
  let* st := Py.get in
  let self := st.1 in
  let* query := Py.lift (resolve_query (queries self) (Coordinate.zoom coord)) in
  let bounds := tile_bounds (layer self) coord in
  match nonempty query with
  | None => Py.ret (TileEmpty (EmptyResponse.mk bounds))
  | Some query =>
      let* _ := ensure_columns fuel query bounds in
      let* tolerance :=
        Py.lift (resolve_tolerance (simplify self) (simplify_until self)
                                   (Coordinate.zoom coord)) in
      let* st := Py.get in
      let* cols := Py.lift (match columns st.1 !! query with
                            | Some c => Py.Ok c
                            | None => Py.Raise (Py.KeyError query)
                            end) in
      let* r := Py.lift (Response.init (dbinfo self) (srid self) query cols bounds
                                       tolerance (Coordinate.zoom coord) (clip self)
                                       coord (Layer.name (layer self))) in
      Py.ret (TileResponse r)
  end.

(** [Provider.getTypeByExtension]: mime-type and format. *)
Definition getTypeByExtension (extension : string) : Py.outcome (string * string) :=
  if bool_decide (Py.lower extension = "mvt") then
    Py.Ok ("application/octet-stream+mvt", "MVT")
  else if bool_decide (Py.lower extension = "json") then
    Py.Ok ("application/json", "JSON")
  else if bool_decide (Py.lower extension = "topojson") then
    Py.Ok ("application/json", "TopoJSON")
  else if bool_decide (Py.lower extension = "vtm") then
    Py.Ok ("image/png", "OpenScienceMap")
  else if bool_decide (Py.lower extension = "mapbox") then
    Py.Ok ("image/png", "Mapbox")
  else Py.Raise (Py.ValueError (extension ++ " is not a valid extension")).

Context `{Resources} `{Numerals}.

(** Line 112: the connection parameters [__init__] keeps. *)
Definition keys : list string :=
  ["host"; "user"; "password"; "database"; "port"; "dbname"].

(** Lines 124-140, the body of the loop over [queries]: a null entry
    stays null, the name of an existing file or an [http] URL is replaced
    by what it holds, any other text is the query itself. *)
Definition load_query (dirpath : string) (query : option string)
    : Py.outcome (option string) :=
  match query with
  | None => Py.Ok None
  | Some query =>
      let url := urljoin dirpath query in
      let '(scheme, path) := urlparse url in
      if bool_decide (scheme ∈ ["file"; ""]) && path_exists path then
        let? text := Py.answer (read_file path) in
        Py.Ok (Some text)
      else if bool_decide (scheme = "http") && negb (Py.contains " " url) then
        let? text := Py.answer (urlopen url) in
        Py.Ok (Some text)
      else Py.Ok (Some query)
  end.

Fixpoint load_queries (dirpath : string) (queries : list (option string))
    : Py.outcome (list (option string)) :=
  match queries with
  | [] => Py.Ok []
  | query :: rest =>
      let? loaded := load_query dirpath query in
      let? more := load_queries dirpath rest in
      Py.Ok (loaded :: more)
  end.

(** [Provider.__init__]; [dirpath] is [layer.config.dirpath].  An
    argument that is left out takes its default: [clip=True],
    [srid=900913], [simplify=1.0], [simplify_until=16].  Lines 115-118
    coerce the four before the queries are loaded. *)
Definition init (layer : Layer.t) (dirpath : string) (dbinfo : gmap string string)
    (queries : list (option string)) (clip srid simplify simplify_until : option Value)
    : Py.outcome t :=
  let dbinfo := filter (fun kv : string * string => kv.1 ∈ keys) dbinfo in
  let clip := bool_of (default (VBool true) clip) in
  let? srid := int_of (default (VInt 900913) srid) in
  let? simplify := float_of (default (VFloat 1) simplify) in
  let? simplify_until := int_of (default (VInt 16) simplify_until) in
  let? queries := load_queries dirpath queries in
  Py.Ok (mk layer dbinfo clip srid simplify simplify_until queries ∅).
End Provider.
End Provider.

(** ** [MultiResponse] *)

(** The objects a multi-layer request can reach and change: the layer
    registry [config.layers] (each layer standing for its provider, whose
    column cache is mutable) and the database trace. *)
Record World : Type := mkWorld {
  layers : gmap string Provider.t;
  executed : Trace
}.

(** The host framework as [get_tiles] uses it: [getTile(layer, coord,
    extension)] returning [(mime, body)], and [json.loads] with the
    ['type'] member of the parsed tile. *)
Class Framework : Type := {
  Json : Type;
  getTile : Provider.t -> Coordinate.t -> string -> Py.M World (string * string);
  json_loads : string -> Py.outcome Json;
  json_type : Json -> Py.outcome string
}.

Module MultiResponse.
Section MultiResponse.
Context `{Database} `{Codecs} `{Framework}.

Record t : Type := mk {
  names : list string;
  coord : Coordinate.t
}.

(** One entry of [feature_layers], the dictionary with keys ['name'] and
    ['features']. *)
Record FeatureLayer : Type := mkFeatureLayer {
  fl_name : string;
  fl_features : list Feature
}.

(** The [merge] call a [save] ends with: [merge(out, names, tiles,
    config, coord)] for the JSON family, [merge(out, feature_layers,
    coord)] for the binary family. *)
Inductive Merge : Type :=
| merge_tiles (enc : Encoder) (names : list string) (tiles : list Json)
    (config : gmap string Provider.t) (coord : Coordinate.t)
| merge_layers (enc : Encoder) (feature_layers : list FeatureLayer)
    (coord : Coordinate.t).

Definition module_name : string := "TileStache.Goodies.VecTiles.server".

(** Run a provider method on the registry entry [key], writing the
    provider back: the registry holds the object itself. *)
Definition with_layer {A} (key : string) (m : Py.M (Provider.t * Trace) A)
    : Py.M World A :=
  fun w =>
    match layers w !! key with
    | None => (Py.Raise (Py.KeyError key), w)
    | Some p =>
        let '(r, (p', trace)) := m (p, executed w) in
        (r, mkWorld (<[key := p']> (layers w)) trace)
    end.

Definition with_database {A} (m : Py.M Trace A) : Py.M World A :=
  fun w => let '(r, trace) := m (executed w) in (r, mkWorld (layers w) trace).

(** [[self.config.layers[name] for name in self.names]] *)
Fixpoint lookup_layers (config : gmap string Provider.t) (names : list string)
    : Py.outcome (list Provider.t) :=
  match names with
  | [] => Py.Ok []
  | name :: rest =>
      match config !! name with
      | None => Py.Raise (Py.KeyError name)
      | Some layer =>
          let? more := lookup_layers config rest in
          Py.Ok (layer :: more)
      end
  end.

Fixpoint mapM {S A B} (f : A -> Py.M S B) (l : list A) : Py.M S (list B) :=
  match l with
  | [] => Py.ret []
  | x :: rest =>
      let* y := f x in
      let* ys := mapM f rest in
      Py.ret (y :: ys)
  end.

Fixpoint mapO {A B} (f : A -> Py.outcome B) (l : list A) : Py.outcome (list B) :=
  match l with
  | [] => Py.Ok []
  | x :: rest =>
      let? y := f x in
      let? ys := mapO f rest in
      Py.Ok (y :: ys)
  end.

(** [zip(a, b)] *)
Fixpoint zip {A B} (a : list A) (b : list B) : list (A * B) :=
  match a, b with
  | x :: a', y :: b' => (x, y) :: zip a' b'
  | _, _ => []
  end.

(** [set(self.names) - set(self.config.layers.keys())] *)
Definition unknown_layers (names : list string) (config : gmap string Provider.t)
    : gset string :=
  list_to_set names ∖ dom config.

(** [MultiResponse.get_tiles] *)
Definition get_tiles (self : t) (format : string) : Py.M World (list Json) :=
  let* w := Py.get in
  let unknown := unknown_layers (names self) (layers w) in
  if bool_decide (unknown = ∅) then
    let* found := Py.lift (lookup_layers (layers w) (names self)) in
    let* fetched := mapM (fun layer => getTile layer (coord self) (Py.lower format)) found in
    match fetched with
    | [] => Py.raise (Py.ValueError "need more than 0 values to unpack")
    | _ =>
        let mimes := map fst fetched in
        let bodies := map snd fetched in
        let bad_mimes :=
          map (fun mn : string * string => (mn.2, mn.1))
              (filter (fun mn : string * string => Py.endswith mn.1 "/json" = false)
                      (zip mimes (names self))) in
        match bad_mimes with
        | (bad_name, bad_mime) :: _ =>
            Py.raise (Py.KnownUnknown
              (module_name ++ ".get_tiles encountered a non-JSON mime-type in "
                 ++ bad_name ++ " sub-layer: " ++ dquote ++ bad_mime ++ dquote))
        | [] =>
            let is_json := bool_decide (Py.lower format = "json") in
            let* tiles := Py.lift (mapO json_loads bodies) in
            let* types := Py.lift (mapO json_type tiles) in
            let expected := if is_json then "FeatureCollection" else "Topology" in
            let bad_types :=
              map (fun tn : string * string => (tn.2, tn.1))
                  (filter (fun tn : string * string => tn.1 <> expected)
                          (zip types (names self))) in
            match bad_types with
            | (bad_name, bad_type) :: _ =>
                Py.raise (Py.KnownUnknown
                  (module_name ++ ".get_tiles encountered a non-"
                     ++ (if is_json then "Feature" else "Topology")
                     ++ "Collection type in " ++ bad_name ++ " sub-layer: "
                     ++ dquote ++ bad_type ++ dquote))
            | [] => Py.ret tiles
            end
        end
    end
  else
    Py.raise (Py.KnownUnknown
      (module_name ++ ".get_tiles didn't recognize "
         ++ Py.join ", " (elements unknown) ++ " when trying to load "
         ++ Py.join ", " (names self) ++ "."))
  .

(** The loop of the two binary branches of [save]: render each layer,
    skip empty responses, fetch the features of the others. *)
Fixpoint feature_layers_of (fuel : nat) (format : string) (coord : Coordinate.t)
    (keys : list string) : Py.M World (list FeatureLayer) :=
  match keys with
  | [] => Py.ret []
  | key :: rest =>
      let* w := Py.get in
      match layers w !! key with
      | None => Py.raise (Py.KeyError key)
      | Some layer =>
          let* tile := with_layer key (Provider.renderTile fuel coord) in
          match tile with
          | TileEmpty _ => feature_layers_of fuel format coord rest
          | TileResponse r =>
              let* q := Py.lift (match Response.query r !! format with
                                 | Some q => Py.Ok q
                                 | None => Py.Raise (Py.KeyError format)
                                 end) in
              let* features := with_database (get_features (Response.dbinfo r) q) in
              let* more := feature_layers_of fuel format coord rest in
              Py.ret (mkFeatureLayer (Layer.name (Provider.layer layer)) features :: more)
          end
      end
  end.

(** [MultiResponse.save] *)
Definition save (fuel : nat) (self : t) (format : string) : Py.M World Merge :=
  if bool_decide (format = "TopoJSON") then
    let* tiles := get_tiles self format in
    let* w := Py.get in
    Py.ret (merge_tiles topojson (names self) tiles (layers w) (coord self))
  else if bool_decide (format = "JSON") then
    let* tiles := get_tiles self format in
    let* w := Py.get in
    Py.ret (merge_tiles geojson (names self) tiles (layers w) (coord self))
  else if bool_decide (format = "OpenScienceMap") then
    let* w := Py.get in
    let* _ := Py.lift (lookup_layers (layers w) (names self)) in
    let* feature_layers := feature_layers_of fuel "OpenScienceMap" (coord self) (names self) in
    Py.ret (merge_layers oscimap feature_layers (coord self))
  else if bool_decide (format = "Mapbox") then
    let* w := Py.get in
    let* _ := Py.lift (lookup_layers (layers w) (names self)) in
    let* feature_layers := feature_layers_of fuel "Mapbox" (coord self) (names self) in
    Py.ret (merge_layers mapbox feature_layers (coord self))
  else
    Py.raise (Py.ValueError
      (format ++ " is not supported for responses with multiple layers")).
End MultiResponse.
End MultiResponse.

(** ** [MultiProvider] *)

Module MultiProvider.
(** The provider keeps its layer, through which [renderTile] reaches the
    configuration (here the registry of the [World]), and the names of its
    sub-layers. *)
Record t : Type := mk { layer : Layer.t; names : list string }.

(** [MultiProvider.__init__] *)
Definition init (layer : Layer.t) (names : list string) : t := mk layer names.

(** [MultiProvider.__call__] assigns both attributes again. *)
Definition call (self : t) (layer : Layer.t) (names : list string) : t := mk layer names.

(** [MultiProvider.renderTile] *)
Definition renderTile (self : t) (coord : Coordinate.t) : MultiResponse.t :=
  MultiResponse.mk (names self) coord.

(** [MultiProvider.getTypeByExtension] *)
Definition getTypeByExtension (extension : string) : Py.outcome (string * string) :=
  if bool_decide (Py.lower extension = "json") then
    Py.Ok ("application/json", "JSON")
  else if bool_decide (Py.lower extension = "topojson") then
    Py.Ok ("application/json", "TopoJSON")
  else if bool_decide (Py.lower extension = "vtm") then
    Py.Ok ("image/png", "OpenScienceMap")
  else if bool_decide (Py.lower extension = "mapbox") then
    Py.Ok ("image/png", "Mapbox")
  else Py.Raise (Py.ValueError
         (extension ++ " is not a valid extension for responses with multiple layers")).
End MultiProvider.

(** ** Specification-side definitions *)

(** The per-zoom unit distance in the words of the specification:
    the earth constant times 2π over 2^(z+8). *)
Definition base_unit_distance (z : Z) : Q :=
  (inject_Z (6378137 * 2) * Py.pi / inject_Z (2 ^ (z + 8)))%Q.

(** The tolerance rule in the words of the specification. *)
Definition tolerance_rule (simplify : Q) (simplify_until z : Z) : option Q :=
  if (z <? simplify_until)%Z then Some (simplify * base_unit_distance z)%Q else None.

(** ** A small installation to run the code on

    A database with four relations ([roads], [rivers] and [islands], whose
    rows carry a geometry, and [labels], whose rows do not), the
    spherical-mercator tile grid, and a registry with a layer ["a"] that has
    a query from zoom 1 on and a layer ["b"] that has none. *)
Module Demo.

Definition contains (pat s : string) : bool := (0 <? Py.count_sub pat s)%nat.

Definition road : gmap string SqlValue :=
  <["__geometry__" := SqlBytes "0101"]> (<["name" := SqlText "Main St"]> ∅).

Definition label : gmap string SqlValue := <["label" := SqlText "x"]> ∅.

Definition river : gmap string SqlValue := <["__geometry__" := SqlBytes "0102"]> ∅.

(** Roads are everywhere; rivers exist but none meets a tile (the
    synthesized tile statement is the one with a validity filter); islands
    are met by every box except those with a corner at the origin. *)
Definition cursor : Cursor := fun statement =>
  if contains "FROM roads" statement then inr [road]
  else if contains "FROM rivers" statement then
    if contains "ST_IsValid" statement then inr [] else inr [river]
  else if contains "FROM labels" statement then inr [label]
  else if contains "FROM islands" statement then
    if contains "ST_MakePoint(0.000000, 0.000000)" statement then inr [] else inr [river]
  else inr [].

Definition db : Database := {| connect := fun _ => inr cursor |}.

Definition codecs : Codecs :=
  {| oscimap_padding := 5; oscimap_extents := 4096;
     mapbox_padding := 0; mapbox_extents := 4096 |}.

Definition geography : Geography := {| projLocation := fun p => p |}.

(** Spherical mercator: the world is [2π * 6378137] wide, tile
    [(row, column)] of zoom [z] is one [2^z]-th of it. *)
Definition world_width : Q := inject_Z (6378137 * 2) * Py.pi.

Definition mercator (c : Coordinate.t) : Q * Q :=
  let n := inject_Z (2 ^ Coordinate.zoom c) in
  ((inject_Z (Coordinate.column c) / n - (1 # 2)) * world_width,
   ((1 # 2) - inject_Z (Coordinate.row c) / n) * world_width)%Q.

Definition layer (name : string) : Layer.t := Layer.mk name 256 "+proj=merc" mercator.

Definition roads_query : string :=
  "SELECT way AS __geometry__, name FROM roads WHERE way && !bbox!".

Definition islands_query : string :=
  "SELECT way AS __geometry__ FROM islands WHERE way && !bbox!".

Definition nowhere_query : string :=
  "SELECT way AS __geometry__ FROM nowhere WHERE way && !bbox!".

Definition provider (name : string) (queries : list (option string)) : Provider.t :=
  Provider.mk (layer name) ∅ true 900913 1 16 queries ∅.

Definition a : Provider.t := provider "a" [None; Some roads_query].
Definition b : Provider.t := provider "b" [None].
Definition rivers : Provider.t :=
  provider "rivers" [Some "SELECT way AS __geometry__ FROM rivers"].
Definition nowhere : Provider.t := provider "nowhere" [Some nowhere_query].
(** The [nowhere] layer after an introspection that found no row. *)
Definition exhausted : Provider.t :=
  Provider.set_columns nowhere (<[nowhere_query := None]> ∅).
Definition labels : Provider.t := provider "labels" [Some "SELECT txt AS label FROM labels"].
(** A layer whose only query is the empty text. *)
Definition hollow : Provider.t := provider "hollow" [Some ""].

(** Tile 2/2/1, the quadrant north-east of the origin. *)
Definition quadrant : Bounds := Provider.tile_bounds (layer "islands") (Coordinate.mk 1 2 2).

(** The response of the [rivers] layer for tile 10/4/3 (a blank response
    stands in should the rendering fail). *)
Definition tile : Coordinate.t := Coordinate.mk 3 4 10.

Definition blank : Response.t :=
  Response.mk ∅ (mkBounds 0 0 0 0) 0 false tile "" ∅.

Definition rivers_response : Response.t :=
  match (@Provider.renderTile db codecs 1 tile (rivers, [])).1 with
  | Py.Ok (TileResponse r) => r
  | _ => blank
  end.

(** A padded, scaled and simplified variant of the roads query for the
    quadrant tile. *)
Definition roads_variant : string :=
  match build_query 900913 roads_query (Some (dom road)) quadrant (Some (3 # 2))
                    false true 5 (Some 4096%Q) with
  | Py.Ok q => q
  | _ => ""
  end.

Definition a_response : Response.t :=
  match (@Provider.renderTile db codecs 1 tile (a, [])).1 with
  | Py.Ok (TileResponse r) => r
  | _ => blank
  end.

Definition query_of (r : Response.t) (format : string) : string :=
  default "" (Response.query r !! format).

Definition world : World :=
  mkWorld (<["a" := a]> (<["b" := b]> ∅)) [].

Definition framework : Framework :=
  {| Json := string;
     getTile := fun _ _ _ => Py.ret ("application/json", "{}");
     json_loads := fun body => Py.Ok body;
     json_type := fun _ => Py.Ok "FeatureCollection" |}.

End Demo.

(** The formats [Response.save] and [EmptyResponse.save] dispatch on. *)
Definition supported_formats : list string :=
  ["MVT"; "JSON"; "TopoJSON"; "OpenScienceMap"; "Mapbox"].

(** The zoom resolver of the specification, [resolve(zoom) -> (template,
    tolerance)], assembled from the two steps of [renderTile] that compute
    them (lines 145-148 and line 160). *)
Definition resolve (self : Provider.t) (zoom : Z)
    : Py.outcome (option string) * Py.outcome (option Q) :=
  (Provider.resolve_query (Provider.queries self) zoom,
   Provider.resolve_tolerance (Provider.simplify self) (Provider.simplify_until self) zoom).

(** Number of configured zoom levels, [len(self.queries)]. *)
Definition len (self : Provider.t) : Z := Z.of_nat (length (Provider.queries self)).

(** The formats [MultiResponse.save] dispatches on, and its binary family. *)
Definition multi_formats : list string := ["TopoJSON"; "JSON"; "OpenScienceMap"; "Mapbox"].
Definition binary_formats : list string := ["OpenScienceMap"; "Mapbox"].

(** An error names the layer [c]: the [KeyError] of a failed registry
    lookup carries the key, the [KnownUnknown] of [get_tiles] lists the
    unrecognized names in its message. *)
Definition names_layer (e : Py.exn) (c : string) : Prop :=
  match e with
  | Py.KeyError key => key = c
  | Py.KnownUnknown msg =>
      exists (unknown : list string) (rest : string),
        c ∈ unknown
        /\ msg = "TileStache.Goodies.VecTiles.server.get_tiles didn't recognize "
                   ++ Py.join ", " unknown ++ rest
  | _ => False
  end.

(** The provider resolves its query for [zoom] to the empty state, so
    [renderTile] answers with an [EmptyResponse]. *)
Definition renders_empty (p : Provider.t) (zoom : Z) : bool :=
  match Provider.resolve_query (Provider.queries p) zoom with
  | Py.Ok q => match Provider.nonempty q with None => true | Some _ => false end
  | _ => false
  end.

(** The name under which a registry entry appears in [feature_layers], if
    it does. *)
Definition feature_layer_name (config : gmap string Provider.t) (zoom : Z) (key : string)
    : option string :=
  match config !! key with
  | Some p => if renders_empty p zoom then None else Some (Layer.name (Provider.layer p))
  | None => None
  end.

(** The x-extent the loop of [query_columns] tests, and the boxes it visits:
    [nth_box k bounds] is [bounds] after [k] failed probes. *)
Definition width (bounds : Bounds) : Q := xmax bounds - xmin bounds.

Definition nth_box (k : nat) (bounds : Bounds) : Bounds := Nat.iter k expand bounds.

(** The statements of the first [n] probes. *)
Definition probes (srid : Z) (subquery : string) (bounds : Bounds) (n : nat) : list string :=
  map (fun k => probe_query srid subquery (nth_box k bounds)) (seq 0 n).

(** ** Counting occurrences in assembled text

    A query is assembled from literal text and inserted pieces.  [occurs]
    is membership of a character in a string; a string is [numeric] when it
    is made of digits, sign and point; [render] concatenates a list of
    pieces, and [separated] checks that every inserted piece is fenced by
    literal characters foreign to the pattern counted. *)
Fixpoint occurs (c : ascii) (s : string) : bool :=
  match s with
  | EmptyString => false
  | String x s' => Ascii.eqb x c || occurs c s'
  end.

Fixpoint numeric (s : string) : bool :=
  match s with
  | EmptyString => true
  | String x s' => occurs x "0123456789.-" && numeric s'
  end.

Inductive piece : Type :=
| Lit (s : string)
| Hole (s : string).

Definition text (p : piece) : string :=
  match p with Lit s => s | Hole s => s end.

Fixpoint render (ps : list piece) : string :=
  match ps with
  | [] => EmptyString
  | [p] => text p
  | p :: rest => text p ++ render rest
  end.

Fixpoint total (pat : string) (ps : list piece) : nat :=
  match ps with
  | [] => O
  | p :: rest => (Py.count_sub pat (text p) + total pat rest)%nat
  end.

Definition first_foreign (pat s : string) : bool :=
  match s with
  | EmptyString => false
  | String c _ => negb (occurs c pat)
  end.

Definition last_foreign (pat s : string) : bool := first_foreign pat (Py.rev s).

Fixpoint separated (pat : string) (ps : list piece) : bool :=
  match ps with
  | [] => true
  | [_] => true
  | Lit l :: ((Hole _ :: _) as rest) => last_foreign pat l && separated pat rest
  | Hole _ :: ((Lit l :: _) as rest) => first_foreign pat l && separated pat rest
  | _ => false
  end.

(** The two function names the claims count in a query. *)
Definition sql_word (pat : string) : Prop := pat = "ST_IsValid" \/ pat = "ST_Intersects".

(** The wrappers of the geometry expression as opening and closing text,
    outermost first: affine scale, reprojection, simplification, clip. *)
Definition scale_open (scale : option Q) : string :=
  match truthy scale with Some _ => "ST_TransScale(" | None => "" end.

Definition scale_close (scale : option Q) (bounds : Bounds) : string :=
  match truthy scale with
  | Some s =>
      ", " ++ Py.format_f 2 (- xmin bounds) ++ ", " ++ Py.format_f 2 (- ymin bounds)
        ++ ", (" ++ Py.format_f 2 s ++ " / (" ++ Py.format_f 2 (xmax bounds)
        ++ " - " ++ Py.format_f 2 (xmin bounds)
        ++ ")), (" ++ Py.format_f 2 s ++ " / (" ++ Py.format_f 2 (ymax bounds)
        ++ " - " ++ Py.format_f 2 (ymin bounds) ++ ")))"
  | None => ""
  end.

Definition transform_open (is_geo : bool) : string :=
  if is_geo then "ST_Transform(" else "".
Definition transform_close (is_geo : bool) : string :=
  if is_geo then ", 4326)" else "".

Definition simplify_open (tolerance : option Q) : string :=
  match tolerance with Some _ => "ST_SimplifyPreserveTopology(" | None => "" end.
Definition simplify_close (tolerance : option Q) : string :=
  match tolerance with Some t => ", " ++ Py.format_f 2 t ++ ")" | None => "" end.

Definition clip_open (is_clipped : bool) : string :=
  if is_clipped then "ST_Intersection(" else "".
Definition clip_close (is_clipped : bool) (bbox : string) : string :=
  if is_clipped then ", " ++ bbox ++ ")" else "".

(** What PostGIS computes at a point for
    [ST_TransScale(g, dx, dy, sx / (x1 - x0), sy / (y1 - y0))]: it translates
    by [(dx, dy)], then scales by the two factors. *)
Definition trans_scale (operands : Q * Q * Q * Q * Q * Q * Q * Q) (p : Q * Q) : Q * Q :=
  let '(dx, dy, sx, x1, x0, sy, y1, y0) := operands in
  ((p.1 + dx) * (sx / (x1 - x0)), (p.2 + dy) * (sy / (y1 - y0)))%Q.

(** *** The numbers written into the query

    The operands of [ST_TransScale] reach the database as decimal text
    with two decimals.  [literal] reads such text as the database does: an
    optional sign, digits, a point, digits.  [written prec x] is the number
    that ['%.<prec>f' % x] writes, [x] rounded to [prec] decimals. *)
Fixpoint split_point (s : string) : option (string * string) :=
  match s with
  | EmptyString => None
  | String c rest =>
      if Ascii.eqb c "." then Some (EmptyString, rest)
      else match split_point rest with
           | Some (whole, fraction) => Some (String c whole, fraction)
           | None => None
           end
  end.

Definition natural (s : string) : option Z :=
  match NilEmpty.uint_of_string s with
  | Some u => Some (Z.of_N (N.of_uint u))
  | None => None
  end.

Definition unsigned_literal (s : string) : option Q :=
  match split_point s with
  | Some (whole, fraction) =>
      match natural whole, natural fraction with
      | Some w, Some f =>
          Some (inject_Z w + (f # Z.to_pos (10 ^ Z.of_nat (String.length fraction))))%Q
      | _, _ => None
      end
  | None => None
  end.

Definition literal (s : string) : option Q :=
  match s with
  | EmptyString => None
  | String c rest =>
      if Ascii.eqb c "-" then option_map Qopp (unsigned_literal rest)
      else unsigned_literal s
  end.

(** The text [t] denotes the number [v]. *)
Definition reads (t : string) (v : Q) : Prop :=
  exists u, literal t = Some u /\ (u == v)%Q.

Definition written (prec : nat) (x : Q) : Q :=
  let p := (10 ^ Z.of_nat prec)%Z in
  let m := Py.round_half_even (Z.abs (Qnum x) * p) (Zpos (Qden x)) in
  if (Qnum x <? 0)%Z then (- (m # Z.to_pos p))%Q else (m # Z.to_pos p)%Q.

(** The operands of line 459 as the query holds them. *)
Definition written_operands (bounds : Bounds) (s : Q) : Q * Q * Q * Q * Q * Q * Q * Q :=
  let '(dx, dy, sx, x1, x0, sy, y1, y0) := scale_operands bounds s in
  (written 2 dx, written 2 dy, written 2 sx, written 2 x1, written 2 x0,
   written 2 sy, written 2 y1, written 2 y0).

(** The scale factor the query holds for an axis: the written scale over
    the difference of the two written bounds. *)
Definition written_factor (s hi lo : Q) : Q :=
  (written 2 s / (written 2 hi - written 2 lo))%Q.

(** All digits. *)
Fixpoint digital (s : string) : bool :=
  match s with
  | EmptyString => true
  | String x s' => occurs x "0123456789" && digital s'
  end.

(** A whole multiple of one hundredth. *)
Definition hundredths (x : Q) : Prop := exists k : Z, (x == k # 100)%Q.

(** Boxes to scale: one with whole coordinates, one with coordinates that
    two decimals do not hold, one narrower than a hundredth; and the query
    for each, clipped to the box padded by 2, simplified, reprojected and
    scaled to 4096. *)
Module Scaled.

Definition whole : Bounds := mkBounds 10 20 30 40.

Definition eighths : Bounds := mkBounds (1 # 8) (1 # 8) (81 # 8) (81 # 8).

Definition thin : Bounds := mkBounds (1 # 1024) (1 # 1024) (3 # 1024) (3 # 1024).

Definition query (bounds : Bounds) : string :=
  match build_query 900913 Demo.roads_query (Some (dom Demo.road)) bounds (Some (3 # 2))
                    true true 2 (Some 4096%Q) with
  | Py.Ok q => q
  | _ => ""
  end.

End Scaled.

(** ** Definitions for the further properties *)

(** The file extensions the two [getTypeByExtension] methods know. *)
Definition extensions : list string := ["mvt"; "json"; "topojson"; "vtm"; "mapbox"].
Definition multi_extensions : list string := ["json"; "topojson"; "vtm"; "mapbox"].

(** The components of a feature tuple. *)
Definition feature_wkb (f : Feature) : string :=
  match f with Feature2 wkb _ => wkb | Feature3 wkb _ _ => wkb end.

Definition feature_prop (f : Feature) : gmap string SqlValue :=
  match f with Feature2 _ prop => prop | Feature3 _ prop _ => prop end.

Definition feature_id (f : Feature) : option SqlValue :=
  match f with Feature2 _ _ => None | Feature3 _ _ id => Some id end.

(** The geometry text of a row that yields a feature: the row has a
    [__geometry__] that is not null. *)
Definition row_wkb (row : gmap string SqlValue) : option string :=
  match row !! "__geometry__" with
  | Some geometry => if is_null geometry then None else Some (bytes geometry)
  | None => None
  end.

(** The y-extent of a box, which the loop of [query_columns] grows but
    never tests. *)
Definition height (bounds : Bounds) : Q := ymax bounds - ymin bounds.

(** Lines 160-162 of [renderTile], once the column cache has been
    consulted: [cached] is the entry of the cache for the query. *)
Definition answer_tile `{Codecs} (self : Provider.t) (coord : Coordinate.t) (query : string)
    (cached : option (option (gset string))) : Py.outcome Tile :=
  let? tolerance :=
    Provider.resolve_tolerance (Provider.simplify self) (Provider.simplify_until self)
      (Coordinate.zoom coord) in
  let? cols := match cached with
               | Some c => Py.Ok c
               | None => Py.Raise (Py.KeyError query)
               end in
  let? r := Response.init (Provider.dbinfo self) (Provider.srid self) query cols
              (Provider.tile_bounds (Provider.layer self) coord) tolerance
              (Coordinate.zoom coord) (Provider.clip self) coord
              (Layer.name (Provider.layer self)) in
  Py.Ok (TileResponse r).

(** ** Further sample installations

    Databases that hold nothing, that refuse the connection and that fail
    on every statement; a response built for the roads query; a directory
    with one query file and one reachable URL. *)
Module Sample.

Definition silent : Database := {| connect := fun _ => inr (fun _ => inr []) |}.

Definition refusing : Database :=
  {| connect := fun _ => inl (Py.DatabaseError "could not connect to server") |}.

Definition failing : Database :=
  {| connect := fun _ => inr (fun _ => inl (Py.DatabaseError "relation does not exist")) |}.

Definition box : Bounds := mkBounds 0 0 10 10.

(** The column list for the columns of a road. *)
Definition columns : string :=
  match select_columns (Some (dom Demo.road)) with
  | Py.Ok c => c
  | _ => ""
  end.

Definition response : Response.t :=
  match @Response.init Demo.codecs ∅ 900913 Demo.roads_query (Some (dom Demo.road)) box None
          2 true (Coordinate.mk 1 2 2) "a" with
  | Py.Ok r => r
  | _ => Demo.blank
  end.

(** The [a] layer after it has rendered tile 10/4/3. *)
Definition warm : Provider.t * Trace :=
  (@Provider.renderTile Demo.db Demo.codecs 1 Demo.tile (Demo.a, [])).2.

(** A layer without any query. *)
Definition bare : Provider.t := Demo.provider "bare" [].

(** A configuration directory with the file [roads.pgsql]; the network
    answers every [http] URL with the islands query. *)
Definition resources : Resources :=
  {| urljoin := fun dirpath query =>
       if Py.contains "://" query then query else dirpath ++ query;
     urlparse := fun url =>
       if String.prefix "http://" url then ("http", "/q")
       else if String.prefix "https://" url then ("https", "/q")
       else ("", url);
     path_exists := fun path => String.eqb path "/etc/tiles/roads.pgsql";
     read_file := fun _ => inr Demo.roads_query;
     urlopen := fun _ => inr Demo.islands_query |}.

Definition configured : list (option string) :=
  [None; Some "roads.pgsql"; Some "https://example.com/q.pgsql";
   Some "http://example.com/q.pgsql"; Some "SELECT way AS __geometry__ FROM rivers"].

Definition connection : gmap string string :=
  <["host" := "localhost"]> (<["sslmode" := "require"]> (<["user" := "osm"]> ∅)).

(** Numeric text is read when it is all digits. *)
Definition numerals : Numerals :=
  {| int_of_str := fun s =>
       match natural s with
       | Some z => if String.eqb s "" then inl (Py.ValueError "invalid literal for int()")
                   else inr z
       | None => inl (Py.ValueError "invalid literal for int()")
       end;
     float_of_str := fun s =>
       match natural s with
       | Some z => if String.eqb s "" then inl (Py.ValueError "could not convert string to float")
                   else inr (inject_Z z)
       | None => inl (Py.ValueError "could not convert string to float")
       end |}.

(** The options as a configuration may spell them: the text "false" for
    the clip flag, no SRID, a whole simplify factor and a fractional
    simplify-until zoom. *)
Definition loaded : Provider.t :=
  match @Provider.init resources numerals (Demo.layer "a") "/etc/tiles/" connection
          configured (Some (VStr "false")) None (Some (VInt 2)) (Some (VFloat (169 # 10)))
  with
  | Py.Ok p => p
  | _ => bare
  end.


End Sample.

(** Words counted in the text of a query: the names of the four optional
    wrappers, the bounding-box token and the digest function of the
    synthesized identifier. *)
Definition query_words : list string :=
  ["ST_Intersection"; "ST_SimplifyPreserveTopology"; "ST_Transform"; "ST_TransScale";
   "!bbox!"; "MD5"].

(** One occurrence of [word] when it is the word counted and its wrapper
    is switched on. *)
Definition hits (word pat : string) (on : bool) : nat :=
  if on && String.eqb word pat then 1%nat else 0%nat.

(** The column set has an [__id__], so none is synthesized. *)
Definition has_id (cs : gset string) : bool := bool_decide ("__id__" ∈ cs).

(** * Properties *)

(** ** The monad and list indexing *)

Lemma obind_Ok {A B} (m : Py.outcome A) (k : A -> Py.outcome B) (b : B) :
  Py.obind m k = Py.Ok b -> exists a, m = Py.Ok a /\ k a = Py.Ok b.
Proof. destruct m as [a| |]; simpl; intros E; try discriminate. by exists a. Qed.

Lemma bind_Ok {S A B} (m : Py.M S A) (k : A -> Py.M S B) (s s' : S) (b : B) :
  Py.bind m k s = (Py.Ok b, s') ->
  exists a s1, m s = (Py.Ok a, s1) /\ k a s1 = (Py.Ok b, s').
Proof.
  unfold Py.bind. destruct (m s) as [[a| |] s1]; intros E; try discriminate.
  by exists a, s1.
Qed.

Lemma lift_Ok {S A} (o : Py.outcome A) (s s' : S) (a : A) :
  Py.lift o s = (Py.Ok a, s') -> o = Py.Ok a /\ s' = s.
Proof. unfold Py.lift. intros E. by inversion E. Qed.

Lemma getitem_in_range {A} (l : list A) (i : Z) :
  (0 <= i < Z.of_nat (length l))%Z ->
  Py.getitem l i = match nth_error l (Z.to_nat i) with
                   | Some a => Py.Ok a
                   | None => Py.Raise Py.IndexError
                   end.
Proof.
  intros [Hlo Hhi]. unfold Py.getitem.
  destruct (Z.ltb_spec i 0) as [Hneg|_]; [lia|].
  destruct (Z.leb_spec 0 i) as [_|Hneg]; [|lia].
  destruct (Z.ltb_spec i (Z.of_nat (length l))) as [_|Hge]; [|lia].
  reflexivity.
Qed.

Lemma getitem_past_end {A} (l : list A) (i : Z) :
  (Z.of_nat (length l) <= i)%Z -> Py.getitem l i = Py.Raise Py.IndexError.
Proof.
  intros Hge. unfold Py.getitem.
  destruct (Z.ltb_spec i 0) as [Hneg|_]; [lia|].
  destruct (Z.ltb_spec i (Z.of_nat (length l))) as [Hlt|_]; [lia|].
  by rewrite andb_false_r.
Qed.

Lemma getitem_range_map {A} (f : Z -> A) (n : nat) (i : Z) :
  (0 <= i < Z.of_nat n)%Z -> Py.getitem (map f (Py.range n)) i = Py.Ok (f i).
Proof.
  intros Hi. rewrite getitem_in_range.
  - unfold Py.range. rewrite nth_error_map, nth_error_map.
    rewrite nth_error_seq. destruct (Nat.ltb_spec (Z.to_nat i) n) as [_|Hge]; [|lia].
    simpl. by rewrite Z2Nat.id by lia.
  - unfold Py.range. by rewrite !length_map, length_seq.
Qed.

(** ** Tolerance by zoom *)

Lemma tolerances_length : length tolerances = 22%nat.
Proof. reflexivity. Qed.

Lemma tolerances_lookup (z : Z) :
  (0 <= z <= 21)%Z -> Py.getitem tolerances z = Py.Ok (base_unit_distance z).
Proof.
  intros Hz. unfold tolerances.
  rewrite (getitem_range_map (fun zoom => base_unit_distance zoom)); [done | lia].
Qed.

Lemma tolerances_past_end (z : Z) :
  (22 <= z)%Z -> Py.getitem tolerances z = Py.Raise Py.IndexError.
Proof. intros Hz. apply getitem_past_end. rewrite tolerances_length. lia. Qed.

Lemma resolve_tolerance_rule (simplify : Q) (simplify_until z : Z) :
  (0 <= z <= 21)%Z ->
  Provider.resolve_tolerance simplify simplify_until z
  = Py.Ok (tolerance_rule simplify simplify_until z).
Proof.
  intros Hz. unfold Provider.resolve_tolerance, tolerance_rule.
  destruct (z <? simplify_until)%Z; [|done].
  by rewrite tolerances_lookup.
Qed.

Section RenderTile.
Context `{Database} `{Codecs}.

(** What a [renderTile] that returns a [Response] went through. *)
Lemma renderTile_Response fuel coord self trace r st' :
  Provider.renderTile fuel coord (self, trace) = (Py.Ok (TileResponse r), st') ->
  exists query cols tol,
    Provider.resolve_query (Provider.queries self) (Coordinate.zoom coord) = Py.Ok (Some query)
    /\ Provider.resolve_tolerance (Provider.simplify self) (Provider.simplify_until self)
         (Coordinate.zoom coord) = Py.Ok tol
    /\ Response.init (Provider.dbinfo self) (Provider.srid self) query cols
         (Provider.tile_bounds (Provider.layer self) coord) tol (Coordinate.zoom coord)
         (Provider.clip self) coord (Layer.name (Provider.layer self)) = Py.Ok r
    /\ query <> "".
Proof.
  unfold Provider.renderTile. intros E.
  apply bind_Ok in E as (st0 & s0 & E0 & E). inversion E0; subst st0 s0; clear E0.
  apply bind_Ok in E as (q & s1 & Eq & E). apply lift_Ok in Eq as [Eq ->].
  simpl in E.
  destruct (Provider.nonempty q) as [query|] eqn:Hq; [|discriminate].
  apply bind_Ok in E as (u & s2 & _ & E).
  apply bind_Ok in E as (tol & s3 & Et & E). apply lift_Ok in Et as [Et ->].
  apply bind_Ok in E as (st3 & s4 & Eg & E). inversion Eg; subst st3 s4; clear Eg.
  apply bind_Ok in E as (cols & s5 & _ & E).
  apply bind_Ok in E as (r' & s6 & Er & E). apply lift_Ok in Er as [Er ->].
  inversion E; subst r'.
  assert (q = Some query /\ query <> "") as [-> Hne].
  { destruct q as [[|c s]|]; simpl in Hq; [done | | done].
    inversion Hq; subst query. done. }
  by exists query, cols, tol.
Qed.
End RenderTile.

Section Tolerance.
Context `{Database} `{Codecs}.

(** Every entry of a response's query dictionary was synthesized by
    [build_query] from the tolerance given to the constructor. *)
Lemma init_queries dbinfo srid subquery cols bounds tol z clip coord lname r :
  Response.init dbinfo srid subquery cols bounds tol z clip coord lname = Py.Ok r ->
  forall format q, Response.query r !! format = Some q ->
    exists is_geo padding scale,
      build_query srid subquery cols bounds tol is_geo clip padding scale = Py.Ok q.
Proof.
  unfold Response.init. intros E.
  apply obind_Ok in E as (geo & Egeo & E).
  apply obind_Ok in E as (merc & Emerc & E).
  apply obind_Ok in E as (uo & _ & E).
  apply obind_Ok in E as (osm & Eosm & E).
  apply obind_Ok in E as (um & _ & E).
  apply obind_Ok in E as (mbx & Embx & E).
  inversion E; subst r; clear E. simpl. intros format q Hq.
  repeat (apply lookup_insert_Some in Hq as [[_ <-]|[_ Hq]]; [eauto|]).
  by rewrite lookup_empty in Hq.
Qed.

Lemma init_zoom_in_table dbinfo srid subquery cols bounds tol z clip coord lname r :
  Response.init dbinfo srid subquery cols bounds tol z clip coord lname = Py.Ok r ->
  (Coordinate.zoom coord < 22)%Z.
Proof.
  unfold Response.init. intros E.
  apply obind_Ok in E as (geo & _ & E).
  apply obind_Ok in E as (merc & _ & E).
  apply obind_Ok in E as (uo & Eu & _).
  destruct (Z.lt_ge_cases (Coordinate.zoom coord) 22) as [Hlt|Hge]; [done|].
  by rewrite tolerances_past_end in Eu.
Qed.

(** C1.  For a zoom z below [simplify_until] (and inside the 22-entry
    table, zooms 0..21) the tolerance is [simplify] times the unit distance
    [6378137 * 2π / 2^(z+8)], which is the table entry of z; for a zoom at
    or above [simplify_until] it is absent; and whenever [renderTile]
    returns a response at a zoom z >= 0, the response was constructed from
    the resolved template with exactly this tolerance, and every query in
    it was synthesized by [build_query] from it. *)
Theorem tolerance_by_zoom (simplify : Q) (simplify_until : Z) (z : Z) :
  ((0 <= z <= 21)%Z -> (z < simplify_until)%Z ->
     Provider.resolve_tolerance simplify simplify_until z
     = Py.Ok (Some (simplify * base_unit_distance z)%Q)
     /\ Py.getitem tolerances z = Py.Ok (base_unit_distance z))
  /\ ((simplify_until <= z)%Z ->
        Provider.resolve_tolerance simplify simplify_until z = Py.Ok None)
  /\ (forall fuel coord self trace r st',
        Coordinate.zoom coord = z -> (0 <= z)%Z ->
        Provider.simplify self = simplify ->
        Provider.simplify_until self = simplify_until ->
        Provider.renderTile fuel coord (self, trace) = (Py.Ok (TileResponse r), st') ->
        exists query cols,
          Provider.resolve_query (Provider.queries self) z = Py.Ok (Some query)
          /\ Response.init (Provider.dbinfo self) (Provider.srid self) query cols
               (Provider.tile_bounds (Provider.layer self) coord)
               (tolerance_rule simplify simplify_until z) z (Provider.clip self) coord
               (Layer.name (Provider.layer self)) = Py.Ok r
          /\ forall format q, Response.query r !! format = Some q ->
               exists is_geo padding scale,
                 build_query (Provider.srid self) query cols
                   (Provider.tile_bounds (Provider.layer self) coord)
                   (tolerance_rule simplify simplify_until z)
                   is_geo (Provider.clip self) padding scale = Py.Ok q).
Proof.
  split; [|split].
  - intros Hz Hlt. split; [|by apply tolerances_lookup].
    rewrite resolve_tolerance_rule by done. unfold tolerance_rule.
    destruct (Z.ltb_spec z simplify_until); [done | lia].
  - intros Hge. unfold Provider.resolve_tolerance.
    destruct (Z.ltb_spec z simplify_until); [lia | done].
  - intros fuel coord self trace r st' Hzoom Hz0 Hs Hsu E.
    apply renderTile_Response in E as (query & cols & tol & Hq & Etol & Einit & _).
    pose proof (init_zoom_in_table _ _ _ _ _ _ _ _ _ _ _ Einit) as Hz22.
    rewrite Hzoom in Hq, Hz22. rewrite Hzoom, Hs, Hsu in Etol. rewrite Hzoom in Einit.
    rewrite resolve_tolerance_rule in Etol by lia.
    inversion Etol; subst tol; clear Etol.
    exists query, cols. split; [exact Hq|]. split; [exact Einit|].
    intros format q Hfq.
    exact (init_queries _ _ _ _ _ _ _ _ _ _ _ Einit format q Hfq).
Qed.
End Tolerance.

Lemma tolerance_by_zoom_witness :
  Provider.resolve_tolerance 1 16 10 = Py.Ok (Some (1 * base_unit_distance 10)%Q)
  /\ Py.getitem tolerances 10 = Py.Ok (base_unit_distance 10)
  /\ Provider.resolve_tolerance 1 16 16 = Py.Ok None
  /\ exists query cols,
       @Response.init Demo.codecs ∅ 900913 query cols (Provider.tile_bounds (Demo.layer "a") Demo.tile)
         (Some (1 * base_unit_distance 10)%Q) 10 true Demo.tile "a"
       = Py.Ok Demo.a_response.
Proof.
  pose proof (@tolerance_by_zoom Demo.db Demo.codecs 1 16 10) as (Hlow & _ & Hrender).
  pose proof (@tolerance_by_zoom Demo.db Demo.codecs 1 16 16) as (_ & Hhigh & _).
  specialize (Hlow ltac:(lia) ltac:(lia)) as [Htol Htab].
  split; [exact Htol | split; [exact Htab | split; [apply Hhigh; lia |]]].
  destruct (Hrender 1%nat Demo.tile Demo.a [] Demo.a_response
              (@Provider.renderTile Demo.db Demo.codecs 1 Demo.tile (Demo.a, [])).2)
    as (query & cols & _ & Hinit & _);
    [reflexivity | lia | reflexivity | reflexivity | vm_compute; reflexivity |].
  exists query, cols. exact Hinit.
Defined.

(** ** Zoom resolution past the end of the query table *)

Lemma getitem_last {A} (l : list A) :
  Py.getitem l (-1) = Py.getitem l (Z.of_nat (length l) - 1).
Proof.
  unfold Py.getitem. destruct l as [|a l]; [reflexivity|].
  set (n := Z.of_nat (length (a :: l))).
  assert (0 < n)%Z as Hn by (subst n; simpl; lia).
  destruct (Z.ltb_spec (-1) 0) as [_|?]; [|lia].
  destruct (Z.ltb_spec (n - 1) 0) as [?|_]; [lia|].
  by replace (-1 + n)%Z with (n - 1)%Z by lia.
Qed.

Lemma resolve_query_past_end (queries : list (option string)) (z : Z) :
  (Z.of_nat (length queries) <= z)%Z ->
  Provider.resolve_query queries z
  = Provider.resolve_query queries (Z.of_nat (length queries) - 1).
Proof.
  intros Hz. unfold Provider.resolve_query.
  rewrite (getitem_past_end queries z Hz), <- getitem_last.
  by destruct (Py.getitem queries (-1)) as [q|[]|].
Qed.

Lemma base_unit_distance_pos (z : Z) : (0 <= z)%Z -> (0 < base_unit_distance z)%Q.
Proof.
  intros Hz. unfold base_unit_distance.
  assert (0 < 2 ^ (z + 8))%Z as Hp by (apply Z.pow_pos_nonneg; lia).
  apply Qlt_shift_div_l.
  - unfold Qlt, inject_Z; simpl. lia.
  - rewrite Qmult_0_l. reflexivity.
Qed.

(** Halving: one zoom level further the unit distance is half as large. *)
Lemma base_unit_distance_succ (z : Z) :
  (0 <= z)%Z -> (base_unit_distance z == 2 * base_unit_distance (z + 1))%Q.
Proof.
  intros Hz. unfold base_unit_distance.
  replace (z + 1 + 8)%Z with (Z.succ (z + 8)) by lia.
  rewrite Z.pow_succ_r by lia.
  assert (0 < 2 ^ (z + 8))%Z as Hp by (apply Z.pow_pos_nonneg; lia).
  rewrite (inject_Z_mult 2 (2 ^ (z + 8))).
  assert (~ inject_Z (2 ^ (z + 8)) == 0)%Q as Hne.
  { unfold Qeq, inject_Z; simpl. lia. }
  revert Hne. generalize (inject_Z (2 ^ (z + 8))) as x.
  generalize (inject_Z (6378137 * 2) * Py.pi)%Q as a.
  intros a x Hne. change (inject_Z 2) with 2%Q. field. exact Hne.
Qed.

(** The unit distance strictly decreases with the zoom. *)
Lemma base_unit_distance_decreasing (z k : Z) :
  (0 <= z)%Z -> (0 < k)%Z ->
  (base_unit_distance (z + k) < base_unit_distance z)%Q.
Proof.
  intros Hz Hk.
  assert (forall n : nat,
            (base_unit_distance (z + Z.of_nat (S n)) < base_unit_distance z)%Q) as Hn.
  { induction n as [|n IH].
    - replace (z + Z.of_nat 1)%Z with (z + 1)%Z by lia.
      pose proof (base_unit_distance_pos (z + 1) ltac:(lia)).
      pose proof (base_unit_distance_succ z Hz). lra.
    - replace (z + Z.of_nat (S (S n)))%Z with ((z + Z.of_nat (S n)) + 1)%Z by lia.
      pose proof (base_unit_distance_pos (z + Z.of_nat (S n) + 1) ltac:(lia)).
      pose proof (base_unit_distance_succ (z + Z.of_nat (S n)) ltac:(lia)). lra. }
  specialize (Hn (Z.to_nat k - 1)%nat).
  by replace (Z.of_nat (S (Z.to_nat k - 1))) with k in Hn by lia.
Qed.

(** C3 (amended).  For a zoom z at or past the end of the query table the
    template is the one of the last entry, zoom [len - 1].  The tolerance is
    not sticky: it follows the rule of line 160 at the requested zoom z
    itself.  It agrees with the tolerance of zoom [len - 1] when that zoom is
    already at or above [simplify_until] (both absent); below
    [simplify_until] it is [simplify] times a strictly smaller unit
    distance. *)
Theorem resolve_past_end (self : Provider.t) (z : Z) :
  (len self <= z)%Z ->
  (resolve self z).1 = (resolve self (len self - 1)).1
  /\ ((Provider.simplify_until self <= len self - 1)%Z ->
        (resolve self z).2 = Py.Ok None
        /\ (resolve self (len self - 1)).2 = Py.Ok None)
  /\ ((1 <= len self)%Z -> (z <= 21)%Z -> (z < Provider.simplify_until self)%Z ->
        (resolve self z).2
        = Py.Ok (Some (Provider.simplify self * base_unit_distance z)%Q)
        /\ (resolve self (len self - 1)).2
           = Py.Ok (Some (Provider.simplify self * base_unit_distance (len self - 1))%Q)
        /\ (base_unit_distance z < base_unit_distance (len self - 1))%Q).
Proof.
  intros Hz. unfold resolve, len in *. simpl. split; [|split].
  - by apply resolve_query_past_end.
  - intros Hsu. unfold Provider.resolve_tolerance.
    destruct (Z.ltb_spec z (Provider.simplify_until self)); [lia|].
    destruct (Z.ltb_spec (Z.of_nat (length (Provider.queries self)) - 1)
                         (Provider.simplify_until self)); [lia|].
    done.
  - intros Hlen Hz21 Hsu.
    set (n := Z.of_nat (length (Provider.queries self))) in *.
    rewrite !resolve_tolerance_rule by lia. unfold tolerance_rule.
    destruct (Z.ltb_spec z (Provider.simplify_until self)); [|lia].
    destruct (Z.ltb_spec (n - 1) (Provider.simplify_until self)); [|lia].
    split; [done | split; [done|]].
    replace z with ((n - 1) + (z - (n - 1)))%Z at 1 by lia.
    apply base_unit_distance_decreasing; lia.
Qed.

Lemma resolve_past_end_witness :
  (resolve Demo.a 5).1 = (resolve Demo.a 1).1
  /\ (resolve Demo.a 5).2 = Py.Ok (Some (1 * base_unit_distance 5)%Q)
  /\ (resolve Demo.a 1).2 = Py.Ok (Some (1 * base_unit_distance 1)%Q)
  /\ (base_unit_distance 5 < base_unit_distance 1)%Q.
Proof.
  destruct (resolve_past_end Demo.a 5) as (Hq & _ & Ht).
  - unfold len. simpl. lia.
  - split; [exact Hq|]. apply Ht; unfold len; simpl; lia.
Defined.

(** C3 as stated fails on the tolerance: with two configured zooms and
    [simplify_until = 16], zoom 5 resolves the template of zoom 1 but a
    tolerance sixteen times smaller than that of zoom 1. *)
Lemma resolve_past_end_counterexample :
  (len Demo.a <= 5)%Z
  /\ (resolve Demo.a 5).1 = (resolve Demo.a (len Demo.a - 1)).1
  /\ (resolve Demo.a 5).2 = Py.Ok (Some (1 * base_unit_distance 5)%Q)
  /\ (resolve Demo.a (len Demo.a - 1)).2 = Py.Ok (Some (1 * base_unit_distance 1)%Q)
  /\ ~ (1 * base_unit_distance 5 == 1 * base_unit_distance 1)%Q
  /\ resolve Demo.a 5 <> resolve Demo.a (len Demo.a - 1).
Proof.
  split; [unfold len; simpl; lia|].
  split; [reflexivity|]. split; [reflexivity|]. split; [reflexivity|].
  split.
  - intros Heq. vm_compute in Heq. discriminate.
  - intros Heq. apply (f_equal snd) in Heq. vm_compute in Heq. discriminate.
Qed.

(** ** Empty responses against responses without rows *)

Section Saves.
Context `{Database} `{Geography}.

Lemma get_features_no_rows dbinfo q cur trace :
  connect dbinfo = inr cur -> cur q = inr [] ->
  get_features dbinfo q trace = (Py.Ok [], (trace ++ [q])%list).
Proof.
  intros Hc Hq. unfold get_features, Connection. rewrite Hc.
  unfold Py.bind, execute. by rewrite Hq.
Qed.

(** C2 (amended).  For each of the five formats, [EmptyResponse.save] and
    [Response.save] on a query without rows dispatch to the same encoder
    with an empty feature sequence.  The remaining arguments coincide for
    MVT only: [EmptyResponse] passes the constants zoom 0 and clip [False]
    to the GeoJSON encoder, the same geographic bounds but clip [False] to
    the TopoJSON encoder, and the single argument [None] where [Response]
    passes the coordinate and the layer name to the OpenScienceMap and
    Mapbox encoders. *)
Theorem empty_save_same_encoder (r : Response.t) (format q : string) cur trace :
  format ∈ supported_formats ->
  Response.query r !! format = Some q ->
  connect (Response.dbinfo r) = inr cur ->
  cur q = inr [] ->
  exists enc ctx_r ctx_e,
    Response.save r format trace = (Py.Ok (encode enc [] ctx_r), (trace ++ [q])%list)
    /\ EmptyResponse.save (EmptyResponse.mk (Response.bounds r)) format
       = Py.Ok (encode enc [] ctx_e)
    /\ ((format = "MVT" /\ enc = mvt /\ ctx_r = [] /\ ctx_e = [])
        \/ (format = "JSON" /\ enc = geojson
            /\ ctx_r = [PInt (Response.zoom r); PBool (Response.clip r)]
            /\ ctx_e = [PInt 0; PBool false])
        \/ (format = "TopoJSON" /\ enc = topojson
            /\ (exists lon0 lat0 lon1 lat1,
                  ctx_r = [PTuple4 lon0 lat0 lon1 lat1; PBool (Response.clip r)]
                  /\ ctx_e = [PTuple4 lon0 lat0 lon1 lat1; PBool false]))
        \/ (format = "OpenScienceMap" /\ enc = oscimap
            /\ ctx_r = [PCoord (Response.coord r); PStr (Response.layer_name r)]
            /\ ctx_e = [PNone])
        \/ (format = "Mapbox" /\ enc = mapbox
            /\ ctx_r = [PCoord (Response.coord r); PStr (Response.layer_name r)]
            /\ ctx_e = [PNone])).
Proof.
  intros Hf Hq Hc Hrows. unfold supported_formats in Hf.
  unfold Response.save. rewrite Hq. unfold Py.bind, Py.lift.
  rewrite (get_features_no_rows _ _ cur trace Hc Hrows).
  unfold EmptyResponse.save.
  repeat (apply elem_of_cons in Hf as [->|Hf]);
    [ exists mvt | exists geojson | exists topojson | exists oscimap | exists mapbox
    | by apply elem_of_nil in Hf ];
    simpl; do 2 eexists; (split; [reflexivity | split; [reflexivity|]]).
  - left. done.
  - right; left. done.
  - right; right; left. split; [done | split; [done|]]. by do 4 eexists.
  - right; right; right; left. done.
  - right; right; right; right. done.
Qed.
End Saves.

Lemma empty_save_same_encoder_witness :
  exists enc ctx,
    (@Response.save Demo.db Demo.geography Demo.rivers_response "MVT" []).1
    = Py.Ok (encode enc [] ctx)
    /\ @EmptyResponse.save Demo.geography
         (EmptyResponse.mk (Response.bounds Demo.rivers_response)) "MVT"
       = Py.Ok (encode enc [] ctx).
Proof.
  destruct (@empty_save_same_encoder Demo.db Demo.geography Demo.rivers_response "MVT"
              (Demo.query_of Demo.rivers_response "MVT") Demo.cursor [])
    as (enc & cr & ce & Hr & He & Hctx).
  - unfold supported_formats. apply elem_of_cons. by left.
  - vm_compute. reflexivity.
  - reflexivity.
  - vm_compute. reflexivity.
  - destruct Hctx as [(_ & _ & Hcr & Hce)|[(Hf & _)|[(Hf & _)|[(Hf & _)|(Hf & _)]]]];
      try discriminate Hf.
    exists enc, []. rewrite Hr, He, Hcr, Hce. split; reflexivity.
Defined.

(** C2 as stated fails on the remaining arguments: for tile 10/4/3 of the
    [rivers] layer, whose tile query returns no row, the GeoJSON encoder is
    called with zoom 10 and clip [True] by [Response.save] but with zoom 0
    and clip [False] by [EmptyResponse.save]; the OpenScienceMap encoder gets
    two arguments from the one and a single [None] from the other. *)
Lemma empty_save_same_encoder_counterexample :
  Demo.cursor (Demo.query_of Demo.rivers_response "JSON") = inr []
  /\ (@Response.save Demo.db Demo.geography Demo.rivers_response "JSON" []).1
     = Py.Ok (encode geojson [] [PInt 10; PBool true])
  /\ @EmptyResponse.save Demo.geography
       (EmptyResponse.mk (Response.bounds Demo.rivers_response)) "JSON"
     = Py.Ok (encode geojson [] [PInt 0; PBool false])
  /\ (@Response.save Demo.db Demo.geography Demo.rivers_response "OpenScienceMap" []).1
     = Py.Ok (encode oscimap [] [PCoord Demo.tile; PStr "rivers"])
  /\ @EmptyResponse.save Demo.geography
       (EmptyResponse.mk (Response.bounds Demo.rivers_response)) "OpenScienceMap"
     = Py.Ok (encode oscimap [] [PNone])
  /\ (@Response.save Demo.db Demo.geography Demo.rivers_response "JSON" []).1
     <> @EmptyResponse.save Demo.geography
          (EmptyResponse.mk (Response.bounds Demo.rivers_response)) "JSON".
Proof.
  split; [vm_compute; reflexivity|].
  split; [vm_compute; reflexivity|].
  split; [vm_compute; reflexivity|].
  split; [vm_compute; reflexivity|].
  split; [vm_compute; reflexivity|].
  vm_compute. intros Heq. discriminate Heq.
Qed.

(** ** Text of the synthesized query *)

Lemma append_assoc (a b c : string) : (a ++ b) ++ c = a ++ (b ++ c).
Proof.
  induction a as [|x a IH]; [reflexivity|].
  change (String x ((a ++ b) ++ c) = String x (a ++ (b ++ c))). by f_equal.
Qed.

Lemma append_nil_r (a : string) : a ++ "" = a.
Proof.
  induction a as [|x a IH]; [reflexivity|].
  change (String x (a ++ "") = String x a). by f_equal.
Qed.

Lemma occurs_false_cons c x s :
  occurs c (String x s) = false -> x <> c /\ occurs c s = false.
Proof.
  simpl. intros Hf. apply orb_false_iff in Hf as [Hx Hs].
  split; [by apply Ascii.eqb_neq | done].
Qed.

(** A character foreign to the pattern cuts every match attempt. *)
Lemma prefix_app_sep pat a c b :
  occurs c pat = false ->
  String.prefix pat (a ++ String c b) = String.prefix pat a.
Proof.
  revert a. induction pat as [|p pat IH]; intros a Hc.
  - by destruct a.
  - apply occurs_false_cons in Hc as [Hpc Hc].
    destruct a as [|x a]; simpl.
    + destruct (ascii_dec p c); [congruence | done].
    + destruct (ascii_dec p x); [by apply IH | done].
Qed.

Lemma count_sub_app_sep pat a c b :
  pat <> "" -> occurs c pat = false ->
  Py.count_sub pat (a ++ String c b) = (Py.count_sub pat a + Py.count_sub pat b)%nat.
Proof.
  intros Hpat Hc. induction a as [|x a IH].
  - simpl. destruct pat as [|p pat]; [done|].
    apply occurs_false_cons in Hc as [Hpc _].
    simpl. destruct (ascii_dec p c); [congruence | done].
  - change (String x a ++ String c b) with (String x (a ++ String c b)).
    cbn [Py.count_sub]. rewrite IH.
    change (String x (a ++ String c b)) with (String x a ++ String c b).
    rewrite prefix_app_sep by done. lia.
Qed.

Lemma count_sub_nil pat : Py.count_sub pat "" = O.
Proof. reflexivity. Qed.

Lemma rev_snoc s c : Py.rev (s ++ String c "") = String c (Py.rev s).
Proof.
  induction s as [|x s IH]; [reflexivity|].
  change (Py.rev (s ++ String c "") ++ String x "" = String c (Py.rev s ++ String x "")).
  by rewrite IH.
Qed.

Lemma rev_involutive s : Py.rev (Py.rev s) = s.
Proof.
  induction s as [|x s IH]; [reflexivity|].
  change (Py.rev (Py.rev s ++ String x "") = String x s).
  by rewrite rev_snoc, IH.
Qed.

Lemma last_foreign_split pat l :
  last_foreign pat l = true ->
  exists l' c, l = l' ++ String c "" /\ occurs c pat = false.
Proof.
  unfold last_foreign, first_foreign. destruct (Py.rev l) as [|c r] eqn:Hr; [done|].
  intros Hc. exists (Py.rev r), c. split.
  - rewrite <- (rev_involutive l), Hr. reflexivity.
  - by apply negb_true_iff.
Qed.

(** A literal that ends with a foreign character counts on its own. *)
Lemma count_sub_lit_app pat l rest :
  pat <> "" -> last_foreign pat l = true ->
  Py.count_sub pat (l ++ rest) = (Py.count_sub pat l + Py.count_sub pat rest)%nat.
Proof.
  intros Hpat Hl. apply last_foreign_split in Hl as (l' & c & -> & Hc).
  rewrite append_assoc. change (String c "" ++ rest) with (String c rest).
  rewrite !count_sub_app_sep by done. simpl. lia.
Qed.

(** So does a piece followed by a literal that starts with one. *)
Lemma count_sub_hole_app pat h l rest :
  pat <> "" -> first_foreign pat l = true ->
  Py.count_sub pat (h ++ l ++ rest)
  = (Py.count_sub pat h + Py.count_sub pat (l ++ rest))%nat.
Proof.
  intros Hpat Hl. destruct l as [|c l]; [done|]. simpl in Hl.
  apply negb_true_iff in Hl.
  change (String c l ++ rest) with (String c (l ++ rest)).
  rewrite count_sub_app_sep by done.
  f_equal. destruct pat as [|p pat]; [done|].
  apply occurs_false_cons in Hl as [Hpc _].
  cbn [Py.count_sub String.prefix]. destruct (ascii_dec p c); [congruence | done].
Qed.

Lemma render_cons p q rest : render (p :: q :: rest) = text p ++ render (q :: rest).
Proof. reflexivity. Qed.

(** Counting in separated text is counting piece by piece. *)
Lemma count_sub_render pat ps :
  pat <> "" -> separated pat ps = true ->
  Py.count_sub pat (render ps) = total pat ps.
Proof.
  intros Hpat. induction ps as [|p ps IH]; [done|].
  destruct ps as [|q ps].
  - intros _. simpl. lia.
  - intros Hsep. rewrite render_cons.
    change (total pat (p :: q :: ps))
      with (Py.count_sub pat (text p) + total pat (q :: ps))%nat.
    destruct p as [l|h], q as [l'|h']; try discriminate Hsep.
    + cbn [separated] in Hsep. apply andb_true_iff in Hsep as [Hl Hsep].
      rewrite <- (IH Hsep). cbn [text]. by apply count_sub_lit_app.
    + cbn [separated] in Hsep. apply andb_true_iff in Hsep as [Hl Hsep].
      rewrite <- (IH Hsep). cbn [text].
      destruct ps as [|r ps].
      * cbn [render text]. rewrite <- (append_nil_r l') at 1 2.
        by apply count_sub_hole_app.
      * rewrite render_cons. cbn [text]. by apply count_sub_hole_app.
Qed.

(** *** Formatted numbers *)

Lemma numeric_app a b : numeric (a ++ b) = numeric a && numeric b.
Proof.
  induction a as [|x a IH]; [reflexivity|].
  change (numeric (String x (a ++ b)) = numeric (String x a) && numeric b).
  cbn [numeric]. rewrite IH. by rewrite andb_assoc.
Qed.

Lemma numeric_uint u : numeric (NilEmpty.string_of_uint u) = true.
Proof. induction u; cbn [NilEmpty.string_of_uint numeric]; [done|..]; by rewrite IHu. Qed.

Lemma numeric_digits n : numeric (Py.digits n) = true.
Proof.
  unfold Py.digits, NilZero.string_of_uint.
  destruct (N.to_uint n) eqn:E; [reflexivity|..]; rewrite <- E; apply numeric_uint.
Qed.

Lemma numeric_zero_pad w s : numeric s = true -> numeric (Py.zero_pad w s) = true.
Proof.
  intros Hs. induction w as [|w IH]; [done|].
  cbn [Py.zero_pad]. destruct (String.length s <=? w)%nat; [|done].
  cbn [numeric]. by rewrite IH.
Qed.

Lemma numeric_format_d z : numeric (Py.format_d z) = true.
Proof.
  unfold Py.format_d. rewrite numeric_app, numeric_digits.
  by destruct (z <? 0)%Z.
Qed.

Lemma numeric_format_f prec x : numeric (Py.format_f prec x) = true.
Proof.
  unfold Py.format_f. rewrite !numeric_app, numeric_digits.
  rewrite numeric_zero_pad by apply numeric_digits.
  by destruct (Qnum x <? 0)%Z.
Qed.

Lemma count_sub_numeric pat s :
  first_foreign "0123456789.-" pat = true -> numeric s = true ->
  Py.count_sub pat s = O.
Proof.
  destruct pat as [|p pat]; [done|]. cbn [first_foreign]. intros Hp.
  apply negb_true_iff in Hp.
  induction s as [|x s IH]; [done|].
  cbn [numeric Py.count_sub String.prefix]. intros Hs.
  apply andb_true_iff in Hs as [Hx Hs]. rewrite (IH Hs).
  destruct (ascii_dec p x) as [->|]; [congruence | done].
Qed.

Lemma sql_word_nonempty pat : sql_word pat -> pat <> "".
Proof. by intros [-> | ->]. Qed.

Lemma format_f_clean pat prec x : sql_word pat -> Py.count_sub pat (Py.format_f prec x) = O.
Proof.
  intros Hp. apply count_sub_numeric; [|apply numeric_format_f].
  by destruct Hp as [-> | ->].
Qed.

Lemma format_d_clean pat z : sql_word pat -> Py.count_sub pat (Py.format_d z) = O.
Proof.
  intros Hp. apply count_sub_numeric; [|apply numeric_format_d].
  by destruct Hp as [-> | ->].
Qed.

(** *** The pieces of [build_query] *)

Ltac count_pieces ps :=
  rewrite ?append_assoc;
  match goal with
  | |- context [Py.count_sub ?pat ?s] => change s with (render ps)
  end;
  rewrite (count_sub_render _ ps) by (first [discriminate | reflexivity]);
  cbn [total text].

Ltac eval_counts :=
  repeat match goal with
         | |- context [Py.count_sub ?p ?s] =>
             tryif is_var s then fail else
               let v := eval vm_compute in (Py.count_sub p s) in
               lazymatch v with
               | O => change (Py.count_sub p s) with O
               | S O => change (Py.count_sub p s) with (S O)
               end
         end.

Lemma padded_bbox_clean pat srid bounds padding :
  sql_word pat -> Py.count_sub pat (padded_bbox srid bounds padding) = O.
Proof.
  intros Hp. unfold padded_bbox.
  pose proof (fun prec x => format_f_clean pat prec x Hp) as Hf.
  pose proof (format_d_clean pat srid Hp) as Hd.
  destruct Hp as [-> | ->];
    count_pieces
      [Lit "ST_SetSRID(ST_MakeBox2D(ST_MakePoint(";
       Hole (Py.format_f 2 (xmin bounds - padding)); Lit ", ";
       Hole (Py.format_f 2 (ymin bounds - padding)); Lit "), ST_MakePoint(";
       Hole (Py.format_f 2 (xmax bounds + padding)); Lit ", ";
       Hole (Py.format_f 2 (ymax bounds + padding)); Lit ")), ";
       Hole (Py.format_d srid); Lit ")"];
    by rewrite !Hf, Hd.
Qed.

Lemma clip_step_clean pat is_clipped bbox geom :
  sql_word pat -> Py.count_sub pat bbox = O -> Py.count_sub pat geom = O ->
  Py.count_sub pat (clip_step is_clipped bbox geom) = O.
Proof.
  intros Hp Hb Hg. unfold clip_step. destruct is_clipped; [|done].
  destruct Hp as [-> | ->];
    count_pieces [Lit "ST_Intersection("; Hole geom; Lit ", "; Hole bbox; Lit ")"];
    by rewrite Hb, Hg.
Qed.

Lemma simplify_step_clean pat tolerance geom :
  sql_word pat -> Py.count_sub pat geom = O ->
  Py.count_sub pat (simplify_step tolerance geom) = O.
Proof.
  intros Hp Hg. unfold simplify_step. destruct tolerance as [t|]; [|done].
  pose proof (format_f_clean pat 2 t Hp) as Hf.
  destruct Hp as [-> | ->];
    count_pieces [Lit "ST_SimplifyPreserveTopology("; Hole geom; Lit ", ";
                  Hole (Py.format_f 2 t); Lit ")"];
    by rewrite Hf, Hg.
Qed.

Lemma transform_step_clean pat is_geo geom :
  sql_word pat -> Py.count_sub pat geom = O ->
  Py.count_sub pat (transform_step is_geo geom) = O.
Proof.
  intros Hp Hg. unfold transform_step. destruct is_geo; [|done].
  destruct Hp as [-> | ->];
    count_pieces [Lit "ST_Transform("; Hole geom; Lit ", 4326)"];
    by rewrite Hg.
Qed.

Lemma scale_step_clean pat scale bounds geom :
  sql_word pat -> Py.count_sub pat geom = O ->
  Py.count_sub pat (scale_step scale bounds geom) = O.
Proof.
  intros Hp Hg. unfold scale_step. destruct (truthy scale) as [s|]; [|done].
  cbn [scale_operands].
  pose proof (fun x => format_f_clean pat 2 x Hp) as Hf.
  destruct Hp as [-> | ->];
    count_pieces
      [Lit "ST_TransScale("; Hole geom; Lit ", ";
       Hole (Py.format_f 2 (- xmin bounds)); Lit ", ";
       Hole (Py.format_f 2 (- ymin bounds)); Lit ", (";
       Hole (Py.format_f 2 s); Lit " / (";
       Hole (Py.format_f 2 (xmax bounds)); Lit " - ";
       Hole (Py.format_f 2 (xmin bounds)); Lit ")), (";
       Hole (Py.format_f 2 s); Lit " / (";
       Hole (Py.format_f 2 (ymax bounds)); Lit " - ";
       Hole (Py.format_f 2 (ymin bounds)); Lit ")))"];
    by rewrite !Hf, Hg.
Qed.

(** Neither function name occurs in the geometry expression, whatever the
    wrappers applied: [ST_Intersection] is not [ST_Intersects]. *)
Lemma geometry_expression_clean pat srid bounds padding tolerance is_geo is_clipped scale :
  sql_word pat ->
  Py.count_sub pat
    (geometry_expression (padded_bbox srid bounds padding) bounds tolerance
       is_geo is_clipped scale) = O.
Proof.
  intros Hp. unfold geometry_expression.
  apply scale_step_clean, transform_step_clean, simplify_step_clean, clip_step_clean;
    try done.
  - by apply padded_bbox_clean.
  - by destruct Hp as [-> | ->].
Qed.

(** The [WHERE] clause has each of the two tests once. *)
Lemma where_clause_count pat bbox :
  sql_word pat -> Py.count_sub pat bbox = O ->
  Py.count_sub pat (where_clause bbox) = 1%nat.
Proof.
  intros Hp Hb. unfold where_clause.
  destruct Hp as [-> | ->];
    count_pieces
      [Lit ("WHERE ST_IsValid(q.__geometry__)" ++ Py.nl ++ Py.spaces 16
              ++ "AND q.__geometry__ && ");
       Hole bbox;
       Lit (Py.nl ++ Py.spaces 16 ++ "AND ST_Intersects(q.__geometry__, ");
       Hole bbox; Lit ")"];
    by rewrite Hb.
Qed.

Lemma query_template_count pat columns geom subquery bbox :
  sql_word pat -> Py.count_sub pat bbox = O -> Py.count_sub pat geom = O ->
  Py.count_sub pat (query_template columns geom subquery bbox)
  = (1 + Py.count_sub pat columns + Py.count_sub pat subquery)%nat.
Proof.
  intros Hp Hb Hg. unfold query_template, where_clause.
  destruct Hp as [-> | ->];
    count_pieces
      [Lit "SELECT "; Hole columns;
       Lit ("," ++ Py.nl ++ Py.spaces 21 ++ "ST_AsBinary("); Hole geom;
       Lit (") AS __geometry__" ++ Py.nl ++ Py.spaces 14 ++ "FROM (" ++ Py.nl
              ++ Py.spaces 16);
       Hole subquery;
       Lit (Py.nl ++ Py.spaces 16 ++ ") AS q" ++ Py.nl ++ Py.spaces 14
              ++ "WHERE ST_IsValid(q.__geometry__)" ++ Py.nl ++ Py.spaces 16
              ++ "AND q.__geometry__ && ");
       Hole bbox;
       Lit (Py.nl ++ Py.spaces 16 ++ "AND ST_Intersects(q.__geometry__, ");
       Hole bbox; Lit ")"];
    rewrite Hb, Hg; eval_counts; lia.
Qed.

Lemma join_clean pat (l : list string) :
  sql_word pat -> Forall (fun s => Py.count_sub pat s = O) l ->
  Py.count_sub pat (Py.join ", " l) = O.
Proof.
  intros Hp Hl. induction Hl as [|x l Hx Hl IH]; [done|].
  destruct l as [|y l]; [done|].
  change (Py.join ", " (x :: y :: l)) with (x ++ ", " ++ Py.join ", " (y :: l)).
  destruct Hp as [-> | ->];
    count_pieces [Hole x; Lit ", "; Hole (Py.join ", " (y :: l))];
    by rewrite Hx, IH.
Qed.

(** Column names free of the word give a column list free of it. *)
Lemma select_columns_clean pat (cs : gset string) columns :
  sql_word pat ->
  (forall c, c ∈ cs -> Py.count_sub pat c = O) ->
  select_columns (Some cs) = Py.Ok columns ->
  Py.count_sub pat columns = O.
Proof.
  intros Hp Hcs. unfold select_columns.
  destruct (bool_decide ("__geometry__" ∈ cs)); [|done].
  intros E. inversion E; subst columns; clear E.
  apply join_clean; [done|].
  assert (Forall (fun s => Py.count_sub pat s = O)
            (map (fun c => "q." ++ dquote ++ c ++ dquote)
                 (filter (fun c => c <> "__geometry__") (elements cs)))) as Hquoted.
  { apply List.Forall_forall. intros s Hs. apply (proj2 (list_elem_of_In _ _)) in Hs.
    apply list_elem_of_fmap in Hs as (c & -> & Hc).
    apply list_elem_of_filter in Hc as [_ Hc]. apply elem_of_elements in Hc.
    pose proof (Hcs c Hc) as Hcount. unfold dquote.
    destruct Hp as [-> | ->];
      count_pieces [Lit ("q." ++ String (ascii_of_nat 34) ""); Hole c;
                    Lit (String (ascii_of_nat 34) "")];
      by rewrite Hcount. }
  destruct (bool_decide ("__id__" ∈ cs)); [done|].
  apply Forall_app. split; [done|].
  apply Forall_cons. split; [|done]. by destruct Hp as [-> | ->].
Qed.


(** *** The order of the wrappers and the scale step *)

(** Reading back what ['%.2f'] writes. *)

Lemma digital_uint u : digital (NilEmpty.string_of_uint u) = true.
Proof. induction u; cbn [NilEmpty.string_of_uint digital]; rewrite ?IHu; reflexivity. Qed.

Lemma digital_digits n : digital (Py.digits n) = true.
Proof.
  unfold Py.digits, NilZero.string_of_uint.
  destruct (N.to_uint n); try reflexivity; apply digital_uint.
Qed.

Lemma digits_nonempty n : Py.digits n <> "".
Proof.
  unfold Py.digits, NilZero.string_of_uint.
  destruct (N.to_uint n); discriminate.
Qed.

Lemma digit_not c (x : ascii) :
  occurs c "0123456789" = true -> occurs x "0123456789" = false -> Ascii.eqb c x = false.
Proof.
  intros Hc Hx. destruct (Ascii.eqb_spec c x) as [-> |]; [congruence | reflexivity].
Qed.

Lemma split_point_digital a b :
  digital a = true -> split_point (a ++ "." ++ b) = Some (a, b).
Proof.
  induction a as [| c a IH]; intros Ha; [reflexivity |].
  cbn [digital] in Ha. apply andb_true_iff in Ha as [Hc Ha].
  change (String c a ++ "." ++ b) with (String c (a ++ "." ++ b)).
  cbn [split_point]. rewrite (digit_not c "." Hc eq_refl), (IH Ha). reflexivity.
Qed.

Lemma natural_digits n : natural (Py.digits n) = Some (Z.of_N n).
Proof.
  unfold natural, Py.digits, NilZero.string_of_uint.
  assert (NilEmpty.uint_of_string
            (match N.to_uint n with
             | Decimal.Nil => "0"
             | _ => NilEmpty.string_of_uint (N.to_uint n)
             end) = Some (N.to_uint n)) as ->.
  { destruct n as [| p]; [reflexivity |]. cbn [N.to_uint].
    pose proof (DecimalPos.Unsigned.to_uint_nonnil p) as Hn.
    destruct (Pos.to_uint p) eqn:E; try congruence; rewrite <- E; apply NilEmpty.usu. }
  rewrite DecimalN.Unsigned.of_to. reflexivity.
Qed.

(** The two decimals of a number below one hundred. *)
Lemma fraction_table :
  forallb (fun n : nat =>
             match natural (Py.zero_pad 2 (Py.digits (N.of_nat n))) with
             | Some v => (v =? Z.of_nat n)%Z
                         && (String.length (Py.zero_pad 2 (Py.digits (N.of_nat n))) =? 2)%nat
             | None => false
             end) (seq 0 100) = true.
Proof. vm_compute. reflexivity. Qed.

Lemma natural_fraction (r : Z) :
  (0 <= r < 100)%Z ->
  natural (Py.zero_pad 2 (Py.digits (Z.to_N r))) = Some r
  /\ String.length (Py.zero_pad 2 (Py.digits (Z.to_N r))) = 2%nat.
Proof.
  intros Hr. pose proof fraction_table as Ht.
  rewrite forallb_forall in Ht. specialize (Ht (Z.to_nat r)).
  replace (N.of_nat (Z.to_nat r)) with (Z.to_N r) in Ht by lia.
  rewrite Z2Nat.id in Ht by lia.
  destruct (natural (Py.zero_pad 2 (Py.digits (Z.to_N r)))) as [v |].
  - assert (((v =? r)%Z
             && (String.length (Py.zero_pad 2 (Py.digits (Z.to_N r))) =? 2)%nat) = true)
      as Hv by (apply Ht, in_seq; lia).
    apply andb_true_iff in Hv as [Hv Hl].
    apply Z.eqb_eq in Hv as ->. apply Nat.eqb_eq in Hl. split; [reflexivity | exact Hl].
  - assert (false = true) as Hf by (apply Ht, in_seq; lia). discriminate Hf.
Qed.

Lemma round_half_even_nonneg n d :
  (0 <= n)%Z -> (0 < d)%Z -> (0 <= Py.round_half_even n d)%Z.
Proof.
  intros Hn Hd. unfold Py.round_half_even.
  pose proof (Z.div_pos n d Hn Hd) as Hq.
  destruct (2 * (n mod d) ?= d)%Z; [destruct (Z.even (n / d)) | |]; lia.
Qed.

Lemma unsigned_literal_decimal (m : Z) :
  (0 <= m)%Z ->
  exists u,
    unsigned_literal (Py.digits (Z.to_N (m / 100)) ++ "."
                        ++ Py.zero_pad 2 (Py.digits (Z.to_N (m mod 100)))) = Some u
    /\ (u == m # 100)%Q.
Proof.
  intros Hm. unfold unsigned_literal.
  rewrite split_point_digital by apply digital_digits.
  rewrite natural_digits.
  destruct (natural_fraction (m mod 100)) as [-> ->];
    [apply Z.mod_pos_bound; lia |].
  eexists. split; [reflexivity |].
  rewrite Z2N.id by (apply Z.div_pos; lia).
  change (Z.to_pos (10 ^ Z.of_nat 2)) with 100%positive.
  unfold Qeq. cbn [Qnum Qden Qplus inject_Z].
  pose proof (Z.div_mod m 100 ltac:(lia)) as Hdm. lia.
Qed.

(** What the literal written for [x] denotes is [x] rounded to two
    decimals. *)
Lemma literal_format_f (x : Q) : reads (Py.format_f 2 x) (written 2 x).
Proof.
  unfold reads, Py.format_f, written.
  change (10 ^ Z.of_nat 2)%Z with 100%Z. change (Z.to_pos 100) with 100%positive.
  set (m := Py.round_half_even (Z.abs (Qnum x) * 100) (Z.pos (Qden x))).
  assert (0 <= m)%Z as Hm by (apply round_half_even_nonneg; lia).
  destruct (unsigned_literal_decimal m Hm) as (u & Hu & Hv).
  destruct (Qnum x <? 0)%Z.
  - change ("-" ++ ?s) with (String "-" s). cbn [literal]. rewrite Ascii.eqb_refl, Hu.
    exists (- u)%Q. split; [reflexivity | rewrite Hv; reflexivity].
  - change ("" ++ ?s) with s.
    pose proof (digital_digits (Z.to_N (m / 100))) as Hd.
    pose proof (digits_nonempty (Z.to_N (m / 100))) as Hne.
    revert Hu. destruct (Py.digits (Z.to_N (m / 100))) as [| c rest]; [congruence |].
    cbn [digital] in Hd. apply andb_true_iff in Hd as [Hc _].
    change (String c rest ++ ?s) with (String c (rest ++ s)).
    intros Hu. cbn [literal]. rewrite (digit_not c "-" Hc eq_refl), Hu.
    exists u. split; [reflexivity | exact Hv].
Qed.

(** *** Rounding to two decimals *)

Lemma round_half_even_near n d :
  (0 <= n)%Z -> (0 < d)%Z ->
  (2 * Z.abs (Py.round_half_even n d * d - n) <= d)%Z.
Proof.
  intros Hn Hd. unfold Py.round_half_even.
  pose proof (Z.div_mod n d ltac:(lia)) as Hdm.
  pose proof (Z.mod_pos_bound n d Hd) as Hr.
  destruct (Z.compare_spec (2 * (n mod d)) d) as [He | Hl | Hg];
    [destruct (Z.even (n / d)) | |]; nia.
Qed.

Lemma round_half_even_exact k d :
  (0 < d)%Z -> Py.round_half_even (k * d) d = k.
Proof.
  intros Hd. unfold Py.round_half_even.
  rewrite Z.div_mul, Z.mod_mul by lia.
  destruct (Z.compare_spec (2 * 0) d); lia.
Qed.

Lemma written_opp (prec : nat) (x : Q) : (written prec (- x) == - written prec x)%Q.
Proof.
  unfold written. cbn [Qopp Qnum Qden]. rewrite Z.abs_opp.
  set (m := Py.round_half_even _ _).
  destruct (Z.ltb_spec (- Qnum x) 0), (Z.ltb_spec (Qnum x) 0); try lia.
  - reflexivity.
  - rewrite Qopp_involutive. reflexivity.
  - assert (Qnum x = 0)%Z as Hz by lia.
    assert (m = 0)%Z as ->.
    { subst m. rewrite Hz. cbn [Z.abs Z.mul]. unfold Py.round_half_even.
      rewrite Z.div_0_l, Z.mod_0_l by lia. cbn. reflexivity. }
    reflexivity.
Qed.

Lemma written_near (x : Q) : (Qabs (x - written 2 x) <= 1 # 200)%Q.
Proof.
  apply Qabs_Qle_condition.
  unfold written. change (10 ^ Z.of_nat 2)%Z with 100%Z.
  change (Z.to_pos 100) with 100%positive.
  pose proof (round_half_even_near (Z.abs (Qnum x) * 100) (Z.pos (Qden x))
                ltac:(lia) ltac:(lia)) as Hm.
  revert Hm. set (m := Py.round_half_even _ _). intros Hm.
  destruct x as [n d]. cbn [Qnum Qden] in *.
  destruct (Z.ltb_spec n 0);
    unfold Qle, Qminus, Qplus, Qopp; cbn [Qnum Qden];
    rewrite ?Pos2Z.inj_mul; split; nia.
Qed.

Lemma written_hundredths (x : Q) : hundredths x <-> (written 2 x == x)%Q.
Proof.
  unfold hundredths, written. change (10 ^ Z.of_nat 2)%Z with 100%Z.
  change (Z.to_pos 100) with 100%positive. split.
  - intros [k Hk]. destruct x as [n d]. unfold Qeq in Hk. cbn [Qnum Qden] in *.
    destruct (Z.ltb_spec n 0).
    + replace (Z.abs n * 100)%Z with ((- k) * Z.pos d)%Z by lia.
      rewrite round_half_even_exact by lia.
      unfold Qeq, Qopp. cbn [Qnum Qden]. lia.
    + replace (Z.abs n * 100)%Z with (k * Z.pos d)%Z by lia.
      rewrite round_half_even_exact by lia.
      unfold Qeq. cbn [Qnum Qden]. lia.
  - set (m := Py.round_half_even _ _). intros Hw.
    destruct (Qnum x <? 0)%Z; [exists (- m)%Z | exists m]; rewrite <- Hw; reflexivity.
Qed.

(** *** The scale step *)

Lemma geometry_expression_nesting bbox bounds tolerance is_geo is_clipped scale :
  geometry_expression bbox bounds tolerance is_geo is_clipped scale
  = scale_open scale ++ transform_open is_geo ++ simplify_open tolerance
      ++ clip_open is_clipped ++ "q.__geometry__" ++ clip_close is_clipped bbox
      ++ simplify_close tolerance ++ transform_close is_geo ++ scale_close scale bounds.
Proof.
  unfold geometry_expression, scale_step, scale_open, scale_close, transform_step,
    transform_open, transform_close, simplify_step, simplify_open, simplify_close,
    clip_step, clip_open, clip_close.
  cbn [scale_operands].
  destruct (truthy scale) as [s |], is_geo, tolerance as [t |], is_clipped;
    rewrite ?append_assoc; reflexivity.
Qed.

(** The map of the written operands, one axis at a time. *)
Lemma written_map (bounds : Bounds) (s : Q) (p : Q * Q) :
  ((trans_scale (written_operands bounds s) p).1
   == (p.1 - written 2 (xmin bounds)) * written_factor s (xmax bounds) (xmin bounds))%Q
  /\ ((trans_scale (written_operands bounds s) p).2
      == (p.2 - written 2 (ymin bounds)) * written_factor s (ymax bounds) (ymin bounds))%Q.
Proof.
  unfold trans_scale, written_operands, scale_operands, written_factor. cbn [fst snd].
  rewrite !written_opp. split; ring.
Qed.

Lemma written_factor_span (s hi lo : Q) :
  ~ (written 2 hi - written 2 lo == 0)%Q ->
  ((written 2 hi - written 2 lo) * written_factor s hi lo == written 2 s)%Q.
Proof. intros Hd. unfold written_factor. field. exact Hd. Qed.

(** With operands that two decimals hold, the unpadded box goes to
    [0, s] and a padded one beyond it. *)
Lemma exact_map (lo hi s padding : Q) (k : Q) :
  (lo < hi)%Q -> (k == s / (hi - lo))%Q ->
  ((lo - lo) * k == 0 /\ (hi - lo) * k == s
   /\ (0 < padding -> 0 < s -> (lo - padding - lo) * k < 0 /\ s < (hi + padding - lo) * k))%Q.
Proof.
  intros Hlt Hk.
  assert (~ hi - lo == 0)%Q as Hd by lra.
  assert ((hi - lo) * k == s)%Q as Hs by (rewrite Hk; field; exact Hd).
  split; [ring |]. split; [exact Hs |].
  intros Hp H0.
  assert (0 < k)%Q as Hkpos by (rewrite Hk; apply Qlt_shift_div_l; lra).
  split; nra.
Qed.




(** ** The probe loop of [query_columns] *)

Lemma ltb_lt (x y : Q) : Py.ltb x y = true <-> (x < y)%Q.
Proof.
  unfold Py.ltb. rewrite Qlt_alt. destruct (x ?= y)%Q; split; congruence.
Qed.

Lemma below_cutoff_spec (b : Bounds) :
  below_cutoff b = true <-> (width b * width b < cutoff)%Q.
Proof.
  unfold below_cutoff. rewrite ltb_lt. fold (width b).
  assert (Qabs (width b) * Qabs (width b) == width b * width b)%Q as Heq.
  { rewrite <- Qabs_Qmult. apply Qabs_pos. nra. }
  by rewrite Heq.
Qed.

Lemma below_cutoff_false (b : Bounds) :
  below_cutoff b = false <-> (cutoff <= width b * width b)%Q.
Proof.
  pose proof (below_cutoff_spec b) as Hs.
  destruct (below_cutoff b); split; intros Hx; try done.
  - assert (width b * width b < cutoff)%Q by (by apply Hs). lra.
  - destruct (Qlt_le_dec (width b * width b) cutoff) as [Hlt|Hle]; [|done].
    apply Hs in Hlt. discriminate.
Qed.

(** A failed probe multiplies the x-extent by eight. *)
Lemma width_expand (b : Bounds) : (width (expand b) == 8 * width b)%Q.
Proof. unfold width, expand. cbn [xmax xmin]. ring. Qed.

Lemma nth_box_S (k : nat) (b : Bounds) : nth_box (S k) b = nth_box k (expand b).
Proof. unfold nth_box. by rewrite Nat.iter_succ_r. Qed.

Lemma width_nth_box (k : nat) (b : Bounds) :
  (width (nth_box k b) == inject_Z (8 ^ Z.of_nat k) * width b)%Q.
Proof.
  revert b. induction k as [|k IH]; intros b.
  - unfold nth_box. cbn [Nat.iter nat_rect Z.of_nat]. change (inject_Z (8 ^ Z.of_nat 0)) with 1%Q. ring.
  - rewrite nth_box_S, IH, width_expand.
    replace (Z.of_nat (S k)) with (Z.succ (Z.of_nat k)) by lia.
    rewrite Z.pow_succ_r by lia. rewrite inject_Z_mult.
    change (inject_Z 8) with 8%Q. generalize (inject_Z (8 ^ Z.of_nat k)) as p.
    intros p. ring.
Qed.

(** Once a box is at or above the cutoff, so is the next one. *)
Lemma below_cutoff_expand (b : Bounds) :
  below_cutoff (expand b) = true -> below_cutoff b = true.
Proof.
  rewrite !below_cutoff_spec, width_expand. intros Hlt. nra.
Qed.

Lemma below_cutoff_nth_box (k : nat) (b : Bounds) :
  below_cutoff (nth_box k b) = true
  <-> ((inject_Z (8 ^ Z.of_nat k) * width b) * (inject_Z (8 ^ Z.of_nat k) * width b)
       < cutoff)%Q.
Proof. by rewrite below_cutoff_spec, width_nth_box. Qed.

Lemma probes_S srid subquery b n :
  probes srid subquery b (S n)
  = probe_query srid subquery b :: probes srid subquery (expand b) n.
Proof.
  unfold probes. cbn [seq map]. f_equal.
  rewrite <- seq_shift, map_map. apply map_ext. intros k. by rewrite nth_box_S.
Qed.

Lemma probes_length srid subquery b n : length (probes srid subquery b n) = n.
Proof. unfold probes. by rewrite length_map, length_seq. Qed.

Section Loop.
Variable db : Cursor.
Variables (srid : Z) (subquery : string).

Local Abbreviation loop := (fun fuel => query_columns_loop fuel db srid subquery).
Local Abbreviation probe := (probe_query srid subquery).

Lemma loop_stops fuel b trace :
  below_cutoff b = false -> loop fuel b trace = (Py.Ok None, trace).
Proof. intros Hb. destruct fuel; simpl; by rewrite Hb. Qed.

Lemma loop_out_of_fuel b trace :
  below_cutoff b = true -> loop O b trace = (Py.OutOfFuel, trace).
Proof. intros Hb. simpl. by rewrite Hb. Qed.

Lemma loop_no_row fuel b trace :
  below_cutoff b = true -> db (probe b) = inr [] ->
  loop (S fuel) b trace = loop fuel (expand b) (trace ++ [probe b])%list.
Proof.
  intros Hb Hdb. cbn [query_columns_loop]. rewrite Hb.
  unfold Py.bind, execute. by rewrite Hdb.
Qed.

Lemma loop_row fuel b trace row rest :
  below_cutoff b = true -> db (probe b) = inr (row :: rest) ->
  loop (S fuel) b trace = (Py.Ok (Some (dom row)), (trace ++ [probe b])%list).
Proof.
  intros Hb Hdb. cbn [query_columns_loop]. rewrite Hb.
  unfold Py.bind, execute. by rewrite Hdb.
Qed.

Lemma loop_error fuel b trace e :
  below_cutoff b = true -> db (probe b) = inl e ->
  loop (S fuel) b trace = (Py.Raise e, (trace ++ [probe b])%list).
Proof.
  intros Hb Hdb. cbn [query_columns_loop]. rewrite Hb.
  unfold Py.bind, execute. by rewrite Hdb.
Qed.

(** [n] probes without a row, then the cutoff: the loop ends with [None]. *)
Lemma loop_exhausted n : forall b fuel trace,
  (forall k, (k < n)%nat ->
     below_cutoff (nth_box k b) = true /\ db (probe (nth_box k b)) = inr []) ->
  below_cutoff (nth_box n b) = false ->
  (n <= fuel)%nat ->
  loop fuel b trace = (Py.Ok None, (trace ++ probes srid subquery b n)%list).
Proof.
  induction n as [|n IH]; intros b fuel trace Hk Hn Hfuel.
  - rewrite loop_stops by exact Hn. unfold probes. simpl. by rewrite app_nil_r.
  - destruct fuel as [|fuel]; [lia|].
    destruct (Hk O ltac:(lia)) as [Hb Hdb]. unfold nth_box in Hb, Hdb. simpl in Hb, Hdb.
    rewrite loop_no_row by done.
    rewrite IH.
    + by rewrite probes_S, <- app_assoc.
    + intros k Hlt. rewrite <- nth_box_S. apply Hk. lia.
    + by rewrite <- nth_box_S.
    + lia.
Qed.

(** [n] probes without a row, then a row below the cutoff: its columns. *)
Lemma loop_finds n : forall b fuel trace row rest,
  (forall k, (k < n)%nat ->
     below_cutoff (nth_box k b) = true /\ db (probe (nth_box k b)) = inr []) ->
  below_cutoff (nth_box n b) = true ->
  db (probe (nth_box n b)) = inr (row :: rest) ->
  (n < fuel)%nat ->
  loop fuel b trace
  = (Py.Ok (Some (dom row)), (trace ++ probes srid subquery b (S n))%list).
Proof.
  induction n as [|n IH]; intros b fuel trace row rest Hk Hn Hrow Hfuel.
  - destruct fuel as [|fuel]; [lia|].
    unfold nth_box in Hn, Hrow. simpl in Hn, Hrow.
    by rewrite (loop_row _ _ _ row rest).
  - destruct fuel as [|fuel]; [lia|].
    destruct (Hk O ltac:(lia)) as [Hb Hdb]. unfold nth_box in Hb, Hdb. simpl in Hb, Hdb.
    rewrite loop_no_row by done.
    rewrite (IH _ _ _ row rest).
    + by rewrite (probes_S _ _ b), <- app_assoc.
    + intros k Hlt. rewrite <- nth_box_S. apply Hk. lia.
    + by rewrite <- nth_box_S.
    + by rewrite <- nth_box_S.
    + lia.
Qed.

(** Whatever the database answers, a box that is at or above the cutoff
    after [n] expansions bounds the loop by [n] probes. *)
Lemma loop_bounded n : forall b fuel trace,
  below_cutoff (nth_box n b) = false ->
  (n <= fuel)%nat ->
  exists r m,
    loop fuel b trace = (r, (trace ++ probes srid subquery b m)%list)
    /\ (m <= n)%nat /\ r <> Py.OutOfFuel.
Proof.
  induction n as [|n IH]; intros b fuel trace Hn Hfuel.
  - exists (Py.Ok None), O. rewrite loop_stops by exact Hn.
    unfold probes. simpl. by rewrite app_nil_r.
  - destruct (below_cutoff b) eqn:Hb.
    + destruct fuel as [|fuel]; [lia|].
      destruct (db (probe b)) as [e|[|row rest]] eqn:Hdb.
      * exists (Py.Raise e), 1%nat. rewrite (loop_error _ _ _ e) by done.
        split; [done | split; [lia | done]].
      * rewrite loop_no_row by done. rewrite nth_box_S in Hn.
        destruct (IH (expand b) fuel (trace ++ [probe b])%list Hn ltac:(lia))
          as (r & m & Hl & Hm & Hr).
        exists r, (S m). rewrite Hl, probes_S, <- app_assoc.
        split; [done | split; [lia | done]].
      * exists (Py.Ok (Some (dom row))), 1%nat. rewrite (loop_row _ _ _ row rest) by done.
        split; [done | split; [lia | done]].
    + exists (Py.Ok None), O. rewrite loop_stops by exact Hb.
      unfold probes. simpl. rewrite app_nil_r. split; [done | split; [lia | done]].
Qed.
End Loop.

(** *** Reaching the cutoff *)

Lemma cutoff_reached (b : Bounds) :
  ~ (width b == 0)%Q -> exists n, below_cutoff (nth_box n b) = false.
Proof.
  intros Hw.
  destruct (width b) as [p q] eqn:Ew.
  assert (p <> 0)%Z as Hp.
  { intros ->. apply Hw. reflexivity. }
  set (n := (Pos.to_nat q + 9)%nat).
  exists n. apply below_cutoff_false. rewrite width_nth_box, Ew.
  assert (40124806 * Z.pos q <= 8 ^ Z.of_nat n)%Z as HK.
  { subst n. rewrite Nat2Z.inj_add, Z.pow_add_r by lia.
    rewrite positive_nat_Z.
    pose proof (Z.pow_gt_lin_r 8 (Z.pos q) ltac:(lia) ltac:(lia)).
    change (8 ^ Z.of_nat 9)%Z with 134217728%Z. nia. }
  revert HK. generalize (8 ^ Z.of_nat n)%Z as K. intros K HK.
  unfold cutoff, Qle, Qmult, inject_Z. cbn [Qnum Qden].
  rewrite !Pos2Z.inj_mul. change (Z.pos 1) with 1%Z.
  pose proof (Pos2Z.is_pos q) as Hq.
  assert (1 <= p * p)%Z as Hpp by nia.
  assert ((40124806 * Z.pos q) * (40124806 * Z.pos q) <= K * K)%Z as HKK by nia.
  revert Hq Hpp HKK. generalize (Z.pos q) as d. intros d Hq Hpp HKK.
  replace (K * p * (K * p) * 1)%Z with ((K * K) * (p * p))%Z by ring.
  nia.
Qed.

Lemma below_cutoff_nth_box_mono (k : nat) (b : Bounds) :
  below_cutoff (nth_box k b) = true -> below_cutoff b = true.
Proof.
  revert b. induction k as [|k IH]; intros b Hk; [done|].
  rewrite nth_box_S in Hk. by apply below_cutoff_expand, IH.
Qed.

(** The boxes below the cutoff are exactly the first [N]. *)
Lemma cutoff_threshold (b : Bounds) :
  ~ (width b == 0)%Q ->
  exists N, forall k, (k < N)%nat <-> below_cutoff (nth_box k b) = true.
Proof.
  intros Hw. destruct (cutoff_reached b Hw) as [n Hn]. clear Hw.
  revert b Hn. induction n as [|n IH]; intros b Hn.
  - exists O. intros k. split; [lia|]. intros Hk.
    apply below_cutoff_nth_box_mono in Hk. unfold nth_box in Hn. simpl in Hn. congruence.
  - destruct (below_cutoff b) eqn:Hb.
    + rewrite nth_box_S in Hn. destruct (IH (expand b) Hn) as [N HN].
      exists (S N). intros [|k].
      * split; [done | lia].
      * rewrite nth_box_S, <- HN. lia.
    + exists O. intros k. split; [lia|]. intros Hk.
      apply below_cutoff_nth_box_mono in Hk. congruence.
Qed.

(** *** [query_columns] *)

Section QueryColumns.
Context `{Database}.

(** C7.  When the loop reaches the cutoff after [N] probes none of which
    returned a row, [query_columns] does not raise: it returns [None],
    having executed exactly those [N] probes. *)
Theorem query_columns_exhausted dbinfo db srid subquery (b : Bounds) (N : nat) :
  connect dbinfo = inr db ->
  (forall k, (k < N)%nat ->
     below_cutoff (nth_box k b) = true
     /\ db (probe_query srid subquery (nth_box k b)) = inr []) ->
  below_cutoff (nth_box N b) = false ->
  forall fuel trace, (N <= fuel)%nat ->
    query_columns fuel dbinfo srid subquery b trace
    = (Py.Ok None, (trace ++ probes srid subquery b N)%list).
Proof.
  intros Hc Hk HN fuel trace Hfuel. unfold query_columns, Connection. rewrite Hc.
  by apply loop_exhausted.
Qed.

(** C6 (amended).  For a box of positive width there is a number [N] of
    boxes below the cutoff, the least [N] with
    [(8^N * width)^2 >= 1.61e15]; with fuel [N] the loop terminates
    after at most [N] probes whatever the database answers; and if the
    first box for which the template returns a row is one of these [N]
    boxes, the columns of that row are returned after one probe per box
    visited.  A row that only a box at or above the cutoff would return is
    never probed for. *)
Theorem probe_loop_bounded dbinfo db srid subquery (b : Bounds) :
  connect dbinfo = inr db ->
  (0 < width b)%Q ->
  exists N : nat,
    (forall k : nat,
       (k < N)%nat
       <-> ((inject_Z (8 ^ Z.of_nat k) * width b) * (inject_Z (8 ^ Z.of_nat k) * width b)
            < cutoff)%Q)
    /\ (forall fuel trace, (N <= fuel)%nat ->
          exists r m,
            query_columns fuel dbinfo srid subquery b trace
            = (r, (trace ++ probes srid subquery b m)%list)
            /\ (m <= N)%nat /\ r <> Py.OutOfFuel)
    /\ (forall k row rest fuel trace,
          (k < N)%nat -> (k < fuel)%nat ->
          (forall j, (j < k)%nat ->
             db (probe_query srid subquery (nth_box j b)) = inr []) ->
          db (probe_query srid subquery (nth_box k b)) = inr (row :: rest) ->
          query_columns fuel dbinfo srid subquery b trace
          = (Py.Ok (Some (dom row)), (trace ++ probes srid subquery b (S k))%list)).
Proof.
  intros Hc Hw.
  destruct (cutoff_threshold b) as [N HN].
  { intros Heq. rewrite Heq in Hw. by apply Qlt_irrefl in Hw. }
  exists N. split; [|split].
  - intros k. by rewrite HN, below_cutoff_nth_box.
  - intros fuel trace Hfuel. unfold query_columns, Connection. rewrite Hc.
    apply loop_bounded; [|done].
    destruct (below_cutoff (nth_box N b)) eqn:Hb; [|done].
    apply HN in Hb. lia.
  - intros k row rest fuel trace HkN Hkf Hempty Hrow.
    unfold query_columns, Connection. rewrite Hc.
    apply (loop_finds _ _ _ _ _ _ _ row rest); [|by apply HN|done|done].
    intros j Hj. split; [apply HN; lia | by apply Hempty].
Qed.
End QueryColumns.

Lemma query_columns_exhausted_witness :
  @query_columns Demo.db 2 ∅ 900913 Demo.nowhere_query (mkBounds 0 0 5000000 5000000) []
  = (Py.Ok None,
     ([] ++ probes 900913 Demo.nowhere_query (mkBounds 0 0 5000000 5000000) 2)%list).
Proof.
  apply (@query_columns_exhausted Demo.db ∅ Demo.cursor 900913 Demo.nowhere_query
           (mkBounds 0 0 5000000 5000000) 2).
  - reflexivity.
  - intros k Hk.
    assert (k = 0 \/ k = 1)%nat as [-> | ->] by lia; split; vm_compute; reflexivity.
  - vm_compute. reflexivity.
  - lia.
Defined.

Lemma probe_loop_bounded_witness :
  exists N : nat,
    (forall k : nat,
       (k < N)%nat
       <-> ((inject_Z (8 ^ Z.of_nat k) * width Demo.quadrant)
            * (inject_Z (8 ^ Z.of_nat k) * width Demo.quadrant) < cutoff)%Q)
    /\ (forall fuel trace, (N <= fuel)%nat ->
          exists r m,
            @query_columns Demo.db fuel ∅ 900913 Demo.roads_query Demo.quadrant trace
            = (r, (trace ++ probes 900913 Demo.roads_query Demo.quadrant m)%list)
            /\ (m <= N)%nat /\ r <> Py.OutOfFuel).
Proof.
  destruct (@probe_loop_bounded Demo.db ∅ Demo.cursor 900913 Demo.roads_query Demo.quadrant)
    as (N & HN & Hbound & _).
  - reflexivity.
  - vm_compute. reflexivity.
  - exists N. split; [exact HN | exact Hbound].
Defined.

(** C6 as stated fails on its last part.  The quadrant tile 2/2/1 is about
    1.0e7 wide and meets no island, while the next box of the loop, eight
    times as wide, does: a row exists once the box exceeds that width.  But
    the wider box is at the cutoff, so it is never probed and
    [query_columns] returns [None] after a single probe. *)
Lemma probe_loop_bounded_counterexample :
  (0 < width Demo.quadrant)%Q
  /\ (width Demo.quadrant < width (expand Demo.quadrant))%Q
  /\ Demo.cursor (probe_query 900913 Demo.islands_query (expand Demo.quadrant))
     = inr [Demo.river]
  /\ forall fuel, (1 <= fuel)%nat ->
       @query_columns Demo.db fuel ∅ 900913 Demo.islands_query Demo.quadrant []
       = (Py.Ok None, [probe_query 900913 Demo.islands_query Demo.quadrant]).
Proof.
  split; [vm_compute; reflexivity|].
  split; [vm_compute; reflexivity|].
  split; [vm_compute; reflexivity|].
  intros fuel Hfuel. unfold query_columns, Connection. cbn [connect Demo.db].
  rewrite (loop_exhausted Demo.cursor 900913 Demo.islands_query 1);
    [reflexivity | | vm_compute; reflexivity | lia].
  intros k Hk. assert (k = 0)%nat as -> by lia. split; vm_compute; reflexivity.
Qed.

(** ** Zooms past the tolerance table *)

Lemma select_columns_Ok (cs : gset string) :
  "__geometry__" ∈ cs -> exists columns, select_columns (Some cs) = Py.Ok columns.
Proof.
  intros Hg. unfold select_columns.
  rewrite (bool_decide_eq_true_2 _ Hg). eauto.
Qed.

Lemma build_query_Ok srid subquery (cs : gset string) bounds tol is_geo clip padding scale :
  "__geometry__" ∈ cs ->
  exists q, build_query srid subquery (Some cs) bounds tol is_geo clip padding scale = Py.Ok q.
Proof.
  intros Hg. unfold build_query.
  destruct (select_columns_Ok cs Hg) as [columns ->]. simpl. eauto.
Qed.

Lemma build_query_no_columns srid subquery bounds tol is_geo clip padding scale :
  build_query srid subquery None bounds tol is_geo clip padding scale
  = Py.Raise (Py.TypeError "'NoneType' object is not iterable").
Proof. reflexivity. Qed.

Lemma build_query_no_geometry srid subquery (cs : gset string) bounds tol is_geo clip padding scale :
  "__geometry__" ∉ cs ->
  build_query srid subquery (Some cs) bounds tol is_geo clip padding scale
  = Py.Raise (Py.Exception "There's supposed to be a __geometry__ column.").
Proof.
  intros Hg. unfold build_query, select_columns.
  by rewrite (bool_decide_eq_false_2 _ Hg).
Qed.

Section PastTable.
Context `{Database} `{Codecs}.

Lemma nonempty_Some (query : string) :
  query <> "" -> Provider.nonempty (Some query) = Some query.
Proof. intros Hq. by destruct query. Qed.

(** [renderTile] once the query is resolved and the column cache filled. *)
Lemma renderTile_after_columns fuel coord self trace query st1 :
  Provider.resolve_query (Provider.queries self) (Coordinate.zoom coord) = Py.Ok (Some query) ->
  query <> "" ->
  Provider.ensure_columns fuel query (Provider.tile_bounds (Provider.layer self) coord)
    (self, trace) = (Py.Ok tt, st1) ->
  Provider.renderTile fuel coord (self, trace)
  = (let* tolerance :=
       Py.lift (Provider.resolve_tolerance (Provider.simplify self)
                  (Provider.simplify_until self) (Coordinate.zoom coord)) in
     let* cols := Py.lift (match Provider.columns st1.1 !! query with
                           | Some c => Py.Ok c
                           | None => Py.Raise (Py.KeyError query)
                           end) in
     let* r := Py.lift (Response.init (Provider.dbinfo self) (Provider.srid self) query cols
                          (Provider.tile_bounds (Provider.layer self) coord) tolerance
                          (Coordinate.zoom coord) (Provider.clip self) coord
                          (Layer.name (Provider.layer self))) in
     Py.ret (TileResponse r)) st1.
Proof.
  intros Hq Hne Hcols. unfold Provider.renderTile.
  unfold Py.bind at 1. unfold Py.get at 1. cbn [fst].
  unfold Py.bind at 1. unfold Py.lift at 1. rewrite Hq.
  rewrite (nonempty_Some query Hne).
  unfold Py.bind at 1. rewrite Hcols.
  unfold Py.bind, Py.lift, Py.get.
  destruct (Provider.resolve_tolerance _ _ _); reflexivity.
Qed.

(** C10 (amended).  At a zoom of 22 or more with a non-empty query
    [renderTile] never returns.  Once the column set of the query is
    known, the failure is the out-of-range index error whenever the zoom
    is below [simplify_until] (line 160) or the column set contains
    [__geometry__] (the padding of the OpenScienceMap variant in
    [Response.__init__]); at a zoom at or above [simplify_until] a column
    set that is [None] or lacks [__geometry__] fails earlier, in the first
    [build_query], with the type error or the missing-column error. *)
Theorem renderTile_zoom_past_table fuel coord self trace query :
  (22 <= Coordinate.zoom coord)%Z ->
  Provider.resolve_query (Provider.queries self) (Coordinate.zoom coord) = Py.Ok (Some query) ->
  query <> "" ->
  (forall t st', Provider.renderTile fuel coord (self, trace) <> (Py.Ok t, st'))
  /\ (forall st1,
        Provider.ensure_columns fuel query
          (Provider.tile_bounds (Provider.layer self) coord) (self, trace) = (Py.Ok tt, st1) ->
        ((Coordinate.zoom coord < Provider.simplify_until self)%Z
         \/ (exists cs : gset string,
               Provider.columns st1.1 !! query = Some (Some cs) /\ "__geometry__" ∈ cs) ->
         Provider.renderTile fuel coord (self, trace) = (Py.Raise Py.IndexError, st1))
        /\ ((Provider.simplify_until self <= Coordinate.zoom coord)%Z ->
            Provider.columns st1.1 !! query = Some None ->
            Provider.renderTile fuel coord (self, trace)
            = (Py.Raise (Py.TypeError "'NoneType' object is not iterable"), st1))
        /\ ((Provider.simplify_until self <= Coordinate.zoom coord)%Z ->
            forall cs : gset string,
              Provider.columns st1.1 !! query = Some (Some cs) -> "__geometry__" ∉ cs ->
              Provider.renderTile fuel coord (self, trace)
              = (Py.Raise (Py.Exception "There's supposed to be a __geometry__ column."),
                 st1))).
Proof.
  intros Hz Hq Hne. split.
  - intros t st' E. destruct t as [r|e].
    + apply renderTile_Response in E as (q' & cols & tol & _ & _ & Einit & _).
      apply init_zoom_in_table in Einit. lia.
    + unfold Provider.renderTile in E.
      apply bind_Ok in E as (st0 & s0 & E0 & E). inversion E0; subst st0 s0; clear E0.
      apply bind_Ok in E as (q' & s1 & Eq & E). apply lift_Ok in Eq as [Eq ->].
      cbn [fst] in Eq. rewrite Hq in Eq. inversion Eq; subst q'.
      rewrite (nonempty_Some query Hne) in E.
      apply bind_Ok in E as (u & s2 & _ & E).
      apply bind_Ok in E as (tol & s3 & _ & E).
      apply bind_Ok in E as (st3 & s4 & _ & E).
      apply bind_Ok in E as (cols & s5 & _ & E).
      apply bind_Ok in E as (r' & s6 & _ & E). discriminate E.
  - intros st1 Hcols.
    rewrite (renderTile_after_columns _ _ _ _ _ _ Hq Hne Hcols).
    unfold Provider.resolve_tolerance.
    destruct (Z.ltb_spec (Coordinate.zoom coord) (Provider.simplify_until self))
      as [Hlt|Hge].
    + split; [|split]; [|lia|lia]. intros _.
      rewrite (tolerances_past_end _ Hz). reflexivity.
    + split; [|split].
      * intros [Hlt|(cs & Hcs & Hg)]; [lia|].
        unfold Py.bind, Py.lift. rewrite Hcs. unfold Response.init.
        destruct (build_query_Ok (Provider.srid self) query cs
                    (Provider.tile_bounds (Provider.layer self) coord) None true
                    (Provider.clip self) 0 None Hg) as [geo ->].
        destruct (build_query_Ok (Provider.srid self) query cs
                    (Provider.tile_bounds (Provider.layer self) coord) None false
                    (Provider.clip self) 0 None Hg) as [merc ->].
        cbn [Py.obind]. rewrite (tolerances_past_end _ Hz). reflexivity.
      * intros _ Hnone. unfold Py.bind, Py.lift. rewrite Hnone. reflexivity.
      * intros _ cs Hcs Hg. unfold Py.bind, Py.lift. rewrite Hcs.
        unfold Response.init. by rewrite build_query_no_geometry.
Qed.
End PastTable.

Lemma renderTile_zoom_past_table_witness :
  (@Provider.renderTile Demo.db Demo.codecs 1 (Coordinate.mk 0 0 22) (Demo.a, [])).1
  = Py.Raise Py.IndexError.
Proof.
  pose (st1 := (@Provider.ensure_columns Demo.db 1 Demo.roads_query
                  (Provider.tile_bounds (Provider.layer Demo.a) (Coordinate.mk 0 0 22))
                  (Demo.a, [])).2).
  destruct (@renderTile_zoom_past_table Demo.db Demo.codecs 1 (Coordinate.mk 0 0 22)
              Demo.a [] Demo.roads_query) as (_ & Hafter).
  - simpl. lia.
  - reflexivity.
  - discriminate.
  - destruct (Hafter st1) as (Hindex & _).
    + vm_compute. reflexivity.
    + refine (f_equal fst (Hindex _)).
      right. exists (dom Demo.road). split; [vm_compute; reflexivity|].
      apply elem_of_dom. exists (SqlBytes "0101"). vm_compute. reflexivity.
Defined.

(** C10 as stated fails when the column set is not usable: at zoom 22, at or
    above [simplify_until = 16], a query whose rows have no [__geometry__]
    column fails with the missing-column error of [build_query], and a query
    whose introspection found no row fails with a type error; neither is the
    index error.  A query that is the empty text is not null either, and
    renders to an [EmptyResponse] without any failure. *)
Lemma renderTile_zoom_past_table_counterexample :
  (22 <= Coordinate.zoom (Coordinate.mk 0 0 22))%Z
  /\ Provider.resolve_query (Provider.queries Demo.labels) 22
     = Py.Ok (Some "SELECT txt AS label FROM labels")
  /\ (@Provider.renderTile Demo.db Demo.codecs 1 (Coordinate.mk 0 0 22) (Demo.labels, [])).1
     = Py.Raise (Py.Exception "There's supposed to be a __geometry__ column.")
  /\ Provider.resolve_query (Provider.queries Demo.exhausted) 22
     = Py.Ok (Some Demo.nowhere_query)
  /\ (@Provider.renderTile Demo.db Demo.codecs 1 (Coordinate.mk 0 0 22) (Demo.exhausted, [])).1
     = Py.Raise (Py.TypeError "'NoneType' object is not iterable")
  /\ (@Provider.renderTile Demo.db Demo.codecs 1 (Coordinate.mk 0 0 22) (Demo.labels, [])).1
     <> Py.Raise Py.IndexError
  /\ Provider.resolve_query (Provider.queries Demo.hollow) 22 = Py.Ok (Some "")
  /\ (@Provider.renderTile Demo.db Demo.codecs 1 (Coordinate.mk 0 0 22) (Demo.hollow, [])).1
     = Py.Ok (TileEmpty (EmptyResponse.mk
                           (Provider.tile_bounds (Demo.layer "hollow") (Coordinate.mk 0 0 22)))).
Proof.
  split; [simpl; lia|].
  split; [reflexivity|].
  split; [vm_compute; reflexivity|].
  split; [reflexivity|].
  split; [vm_compute; reflexivity|].
  split; [vm_compute; intros Heq; discriminate Heq|].
  split; [reflexivity|].
  vm_compute. reflexivity.
Qed.

(** ** Multi-layer responses *)

Section Multi.
Context `{Database} `{Codecs} `{Framework}.

Lemma lookup_layers_unknown (config : gmap string Provider.t) (names : list string) :
  (exists c, c ∈ names /\ config !! c = None) ->
  exists c, c ∈ names /\ config !! c = None
            /\ MultiResponse.lookup_layers config names = Py.Raise (Py.KeyError c).
Proof.
  induction names as [|name rest IH]; intros (c & Hin & Hc).
  - by apply elem_of_nil in Hin.
  - simpl. destruct (config !! name) as [p|] eqn:Hname.
    + apply elem_of_cons in Hin as [->|Hin]; [congruence|].
      destruct IH as (c' & Hin' & Hc' & ->); [by exists c|].
      exists c'. split; [by apply elem_of_cons; right | done].
    + exists name. split; [by apply elem_of_cons; left | done].
Qed.

(** C8.  A multi-layer request that names a layer missing from the
    registry fails, for each of the four formats, with an error that names
    a missing layer, and leaves the world as it was: no statement was
    executed and no layer was touched. *)
Theorem unknown_layer_fails_first (fuel : nat) (self : MultiResponse.t)
    (format : string) (w : World) :
  format ∈ multi_formats ->
  (exists c, c ∈ MultiResponse.names self /\ layers w !! c = None) ->
  exists e c,
    MultiResponse.save fuel self format w = (Py.Raise e, w)
    /\ c ∈ MultiResponse.names self /\ layers w !! c = None
    /\ names_layer e c.
Proof.
  intros Hf Hunknown.
  assert (exists e c,
            MultiResponse.get_tiles self format w = (Py.Raise e, w)
            /\ c ∈ MultiResponse.names self /\ layers w !! c = None
            /\ names_layer e c) as Htiles.
  { destruct Hunknown as (c & Hin & Hc).
    unfold MultiResponse.get_tiles, Py.bind, Py.get.
    assert (c ∈ MultiResponse.unknown_layers (MultiResponse.names self) (layers w)) as Hcu.
    { unfold MultiResponse.unknown_layers. apply elem_of_difference. split.
      - by apply elem_of_list_to_set.
      - by apply not_elem_of_dom. }
    rewrite bool_decide_eq_false_2.
    2:{ intros Heq. rewrite Heq in Hcu. by apply not_elem_of_empty in Hcu. }
    eexists _, c. split; [reflexivity|]. split; [done|]. split; [done|].
    exists (elements (MultiResponse.unknown_layers (MultiResponse.names self) (layers w))),
           (" when trying to load " ++ Py.join ", " (MultiResponse.names self) ++ ".").
    split; [by apply elem_of_elements | reflexivity]. }
  destruct (lookup_layers_unknown (layers w) (MultiResponse.names self) Hunknown)
    as (c' & Hin' & Hc' & Hlookup).
  unfold multi_formats in Hf. unfold MultiResponse.save.
  repeat (apply elem_of_cons in Hf as [->|Hf]); [| | | |by apply elem_of_nil in Hf]; simpl.
  - destruct Htiles as (e & c & Ht & Hin & Hc & Hn).
    exists e, c. unfold Py.bind. by rewrite Ht.
  - destruct Htiles as (e & c & Ht & Hin & Hc & Hn).
    exists e, c. unfold Py.bind. by rewrite Ht.
  - exists (Py.KeyError c'), c'. unfold Py.bind, Py.get, Py.lift. by rewrite Hlookup.
  - exists (Py.KeyError c'), c'. unfold Py.bind, Py.get, Py.lift. by rewrite Hlookup.
Qed.
End Multi.

Lemma unknown_layer_fails_first_witness :
  exists e c,
    @MultiResponse.save Demo.db Demo.codecs Demo.framework 1
      (MultiResponse.mk ["a"; "c"] Demo.tile) "Mapbox" Demo.world = (Py.Raise e, Demo.world)
    /\ c ∈ ["a"; "c"] /\ layers Demo.world !! c = None
    /\ names_layer e c.
Proof.
  apply (@unknown_layer_fails_first Demo.db Demo.codecs Demo.framework 1
           (MultiResponse.mk ["a"; "c"] Demo.tile) "Mapbox" Demo.world).
  - unfold multi_formats. do 3 (apply elem_of_cons; right). apply elem_of_cons. by left.
  - exists "c". split.
    + apply elem_of_cons. right. apply elem_of_cons. by left.
    + vm_compute. reflexivity.
Defined.

Section Compose.
Context `{Database} `{Codecs} `{Framework}.

(** Rendering changes nothing of a provider but its column cache. *)
Lemma renderTile_state fuel coord self trace r st' :
  Provider.renderTile fuel coord (self, trace) = (r, st') ->
  Provider.queries st'.1 = Provider.queries self
  /\ Provider.layer st'.1 = Provider.layer self.
Proof.
  unfold Provider.renderTile, Provider.ensure_columns, Py.bind, Py.get, Py.lift,
    Py.ret, Py.put, Py.on_snd.
  cbn [fst snd]. intros E.
  repeat (case_match; simplify_eq; cbn [fst snd] in *); done.
Qed.

(** An [EmptyResponse] is returned exactly by the layers that resolve to
    the empty state. *)
Lemma renderTile_kind fuel coord self trace t st' :
  Provider.renderTile fuel coord (self, trace) = (Py.Ok t, st') ->
  renders_empty self (Coordinate.zoom coord)
  = match t with TileEmpty _ => true | TileResponse _ => false end.
Proof.
  intros E. unfold renders_empty. destruct t as [r|e].
  - apply renderTile_Response in E as (query & cols & tol & -> & _ & _ & Hne).
    by destruct query.
  - unfold Provider.renderTile in E.
    apply bind_Ok in E as (st0 & s0 & E0 & E). inversion E0; subst st0 s0; clear E0.
    apply bind_Ok in E as (q & s1 & Eq & E). apply lift_Ok in Eq as [Eq ->].
    cbn [fst] in Eq. rewrite Eq.
    destruct (Provider.nonempty q) as [query|]; [|done].
    apply bind_Ok in E as (u & s2 & _ & E).
    apply bind_Ok in E as (tol & s3 & _ & E).
    apply bind_Ok in E as (st3 & s4 & _ & E).
    apply bind_Ok in E as (cols & s5 & _ & E).
    apply bind_Ok in E as (r' & s6 & _ & E). discriminate E.
Qed.

Lemma with_layer_Ok {A} key (m : Py.M (Provider.t * Trace) A) w a w' :
  MultiResponse.with_layer key m w = (Py.Ok a, w') ->
  exists p p' trace',
    layers w !! key = Some p
    /\ m (p, executed w) = (Py.Ok a, (p', trace'))
    /\ w' = mkWorld (<[key := p']> (layers w)) trace'.
Proof.
  unfold MultiResponse.with_layer. destruct (layers w !! key) as [p|]; [|done].
  destruct (m (p, executed w)) as [r [p' trace']] eqn:Em. intros E.
  inversion E; subst. by exists p, p', trace'.
Qed.

Lemma with_database_layers {A} (m : Py.M Trace A) w r w' :
  MultiResponse.with_database m w = (r, w') -> layers w' = layers w.
Proof.
  unfold MultiResponse.with_database. destruct (m (executed w)) as [r' trace'].
  intros E. by inversion E.
Qed.

Lemma feature_layer_name_insert (config : gmap string Provider.t) z key p p' k :
  config !! key = Some p ->
  Provider.queries p' = Provider.queries p ->
  Provider.layer p' = Provider.layer p ->
  feature_layer_name (<[key := p']> config) z k = feature_layer_name config z k.
Proof.
  intros Hp Hq Hl. unfold feature_layer_name.
  destruct (decide (key = k)) as [->|Hne].
  - rewrite lookup_insert_eq, Hp. unfold renders_empty. by rewrite Hq, Hl.
  - by rewrite lookup_insert_ne.
Qed.

Lemma omap_pointwise {A B} (f g : A -> option B) (l : list A) :
  (forall a, f a = g a) -> omap f l = omap g l.
Proof.
  intros Hfg. induction l as [|a l IH]; [done|].
  cbn [omap list_omap]. by rewrite Hfg, IH.
Qed.

(** The entries of [feature_layers] are, in order, the layers that do not
    resolve to the empty state. *)
Lemma feature_layers_of_names fuel format coord keys : forall w fls w',
  MultiResponse.feature_layers_of fuel format coord keys w = (Py.Ok fls, w') ->
  (forall k, feature_layer_name (layers w') (Coordinate.zoom coord) k
             = feature_layer_name (layers w) (Coordinate.zoom coord) k)
  /\ map MultiResponse.fl_name fls
     = omap (feature_layer_name (layers w) (Coordinate.zoom coord)) keys.
Proof.
  induction keys as [|key rest IH]; intros w fls w' E.
  - inversion E; subst. done.
  - cbn [MultiResponse.feature_layers_of] in E.
    apply bind_Ok in E as (w0 & s0 & E0 & E). inversion E0; subst w0 s0; clear E0.
    destruct (layers w !! key) as [layer|] eqn:Hkey; [|discriminate E].
    apply bind_Ok in E as (tile & w1 & Etile & E).
    apply with_layer_Ok in Etile as (p & p' & trace' & Hp & Erender & ->).
    rewrite Hkey in Hp. inversion Hp; subst p; clear Hp.
    pose proof (renderTile_state _ _ _ _ _ _ Erender) as [Hq Hl]. cbn [fst] in Hq, Hl.
    pose proof (renderTile_kind _ _ _ _ _ _ Erender) as Hkind.
    assert (forall k, feature_layer_name (<[key := p']> (layers w)) (Coordinate.zoom coord) k
                      = feature_layer_name (layers w) (Coordinate.zoom coord) k) as Hstep.
    { intros k. by apply (feature_layer_name_insert _ _ _ layer). }
    cbn [omap list_omap].
    assert (feature_layer_name (layers w) (Coordinate.zoom coord) key
            = match tile with
              | TileEmpty _ => None
              | TileResponse _ => Some (Layer.name (Provider.layer layer))
              end) as Hname.
    { unfold feature_layer_name. rewrite Hkey, Hkind. by destruct tile. }
    rewrite Hname.
    destruct tile as [r|e].
    + apply bind_Ok in E as (q & w2 & Eq & E). apply lift_Ok in Eq as [_ ->].
      apply bind_Ok in E as (features & w3 & Ef & E).
      apply with_database_layers in Ef as Hw3.
      apply bind_Ok in E as (more & w4 & Emore & E).
      inversion E; subst fls w4; clear E.
      apply IH in Emore as [Hkeep Hnames]. cbn [layers] in Hw3.
      split.
      * intros k. rewrite Hkeep, Hw3. apply Hstep.
      * cbn [map MultiResponse.fl_name]. f_equal. rewrite Hnames.
        apply omap_pointwise. intros k. rewrite Hw3. apply Hstep.
    + apply IH in E as [Hkeep Hnames]. cbn [layers] in Hkeep, Hnames.
      split.
      * intros k. rewrite Hkeep. apply Hstep.
      * rewrite Hnames. apply omap_pointwise. intros k. apply Hstep.
Qed.

(** C9.  For the two binary formats a successful [save] ends in the merge
    routine of the format, called with one feature-layer entry per
    sub-layer that does not resolve to the empty state, in the order of the
    names; every sub-layer whose [renderTile] answers with an
    [EmptyResponse] is left out. *)
Theorem empty_layers_omitted (fuel : nat) (self : MultiResponse.t) (format : string)
    (w w' : World) (m : MultiResponse.Merge) :
  format ∈ binary_formats ->
  MultiResponse.save fuel self format w = (Py.Ok m, w') ->
  exists enc feature_layers,
    m = MultiResponse.merge_layers enc feature_layers (MultiResponse.coord self)
    /\ (format = "OpenScienceMap" /\ enc = oscimap \/ format = "Mapbox" /\ enc = mapbox)
    /\ map MultiResponse.fl_name feature_layers
       = omap (feature_layer_name (layers w) (Coordinate.zoom (MultiResponse.coord self)))
              (MultiResponse.names self).
Proof.
  intros Hf E. unfold binary_formats in Hf. unfold MultiResponse.save in E.
  repeat (apply elem_of_cons in Hf as [->|Hf]); [| |by apply elem_of_nil in Hf];
    simpl in E;
    apply bind_Ok in E as (w0 & s0 & E0 & E); inversion E0; subst w0 s0; clear E0;
    apply bind_Ok in E as (found & s1 & Efound & E); apply lift_Ok in Efound as [_ ->];
    apply bind_Ok in E as (fls & s2 & Efls & E);
    inversion E; subst m s2; clear E;
    apply feature_layers_of_names in Efls as [_ Hnames].
  - exists oscimap, fls. split; [done|]. split; [by left | done].
  - exists mapbox, fls. split; [done|]. split; [by right | done].
Qed.
End Compose.

Lemma empty_layers_omitted_witness :
(@MultiResponse.save Demo.db Demo.codecs Demo.framework 1
   (MultiResponse.mk ["a"; "b"] Demo.tile) "Mapbox" Demo.world).1
= Py.Ok (MultiResponse.merge_layers mapbox
           [MultiResponse.mkFeatureLayer "a"
              [Feature2 "0101" (<["name" := SqlText "Main St"]> ∅)]]
           Demo.tile)
/\ exists enc feature_layers,
     (@MultiResponse.save Demo.db Demo.codecs Demo.framework 1
        (MultiResponse.mk ["a"; "b"] Demo.tile) "Mapbox" Demo.world).1
     = Py.Ok (MultiResponse.merge_layers enc feature_layers Demo.tile)
     /\ map MultiResponse.fl_name feature_layers = ["a"].
Proof.
split; [vm_compute; reflexivity|].
pose (res := @MultiResponse.save Demo.db Demo.codecs Demo.framework 1
               (MultiResponse.mk ["a"; "b"] Demo.tile) "Mapbox" Demo.world).
pose (m := match res.1 with
           | Py.Ok m => m
           | _ => MultiResponse.merge_layers mapbox [] Demo.tile
           end).
destruct (@empty_layers_omitted Demo.db Demo.codecs Demo.framework 1
            (MultiResponse.mk ["a"; "b"] Demo.tile) "Mapbox" Demo.world res.2 m)
  as (enc & fls & Hm & _ & Hnames).
- unfold binary_formats. apply elem_of_cons. right. apply elem_of_cons. by left.
- vm_compute. reflexivity.
- exists enc, fls. split.
  + transitivity (Py.Ok m); [vm_compute; reflexivity | by rewrite Hm].
  + rewrite Hnames. vm_compute. reflexivity.
Defined.

(** ** File extensions and the formats the responses serve *)

(** Membership in a list that is written out. *)
Ltac in_list :=
repeat first [apply list_elem_of_here | apply list_elem_of_further].

Ltac not_in_list :=
rewrite ?not_elem_of_cons;
repeat (split; [assumption || congruence |]); apply not_elem_of_nil.

Section Extensions.
Context `{Database} `{Codecs} `{Geography}.

Lemma init_Ok_inv dbinfo srid subquery cols bounds tol z clip coord lname r :
  Response.init dbinfo srid subquery cols bounds tol z clip coord lname = Py.Ok r ->
  exists geo merc unit osci mbox,
    build_query srid subquery cols bounds tol true clip 0 None = Py.Ok geo
    /\ build_query srid subquery cols bounds tol false clip 0 None = Py.Ok merc
    /\ Py.getitem tolerances (Coordinate.zoom coord) = Py.Ok unit
    /\ build_query srid subquery cols bounds tol false clip
         (oscimap_padding * unit) (Some oscimap_extents) = Py.Ok osci
    /\ build_query srid subquery cols bounds tol false clip
         (mapbox_padding * unit) (Some mapbox_extents) = Py.Ok mbox
    /\ r = Response.mk dbinfo bounds z clip coord lname
             (<["TopoJSON" := geo]>
                (<["JSON" := geo]>
                   (<["MVT" := merc]>
                      (<["OpenScienceMap" := osci]> (<["Mapbox" := mbox]> ∅))))).
Proof.
  unfold Response.init. intros E.
  apply obind_Ok in E as (geo & Hgeo & E).
  apply obind_Ok in E as (merc & Hmerc & E).
  apply obind_Ok in E as (unit & Hunit & E).
  apply obind_Ok in E as (osci & Hosci & E).
  apply obind_Ok in E as (unit' & Hunit' & E).
  apply obind_Ok in E as (mbox & Hmbox & E).
  assert (unit' = unit) as -> by congruence.
  exists geo, merc, unit, osci, mbox.
  repeat (split; [assumption |]). congruence.
Qed.

Lemma supported_formats_inv (format : string) :
  format ∈ supported_formats ->
  format = "MVT" \/ format = "JSON" \/ format = "TopoJSON"
  \/ format = "OpenScienceMap" \/ format = "Mapbox".
Proof.
  unfold supported_formats. rewrite !elem_of_cons, elem_of_nil. tauto.
Qed.

Lemma init_serves dbinfo srid subquery cols bounds tol z clip coord lname r format :
  Response.init dbinfo srid subquery cols bounds tol z clip coord lname = Py.Ok r ->
  format ∈ supported_formats -> is_Some (Response.query r !! format).
Proof.
  intros E Hf.
  apply init_Ok_inv in E as (geo & merc & unit & osci & mbox & _ & _ & _ & _ & _ & ->).
  apply supported_formats_inv in Hf as [-> | [-> | [-> | [-> | ->]]]];
    cbn [Response.query]; eexists; vm_compute; reflexivity.
Qed.

(** X1.  [Provider.getTypeByExtension] accepts exactly the extensions
    whose lower-case form is one of mvt, json, topojson, vtm and mapbox;
    the format it returns is one for which every [Response] that
    [__init__] has built holds a query and which [EmptyResponse.save]
    encodes; every other extension raises a [ValueError] that quotes the
    extension as it was given. *)
Theorem getTypeByExtension_served (extension : string) :
  ((Py.lower extension ∈ extensions)
   /\ exists mime format,
        Provider.getTypeByExtension extension = Py.Ok (mime, format)
        /\ (format ∈ supported_formats)
        /\ (forall e, exists call, EmptyResponse.save e format = Py.Ok call)
        /\ (forall dbinfo srid subquery cols bounds tol z clip coord lname r,
              Response.init dbinfo srid subquery cols bounds tol z clip coord lname
              = Py.Ok r ->
              is_Some (Response.query r !! format)))
  \/ ((Py.lower extension ∉ extensions)
      /\ Provider.getTypeByExtension extension
         = Py.Raise (Py.ValueError (extension ++ " is not a valid extension"))).
Proof.
  unfold Provider.getTypeByExtension, extensions.
  repeat case_bool_decide;
    try (right; split; [not_in_list | reflexivity]);
    left; (split; [match goal with E : _ = _ |- _ => rewrite E end; in_list |]);
    do 2 eexists; (split; [reflexivity |]);
    (split; [unfold supported_formats; in_list |]);
    (split; [intros e; eexists; reflexivity |]);
    intros; eapply init_serves; eauto; unfold supported_formats; in_list.
Qed.

End Extensions.

(** X2.  [MultiProvider.getTypeByExtension] accepts an extension exactly
  when [Provider.getTypeByExtension] does and the format is not MVT, with
  the same mime-type and format; the accepted formats are those
  [MultiResponse.save] dispatches on.  The extension mvt, in any case of
  letters, is accepted for a single layer and refused for several. *)
Theorem multi_getTypeByExtension (extension mime format : string) :
(MultiProvider.getTypeByExtension extension = Py.Ok (mime, format)
 <-> Provider.getTypeByExtension extension = Py.Ok (mime, format) /\ format <> "MVT")
/\ (MultiProvider.getTypeByExtension extension = Py.Ok (mime, format)
    -> (format ∈ multi_formats) /\ (Py.lower extension ∈ multi_extensions))
/\ (Py.lower extension = "mvt" ->
    Provider.getTypeByExtension extension = Py.Ok ("application/octet-stream+mvt", "MVT")
    /\ MultiProvider.getTypeByExtension extension
       = Py.Raise (Py.ValueError
           (extension ++ " is not a valid extension for responses with multiple layers"))).
Proof.
unfold MultiProvider.getTypeByExtension, Provider.getTypeByExtension,
  multi_formats, multi_extensions.
generalize (Py.lower extension) as l. intros l.
split; [| split].
- repeat case_bool_decide; subst; try congruence;
    (split; [intros E | intros [E Hne]]); try discriminate E;
    try exact E; try (split; [exact E | intros ->; discriminate E]).
  exfalso. apply Hne. congruence.
- repeat case_bool_decide; subst; intros E; try discriminate E;
    injection E as <- <-; split; in_list.
- intros ->. split; reflexivity.
Qed.

Lemma multi_getTypeByExtension_witness :
Provider.getTypeByExtension "MVT" = Py.Ok ("application/octet-stream+mvt", "MVT")
/\ MultiProvider.getTypeByExtension "MVT"
   = Py.Raise (Py.ValueError
       "MVT is not a valid extension for responses with multiple layers").
Proof.
exact (proj2 (proj2 (multi_getTypeByExtension "MVT" "" "")) eq_refl).
Defined.

(** ** [Response.__init__] and the [save] methods *)

Lemma getitem_tolerances_Ok (z : Z) :
(exists unit, Py.getitem tolerances z = Py.Ok unit) <-> (-22 <= z < 22)%Z.
Proof.
unfold Py.getitem. rewrite tolerances_length.
change (Z.of_nat 22) with 22%Z.
destruct (z <? 0)%Z eqn:Hneg;
  [apply Z.ltb_lt in Hneg | apply Z.ltb_ge in Hneg].
- destruct ((0 <=? z + 22)%Z && (z + 22 <? 22)%Z) eqn:Hr.
  + apply andb_true_iff in Hr as [H0 H1].
    apply Z.leb_le in H0. apply Z.ltb_lt in H1.
    destruct (nth_error tolerances (Z.to_nat (z + 22))) eqn:Hn.
    * split; [lia | eauto].
    * apply nth_error_None in Hn. rewrite tolerances_length in Hn. lia.
  + apply andb_false_iff in Hr as [H0 | H1];
      [apply Z.leb_gt in H0 | apply Z.ltb_ge in H1];
      (split; [intros [u Hu]; discriminate Hu | lia]).
- destruct ((0 <=? z)%Z && (z <? 22)%Z) eqn:Hr.
  + apply andb_true_iff in Hr as [H0 H1].
    apply Z.leb_le in H0. apply Z.ltb_lt in H1.
    destruct (nth_error tolerances (Z.to_nat z)) eqn:Hn.
    * split; [lia | eauto].
    * apply nth_error_None in Hn. rewrite tolerances_length in Hn. lia.
  + apply andb_false_iff in Hr as [H0 | H1];
      [apply Z.leb_gt in H0 | apply Z.ltb_ge in H1];
      (split; [intros [u Hu]; discriminate Hu | lia]).
Qed.

Lemma getitem_tolerances_IndexError (z : Z) :
~ (-22 <= z < 22)%Z -> Py.getitem tolerances z = Py.Raise Py.IndexError.
Proof.
intros Hz. pose proof (getitem_tolerances_Ok z) as Hok.
unfold Py.getitem in *.
destruct ((0 <=? (if (z <? 0)%Z then (z + Z.of_nat (length tolerances))%Z else z))%Z
          && ((if (z <? 0)%Z then (z + Z.of_nat (length tolerances))%Z else z)
              <? Z.of_nat (length tolerances))%Z); [| reflexivity].
destruct (nth_error tolerances _); [| reflexivity].
exfalso. apply Hz, Hok. eauto.
Qed.

Lemma bind_lift_Ok {S A B} (a : A) (k : A -> Py.M S B) (s : S) :
Py.bind (Py.lift (Py.Ok a)) k s = k a s.
Proof. reflexivity. Qed.

Lemma bind_run {S A B} (m : Py.M S A) (k : A -> Py.M S B) (s s' : S) (o : Py.outcome A) :
m s = (o, s') ->
Py.bind m k s = match o with
                | Py.Ok a => k a s'
                | Py.Raise e => (Py.Raise e, s')
                | Py.OutOfFuel => (Py.OutOfFuel, s')
                end.
Proof. intros E. unfold Py.bind. rewrite E. reflexivity. Qed.

Section GetFeatures.
Context `{Database}.

Lemma get_features_run dbinfo q trace :
  get_features dbinfo q trace
  = match connect dbinfo with
    | inl e => (Py.Raise e, trace)
    | inr cur => (Py.obind (Py.answer (cur q)) features_of_rows, (trace ++ [q])%list)
    end.
Proof.
  unfold get_features, Connection.
  destruct (connect dbinfo) as [e | cur]; [reflexivity |].
  unfold Py.bind, execute, Py.lift.
  destruct (cur q) as [e | rows]; reflexivity.
Qed.
End GetFeatures.

Section Init.
Context `{Database} `{Codecs} `{Geography} `{Framework}.

(** X3.  [Response.__init__] succeeds exactly when the column set holds
    [__geometry__] and the zoom of the coordinate indexes the tolerance
    table (from -22 to 21, negative values counting from the end).  The
    check of the columns comes first: without a column set the
    [TypeError], without the geometry column the exception of
    [build_query], and only then the [IndexError].  A response that is
    built holds a query for the five formats and no other, the same text
    for JSON and TopoJSON, for MVT the unpadded, unscaled mercator query,
    and the attributes it was given. *)
Theorem init_outcome dbinfo srid subquery cols bounds tol z clip coord lname :
  let init := Response.init dbinfo srid subquery cols bounds tol z clip coord lname in
  (cols = None -> init = Py.Raise (Py.TypeError "'NoneType' object is not iterable"))
  /\ (forall cs : gset string, cols = Some cs -> "__geometry__" ∉ cs ->
        init = Py.Raise (Py.Exception "There's supposed to be a __geometry__ column."))
  /\ (forall cs : gset string, cols = Some cs -> "__geometry__" ∈ cs ->
        ~ (-22 <= Coordinate.zoom coord < 22)%Z -> init = Py.Raise Py.IndexError)
  /\ (forall cs : gset string, cols = Some cs -> "__geometry__" ∈ cs ->
        (-22 <= Coordinate.zoom coord < 22)%Z ->
        exists r,
          init = Py.Ok r
          /\ dom (Response.query r) = list_to_set supported_formats
          /\ Response.query r !! "JSON" = Response.query r !! "TopoJSON"
          /\ (exists columns,
                select_columns cols = Py.Ok columns
                /\ Response.query r !! "MVT"
                   = Some (query_template columns
                             (geometry_expression (padded_bbox srid bounds 0) bounds tol
                                false clip None)
                             (Py.replace subquery "!bbox!" (padded_bbox srid bounds 0))
                             (padded_bbox srid bounds 0)))
          /\ Response.dbinfo r = dbinfo /\ Response.bounds r = bounds
          /\ Response.zoom r = z /\ Response.clip r = clip
          /\ Response.coord r = coord /\ Response.layer_name r = lname).
Proof.
  intros init. subst init. split; [| split; [| split]].
  - intros ->. unfold Response.init. rewrite build_query_no_columns. reflexivity.
  - intros cs -> Hg. unfold Response.init.
    rewrite build_query_no_geometry by exact Hg. reflexivity.
  - intros cs -> Hg Hz. unfold Response.init.
    destruct (build_query_Ok srid subquery cs bounds tol true clip 0 None Hg) as [q1 ->].
    destruct (build_query_Ok srid subquery cs bounds tol false clip 0 None Hg) as [q2 ->].
    cbn [Py.obind]. rewrite getitem_tolerances_IndexError by exact Hz. reflexivity.
  - intros cs -> Hg Hz. unfold Response.init.
    destruct (build_query_Ok srid subquery cs bounds tol true clip 0 None Hg) as [q1 ->].
    pose proof (build_query_Ok srid subquery cs bounds tol false clip 0 None Hg) as [q2 E2].
    rewrite E2. cbn [Py.obind].
    apply getitem_tolerances_Ok in Hz as [unit ->]. cbn [Py.obind].
    destruct (build_query_Ok srid subquery cs bounds tol false clip
                (oscimap_padding * unit) (Some oscimap_extents) Hg) as [q3 ->].
    destruct (build_query_Ok srid subquery cs bounds tol false clip
                (mapbox_padding * unit) (Some mapbox_extents) Hg) as [q4 ->].
    cbn [Py.obind]. eexists. split; [reflexivity |].
    cbn [Response.query Response.dbinfo Response.bounds Response.zoom Response.clip
         Response.coord Response.layer_name].
    split; [| split; [| split]].
    + rewrite !dom_insert_L, dom_empty_L. unfold supported_formats.
      cbn [list_to_set]. apply set_eq. intros x.
      rewrite !elem_of_union, !elem_of_singleton, elem_of_empty. tauto.
    + vm_compute. reflexivity.
    + unfold build_query in E2.
      destruct (select_columns (Some cs)) as [c | e |]; try discriminate E2.
      cbn [Py.obind] in E2. injection E2 as <-.
      exists c. split; [reflexivity |].
      rewrite lookup_insert_ne by discriminate.
      rewrite lookup_insert_ne by discriminate.
      rewrite lookup_insert_eq. reflexivity.
    + repeat split.
Qed.

(** X4.  A format that is none of the five: [Response.save] raises
    [KeyError] for the format when it looks up the query, before any
    statement is executed, so that its own [ValueError] branch is never
    reached for a response [__init__] has built; [EmptyResponse.save] and
    [MultiResponse.save] raise their [ValueError], the latter for MVT as
    well and without touching a layer or the database. *)
Theorem unsupported_format_errors (format : string) :
  (forall dbinfo srid subquery cols bounds tol z clip coord lname r trace,
     Response.init dbinfo srid subquery cols bounds tol z clip coord lname = Py.Ok r ->
     format ∉ supported_formats ->
     Response.save r format trace = (Py.Raise (Py.KeyError format), trace))
  /\ (forall e : EmptyResponse.t,
        format ∉ supported_formats ->
        EmptyResponse.save e format
        = Py.Raise (Py.ValueError (format ++ " is not supported")))
  /\ (forall fuel (self : MultiResponse.t) (w : World),
        format ∉ multi_formats ->
        MultiResponse.save fuel self format w
        = (Py.Raise (Py.ValueError
             (format ++ " is not supported for responses with multiple layers")), w)).
Proof.
  split; [| split].
  - intros dbinfo srid subquery cols bounds tol z clip coord lname r trace E Hf.
    apply init_Ok_inv in E as (geo & merc & unit & osci & mbox & _ & _ & _ & _ & _ & ->).
    unfold supported_formats in Hf. rewrite !not_elem_of_cons in Hf.
    destruct Hf as (N1 & N2 & N3 & N4 & N5 & _).
    unfold Response.save. cbn [Response.query].
    rewrite !lookup_insert_ne by congruence. rewrite lookup_empty. reflexivity.
  - intros e Hf.
    unfold supported_formats in Hf. rewrite !not_elem_of_cons in Hf.
    destruct Hf as (N1 & N2 & N3 & N4 & N5 & _).
    unfold EmptyResponse.save.
    repeat case_bool_decide; try contradiction. reflexivity.
  - intros fuel self w Hf.
    unfold multi_formats in Hf. rewrite !not_elem_of_cons in Hf.
    destruct Hf as (N1 & N2 & N3 & N4 & _).
    unfold MultiResponse.save.
    repeat case_bool_decide; try contradiction. reflexivity.
Qed.

(** X5.  [Response.save] executes exactly one statement, the query of the
    requested format, whatever the database answers: a refused connection
    is raised with nothing executed, an error of the statement is raised
    after it, and rows that convert to features are handed to the encoder
    of the format with the arguments of the format: [mvt] with none,
    [geojson] with the zoom and the clip flag, [topojson] with the
    geographic corners of the bounds and the clip flag, [oscimap] and
    [mapbox] with the coordinate and the layer name.  A format that has a
    query but no encoder raises [ValueError] after the statement. *)
Theorem save_executes_one_statement (r : Response.t) (format q : string) (trace : Trace) :
  Response.query r !! format = Some q ->
  (forall e, connect (Response.dbinfo r) = inl e ->
     Response.save r format trace = (Py.Raise e, trace))
  /\ (forall cur, connect (Response.dbinfo r) = inr cur ->
        (Response.save r format trace).2 = (trace ++ [q])%list
        /\ (forall e, cur q = inl e ->
              (Response.save r format trace).1 = Py.Raise e)
        /\ (forall rows e, cur q = inr rows -> features_of_rows rows = Py.Raise e ->
              (Response.save r format trace).1 = Py.Raise e)
        /\ (forall rows fs, cur q = inr rows -> features_of_rows rows = Py.Ok fs ->
              (format = "MVT" ->
                 (Response.save r format trace).1 = Py.Ok (encode mvt fs []))
              /\ (format = "JSON" ->
                    (Response.save r format trace).1
                    = Py.Ok (encode geojson fs
                               [PInt (Response.zoom r); PBool (Response.clip r)]))
              /\ (format = "TopoJSON" ->
                    let ll := projLocation (xmin (Response.bounds r),
                                            ymin (Response.bounds r)) in
                    let ur := projLocation (xmax (Response.bounds r),
                                            ymax (Response.bounds r)) in
                    (Response.save r format trace).1
                    = Py.Ok (encode topojson fs
                               [PTuple4 ll.1 ll.2 ur.1 ur.2; PBool (Response.clip r)]))
              /\ (format = "OpenScienceMap" ->
                    (Response.save r format trace).1
                    = Py.Ok (encode oscimap fs
                               [PCoord (Response.coord r); PStr (Response.layer_name r)]))
              /\ (format = "Mapbox" ->
                    (Response.save r format trace).1
                    = Py.Ok (encode mapbox fs
                               [PCoord (Response.coord r); PStr (Response.layer_name r)]))
              /\ (format ∉ supported_formats ->
                    (Response.save r format trace).1
                    = Py.Raise (Py.ValueError (format ++ " is not supported"))))).
Proof.
  intros Hq. unfold Response.save. rewrite Hq, bind_lift_Ok.
  split.
  - intros e He.
    erewrite bind_run by (rewrite get_features_run, He; reflexivity). reflexivity.
  - intros cur Hcur.
    erewrite bind_run by (rewrite get_features_run, Hcur; reflexivity).
    destruct (cur q) as [e | rows]; cbn [Py.answer Py.obind].
    + split; [reflexivity |]. split; [intros e' [= <-]; reflexivity |].
      split; [intros rows e' [=] |]. intros rows fs [=].
    + split; [destruct (features_of_rows rows); repeat case_bool_decide; reflexivity |].
      split; [intros e' [=] |].
      split.
      * intros rows' e' [= <-] ->. reflexivity.
      * intros rows' fs' [= <-] ->.
        split; [intros ->; reflexivity |]. split; [intros ->; reflexivity |].
        split; [intros ->; reflexivity |]. split; [intros ->; reflexivity |].
        split; [intros ->; reflexivity |].
        intros Hf. unfold supported_formats in Hf. rewrite !not_elem_of_cons in Hf.
        destruct Hf as (N1 & N2 & N3 & N4 & N5 & _).
        repeat case_bool_decide; try contradiction. reflexivity.
Qed.

End Init.

Lemma init_outcome_witness :
exists r,
  @Response.init Demo.codecs ∅ 900913 Demo.roads_query (Some (dom Demo.road)) Sample.box None
    2 true (Coordinate.mk 1 2 2) "a" = Py.Ok r
  /\ dom (Response.query r) = list_to_set supported_formats.
Proof.
destruct (proj2 (proj2 (proj2
    (@init_outcome Demo.codecs ∅ 900913 Demo.roads_query (Some (dom Demo.road))
       Sample.box None 2 true (Coordinate.mk 1 2 2) "a")))
    (dom Demo.road) eq_refl) as (r & E & Hdom & _).
- vm_compute. reflexivity.
- cbn [Coordinate.zoom]. lia.
- exists r. split; [exact E | exact Hdom].
Defined.

Lemma unsupported_format_errors_witness :
@Response.save Demo.db Demo.geography Sample.response "PNG" []
= (Py.Raise (Py.KeyError "PNG"), [])
/\ @EmptyResponse.save Demo.geography (EmptyResponse.mk Sample.box) "PNG"
   = Py.Raise (Py.ValueError "PNG is not supported")
/\ @MultiResponse.save Demo.db Demo.codecs Demo.framework 1
     (MultiResponse.mk ["a"; "b"] Demo.tile) "MVT" Demo.world
   = (Py.Raise (Py.ValueError "MVT is not supported for responses with multiple layers"),
      Demo.world).
Proof.
pose proof (@unsupported_format_errors Demo.db Demo.codecs Demo.geography
              Demo.framework "PNG") as (Hr & He & _).
pose proof (@unsupported_format_errors Demo.db Demo.codecs Demo.geography
              Demo.framework "MVT") as (_ & _ & Hm).
split; [| split].
- refine (Hr ∅ 900913%Z Demo.roads_query (Some (dom Demo.road)) Sample.box None
            2%Z true (Coordinate.mk 1 2 2) "a" Sample.response [] _ _).
  + vm_compute. reflexivity.
  + unfold supported_formats. rewrite !not_elem_of_cons.
    repeat (split; [discriminate |]). apply not_elem_of_nil.
- apply He. unfold supported_formats. rewrite !not_elem_of_cons.
  repeat (split; [discriminate |]). apply not_elem_of_nil.
- apply Hm. unfold multi_formats. rewrite !not_elem_of_cons.
  repeat (split; [discriminate |]). apply not_elem_of_nil.
Defined.

Lemma save_executes_one_statement_witness :
@Response.save Demo.db Demo.geography Sample.response "JSON" []
= (Py.Ok (encode geojson [Feature2 "0101" (<["name" := SqlText "Main St"]> ∅)]
                 [PInt 2; PBool true]),
   [Demo.query_of Sample.response "JSON"])
/\ @Response.save Sample.failing Demo.geography Sample.response "MVT" []
   = (Py.Raise (Py.DatabaseError "relation does not exist"),
      [Demo.query_of Sample.response "MVT"])
/\ @Response.save Sample.refusing Demo.geography Sample.response "MVT" []
   = (Py.Raise (Py.DatabaseError "could not connect to server"), []).
Proof.
assert (Response.query Sample.response !! "JSON"
        = Some (Demo.query_of Sample.response "JSON")) as Hj
  by (vm_compute; reflexivity).
assert (Response.query Sample.response !! "MVT"
        = Some (Demo.query_of Sample.response "MVT")) as Hm
  by (vm_compute; reflexivity).
pose proof (@save_executes_one_statement Demo.db Demo.geography
              Sample.response "JSON" _ [] Hj) as (_ & Hd).
pose proof (@save_executes_one_statement Sample.failing Demo.geography
              Sample.response "MVT" _ [] Hm) as (_ & Hf).
pose proof (@save_executes_one_statement Sample.refusing Demo.geography
              Sample.response "MVT" _ [] Hm) as (Hr & _).
specialize (Hd _ eq_refl) as (Hdt & _ & _ & Hrows).
specialize (Hf _ eq_refl) as (Hft & Hfe & _).
split; [| split; [| exact (Hr _ eq_refl)]].
- assert (Demo.cursor (Demo.query_of Sample.response "JSON") = inr [Demo.road]) as Hcur
    by (vm_compute; reflexivity).
  assert (features_of_rows [Demo.road]
          = Py.Ok [Feature2 "0101" (<["name" := SqlText "Main St"]> ∅)]) as Hfs
    by (vm_compute; reflexivity).
  pose proof (proj1 (proj2 (Hrows _ _ Hcur Hfs)) eq_refl) as Henc.
  rewrite (surjective_pairing (Response.save _ _ _)), Hdt, Henc. reflexivity.
- rewrite (surjective_pairing (Response.save _ _ _)), Hft, (Hfe _ eq_refl).
  reflexivity.
Defined.

(** ** [get_features] *)

Lemma prop_lookup (row : gmap string SqlValue) (k : string) (v : SqlValue) :
filter (fun kv : string * SqlValue =>
          negb (bool_decide (kv.1 = "__geometry__") || bool_decide (kv.1 = "__id__"))
          && negb (is_null kv.2) = true) row !! k = Some v
<-> row !! k = Some v /\ k <> "__geometry__" /\ k <> "__id__" /\ is_null v = false.
Proof.
rewrite map_lookup_filter_Some. cbn [fst snd].
rewrite andb_true_iff, !negb_true_iff, orb_false_iff, !bool_decide_eq_false.
tauto.
Qed.

Lemma feature_of_row_Some (row : gmap string SqlValue) (f : Feature) :
feature_of_row row = Py.Ok (Some f) ->
exists geometry,
  row !! "__geometry__" = Some geometry
  /\ is_null geometry = false
  /\ feature_wkb f = bytes geometry
  /\ feature_id f = row !! "__id__"
  /\ feature_prop f
     = filter (fun kv : string * SqlValue =>
                 negb (bool_decide (kv.1 = "__geometry__") || bool_decide (kv.1 = "__id__"))
                 && negb (is_null kv.2) = true) row.
Proof.
unfold feature_of_row.
destruct (row !! "__geometry__") as [geometry |] eqn:Hg; [| intros [=]].
destruct (is_null geometry) eqn:Hn; [intros [=] |].
destruct (row !! "__id__") as [id |] eqn:Hi; intros [= <-];
  exists geometry; repeat split; assumption || reflexivity.
Qed.

Lemma feature_of_row_outcome (row : gmap string SqlValue) :
match row !! "__geometry__" with
| None => feature_of_row row = Py.Raise (Py.KeyError "__geometry__")
| Some geometry =>
    if is_null geometry then feature_of_row row = Py.Ok None
    else exists f, feature_of_row row = Py.Ok (Some f) /\ feature_wkb f = bytes geometry
end.
Proof.
unfold feature_of_row.
destruct (row !! "__geometry__") as [geometry |]; [| reflexivity].
destruct (is_null geometry); [reflexivity |].
destruct (row !! "__id__"); eexists; split; reflexivity.
Qed.

(** X6.  Every feature [get_features] builds comes from a row whose
  [__geometry__] is not null: its first component is the text of that
  geometry, its identifier is the [__id__] of the row when the row has
  one (the tuple has two components otherwise), and its properties are
  exactly the entries of the row other than [__geometry__] and [__id__]
  whose value is not null. *)
Theorem features_of_rows_content (rows : list (gmap string SqlValue)) (fs : list Feature) :
features_of_rows rows = Py.Ok fs ->
Forall (fun f =>
          exists row geometry,
            row ∈ rows
            /\ row !! "__geometry__" = Some geometry
            /\ is_null geometry = false
            /\ feature_wkb f = bytes geometry
            /\ feature_id f = row !! "__id__"
            /\ (forall k v,
                  feature_prop f !! k = Some v
                  <-> row !! k = Some v /\ k <> "__geometry__" /\ k <> "__id__"
                      /\ is_null v = false)) fs.
Proof.
revert fs. induction rows as [| row rest IH]; intros fs E.
- injection E as <-. constructor.
- cbn [features_of_rows] in E.
  apply obind_Ok in E as (fo & Hrow & E).
  apply obind_Ok in E as (more & Hrest & E).
  injection E as <-.
  specialize (IH more Hrest).
  assert (Forall (fun f =>
            exists row0 geometry,
              row0 ∈ row :: rest
              /\ row0 !! "__geometry__" = Some geometry
              /\ is_null geometry = false
              /\ feature_wkb f = bytes geometry
              /\ feature_id f = row0 !! "__id__"
              /\ (forall k v,
                    feature_prop f !! k = Some v
                    <-> row0 !! k = Some v /\ k <> "__geometry__" /\ k <> "__id__"
                        /\ is_null v = false)) more) as IH'.
  { eapply List.Forall_impl; [| exact IH].
    intros f (row0 & g & Hin & Hrest'). exists row0, g.
    split; [apply list_elem_of_further; exact Hin | exact Hrest']. }
  destruct fo as [f |]; [| exact IH'].
  constructor; [| exact IH'].
  apply feature_of_row_Some in Hrow as (g & Hg & Hn & Hw & Hi & Hp).
  exists row, g. split; [apply list_elem_of_here |].
  repeat (split; [assumption |]).
  intros k v. rewrite Hp. apply prop_lookup.
Qed.

Lemma features_of_rows_wkb (rows : list (gmap string SqlValue)) :
Forall (fun row => is_Some (row !! "__geometry__")) rows ->
exists fs, features_of_rows rows = Py.Ok fs /\ map feature_wkb fs = omap row_wkb rows.
Proof.
induction rows as [| row rest IH]; intros Hall.
- exists []. split; reflexivity.
- apply Forall_cons in Hall as [[g Hg] Hrest].
  destruct (IH Hrest) as (more & Hmore & Hwkb).
  pose proof (feature_of_row_outcome row) as Hrow. rewrite Hg in Hrow.
  cbn [features_of_rows omap list_omap]. unfold row_wkb at 1. rewrite Hg.
  destruct (is_null g).
  + rewrite Hrow, Hmore. exists more. split; [reflexivity | exact Hwkb].
  + destruct Hrow as (f & -> & Hf). rewrite Hmore.
    exists (f :: more). split; [reflexivity |].
    cbn [map]. rewrite Hf, Hwkb. reflexivity.
Qed.

(** X7.  When every row has a [__geometry__] entry the rows convert
  without error, in the order of the result set, the rows whose geometry
  is null being skipped and no other: the geometry texts of the features
  are those of the remaining rows. *)
Theorem features_of_rows_order (rows : list (gmap string SqlValue)) :
Forall (fun row => is_Some (row !! "__geometry__")) rows ->
exists fs,
  features_of_rows rows = Py.Ok fs
  /\ map feature_wkb fs = omap row_wkb rows
  /\ (length fs <= length rows)%nat
  /\ (length fs = length rows
      <-> Forall (fun row => row !! "__geometry__" <> Some SqlNull) rows).
Proof.
induction rows as [| row rest IH]; intros Hall.
- exists []. repeat split; auto.
- apply Forall_cons in Hall as [[g Hg] Hrest].
  destruct (IH Hrest) as (more & Hmore & Hwkb & Hlen & Hfull).
  pose proof (feature_of_row_outcome row) as Hrow. rewrite Hg in Hrow.
  cbn [features_of_rows omap list_omap]. unfold row_wkb at 1. rewrite Hg.
  destruct (is_null g) eqn:Hn.
  + rewrite Hrow, Hmore. cbn [Py.obind]. exists more.
    split; [reflexivity |]. split; [exact Hwkb |].
    split; [cbn [length]; lia |].
    split; [cbn [length]; lia |].
    intros Hnn. apply Forall_cons in Hnn as [Hnn _].
    destruct g; try discriminate Hn. congruence.
  + destruct Hrow as (f & -> & Hf). rewrite Hmore. cbn [Py.obind].
    exists (f :: more). split; [reflexivity |].
    split; [cbn [map]; rewrite Hf, Hwkb; reflexivity |].
    split; [cbn [length]; lia |].
    cbn [length]. rewrite Forall_cons.
    split.
    * intros Hl. split; [rewrite Hg; intros [= ->]; discriminate Hn |].
      apply Hfull. lia.
    * intros [_ Hnn]. apply Hfull in Hnn. lia.
Qed.

Lemma features_of_rows_witness_rows :
Forall (fun row : gmap string SqlValue => is_Some (row !! "__geometry__"))
       [Demo.road; <["__geometry__" := SqlNull]> Demo.label; Demo.river].
Proof.
repeat constructor; eexists; vm_compute; reflexivity.
Qed.

Lemma features_of_rows_order_witness :
exists fs,
  features_of_rows [Demo.road; <["__geometry__" := SqlNull]> Demo.label; Demo.river]
  = Py.Ok fs
  /\ map feature_wkb fs = ["0101"; "0102"].
Proof.
destruct (features_of_rows_order _ features_of_rows_witness_rows)
  as (fs & E & Hwkb & _).
exists fs. split; [exact E | exact Hwkb].
Defined.

Lemma features_of_rows_content_witness :
Forall (fun f => exists row geometry,
          row ∈ [Demo.road]
          /\ row !! "__geometry__" = Some geometry
          /\ is_null geometry = false
          /\ feature_wkb f = bytes geometry
          /\ feature_id f = row !! "__id__"
          /\ (forall k v,
                feature_prop f !! k = Some v
                <-> row !! k = Some v /\ k <> "__geometry__" /\ k <> "__id__"
                    /\ is_null v = false))
       [Feature2 "0101" (<["name" := SqlText "Main St"]> ∅)].
Proof.
apply (features_of_rows_content [Demo.road]). vm_compute. reflexivity.
Defined.

Section GetFeaturesErrors.
Context `{Database}.

Lemma features_of_rows_missing (rows : list (gmap string SqlValue)) :
  (exists row, row ∈ rows /\ row !! "__geometry__" = None) ->
  features_of_rows rows = Py.Raise (Py.KeyError "__geometry__").
Proof.
  induction rows as [| row rest IH]; intros (bad & Hin & Hbad).
  - apply elem_of_nil in Hin as [].
  - cbn [features_of_rows].
    pose proof (feature_of_row_outcome row) as Hrow.
    destruct (row !! "__geometry__") as [g |] eqn:Hg.
    + apply elem_of_cons in Hin as [-> | Hin]; [congruence |].
      rewrite IH by eauto.
      destruct (is_null g); [rewrite Hrow; reflexivity |].
      destruct Hrow as (f & -> & _). reflexivity.
    + rewrite Hrow. reflexivity.
Qed.

(** X8.  [get_features] executes the one statement it is given and no
    other.  A refused connection is raised with nothing executed; an
    error of the statement is raised; a result set one of whose rows has
    no [__geometry__] entry raises [KeyError] for it, whatever the other
    rows hold; a result set without rows is the empty list. *)
Theorem get_features_outcome (dbinfo : gmap string string) (query : string)
    (trace : Trace) :
  (forall e, connect dbinfo = inl e ->
     get_features dbinfo query trace = (Py.Raise e, trace))
  /\ (forall cur, connect dbinfo = inr cur ->
        (get_features dbinfo query trace).2 = (trace ++ [query])%list
        /\ (forall e, cur query = inl e ->
              (get_features dbinfo query trace).1 = Py.Raise e)
        /\ (forall rows, cur query = inr rows ->
              (exists row, row ∈ rows /\ row !! "__geometry__" = None) ->
              (get_features dbinfo query trace).1
              = Py.Raise (Py.KeyError "__geometry__"))
        /\ (forall rows, cur query = inr rows ->
              Forall (fun row => is_Some (row !! "__geometry__")) rows ->
              exists fs, (get_features dbinfo query trace).1 = Py.Ok fs
                         /\ map feature_wkb fs = omap row_wkb rows)).
Proof.
  rewrite get_features_run. split.
  - intros e ->. reflexivity.
  - intros cur ->. cbn [fst snd]. split; [reflexivity |].
    split; [intros e ->; reflexivity |].
    split.
    + intros rows -> Hbad. cbn [Py.answer Py.obind].
      apply features_of_rows_missing. exact Hbad.
    + intros rows -> Hall. cbn [Py.answer Py.obind].
      destruct (features_of_rows_wkb rows Hall) as (fs & E & Hwkb).
      exists fs. split; assumption.
Qed.
End GetFeaturesErrors.

Lemma get_features_outcome_witness :
@get_features Sample.refusing ∅ "SELECT 1" []
= (Py.Raise (Py.DatabaseError "could not connect to server"), [])
/\ @get_features Demo.db ∅ "SELECT txt AS label FROM labels" []
   = (Py.Raise (Py.KeyError "__geometry__"), ["SELECT txt AS label FROM labels"]).
Proof.
split.
- exact (proj1 (@get_features_outcome Sample.refusing ∅ "SELECT 1" []) _ eq_refl).
- destruct (proj2 (@get_features_outcome Demo.db ∅ "SELECT txt AS label FROM labels" [])
              _ eq_refl) as (Ht & _ & Hk & _).
  specialize (Hk [Demo.label] eq_refl).
  rewrite (surjective_pairing (get_features _ _ _)), Ht, Hk; [reflexivity |].
  exists Demo.label. split; [apply list_elem_of_here | vm_compute; reflexivity].
Defined.

(** ** The text [build_query] assembles *)

(** *** [str.replace] *)

Lemma replace_from_skip (old new : string) (k : nat) : forall s,
exists s', Py.replace_from k old new s = Py.replace_from 0 old new s'
           /\ (String.length s' <= String.length s)%nat.
Proof.
induction k as [| k IH]; intros s.
- exists s. split; [reflexivity | lia].
- destruct s as [| c t].
  + exists "". split; [reflexivity | cbn; lia].
  + destruct (IH t) as (s' & E & Hlen).
    exists s'. split; [exact E | cbn [String.length]; lia].
Qed.

(** Text without the token is left as it is. *)
Lemma replace_absent (old new s : string) :
Py.count_sub old s = O -> Py.replace s old new = s.
Proof.
unfold Py.replace. induction s as [| c t IH]; intros Hc; [reflexivity |].
cbn [Py.count_sub] in Hc. cbn [Py.replace_from].
destruct (String.prefix old (String c t)); [discriminate Hc |].
rewrite IH by exact Hc. reflexivity.
Qed.

(** A match in the result that starts in text copied from the input is a
  match in the input. *)
Lemma prefix_replace (old new s : string) :
first_foreign old new = true ->
forall p,
  (forall c, occurs c p = true -> occurs c old = true) ->
  String.prefix p (Py.replace_from 0 old new s) = true -> String.prefix p s = true.
Proof.
intros new_first.
induction s as [| c t IH]; intros p Hp; [exact (fun E => E) |].
destruct p as [| p1 p']; [reflexivity |].
cbn [Py.replace_from].
destruct (String.prefix old (String c t)) eqn:Hmatch.
- destruct new as [| f new']; [discriminate new_first |].
  cbn [first_foreign] in new_first. apply negb_true_iff in new_first.
  change (String f new' ++ ?x) with (String f (new' ++ x)).
  cbn [String.prefix]. destruct (ascii_dec p1 f) as [<- |]; [| discriminate].
  rewrite Hp in new_first; [discriminate new_first |].
  cbn [occurs]. rewrite Ascii.eqb_refl. reflexivity.
- cbn [String.prefix]. destruct (ascii_dec p1 c); [| discriminate].
  apply IH. intros x Hx. apply Hp. cbn [occurs]. rewrite Hx. apply orb_true_r.
Qed.

Lemma replace_from_clean (old new : string) (n : nat) :
old <> "" -> first_foreign old new = true -> last_foreign old new = true ->
Py.count_sub old new = O ->
forall s, (String.length s <= n)%nat ->
  Py.count_sub old (Py.replace_from 0 old new s) = O.
Proof.
intros old_nonempty new_first new_last new_clean.
induction n as [| n IH]; intros s Hlen.
- destruct s; [reflexivity | cbn in Hlen; lia].
- destruct s as [| c t]; [reflexivity |].
  cbn [String.length] in Hlen. cbn [Py.replace_from].
  destruct (String.prefix old (String c t)) eqn:Hmatch.
  + destruct (replace_from_skip old new (String.length old - 1) t) as (t' & -> & Ht').
    rewrite count_sub_lit_app by assumption.
    rewrite new_clean, IH by lia. reflexivity.
  + cbn [Py.count_sub]. rewrite IH by lia.
    destruct (String.prefix old (String c (Py.replace_from 0 old new t))) eqn:Hp;
      [| reflexivity].
    exfalso. destruct old as [| o1 old']; [congruence |].
    cbn [String.prefix] in Hp, Hmatch.
    destruct (ascii_dec o1 c); [| discriminate Hp].
    apply prefix_replace in Hp; [congruence | exact new_first |].
    intros x Hx. cbn [occurs]. rewrite Hx. apply orb_true_r.
Qed.

(** Once replaced, the token is gone: the inserted text neither holds it
  nor completes one with the text around it. *)
Lemma replace_clean (old new s : string) :
old <> "" -> first_foreign old new = true -> last_foreign old new = true ->
Py.count_sub old new = O ->
Py.count_sub old (Py.replace s old new) = O.
Proof.
intros H1 H2 H3 H4.
apply (replace_from_clean old new (String.length s)); auto.
Qed.

Lemma last_foreign_app pat a b :
last_foreign pat b = true -> last_foreign pat (a ++ b) = true.
Proof.
intros Hb. apply last_foreign_split in Hb as (b' & c & -> & Hc).
unfold last_foreign. rewrite <- append_assoc, rev_snoc.
cbn [first_foreign]. rewrite Hc. reflexivity.
Qed.

(** *** Counting the words of a query *)

Lemma query_words_inv (pat : string) :
pat ∈ query_words ->
pat = "ST_Intersection" \/ pat = "ST_SimplifyPreserveTopology" \/ pat = "ST_Transform"
\/ pat = "ST_TransScale" \/ pat = "!bbox!" \/ pat = "MD5".
Proof.
unfold query_words. rewrite !elem_of_cons, elem_of_nil. tauto.
Qed.

Ltac each_word H :=
apply query_words_inv in H;
destruct H as [-> | [-> | [-> | [-> | [-> | ->]]]]].

Lemma format_f_free pat prec x :
pat ∈ query_words -> Py.count_sub pat (Py.format_f prec x) = O.
Proof.
intros Hp. apply count_sub_numeric; [| apply numeric_format_f].
each_word Hp; reflexivity.
Qed.

Lemma format_d_free pat z :
pat ∈ query_words -> Py.count_sub pat (Py.format_d z) = O.
Proof.
intros Hp. apply count_sub_numeric; [| apply numeric_format_d].
each_word Hp; reflexivity.
Qed.

Lemma padded_bbox_free pat srid bounds padding :
pat ∈ query_words -> Py.count_sub pat (padded_bbox srid bounds padding) = O.
Proof.
intros Hp. unfold padded_bbox.
pose proof (fun prec x => format_f_free pat prec x Hp) as Hf.
pose proof (format_d_free pat srid Hp) as Hd.
each_word Hp;
  count_pieces
    [Lit "ST_SetSRID(ST_MakeBox2D(ST_MakePoint(";
     Hole (Py.format_f 2 (xmin bounds - padding)); Lit ", ";
     Hole (Py.format_f 2 (ymin bounds - padding)); Lit "), ST_MakePoint(";
     Hole (Py.format_f 2 (xmax bounds + padding)); Lit ", ";
     Hole (Py.format_f 2 (ymax bounds + padding)); Lit ")), ";
     Hole (Py.format_d srid); Lit ")"];
  rewrite !Hf, Hd; reflexivity.
Qed.

Lemma probe_bbox_free pat srid bounds :
pat ∈ query_words -> Py.count_sub pat (probe_bbox srid bounds) = O.
Proof.
intros Hp. unfold probe_bbox.
pose proof (fun prec x => format_f_free pat prec x Hp) as Hf.
pose proof (format_d_free pat srid Hp) as Hd.
each_word Hp;
  count_pieces
    [Lit "ST_SetSRID(ST_MakeBox2D(ST_MakePoint(";
     Hole (Py.format_f 6 (xmin bounds)); Lit ", ";
     Hole (Py.format_f 6 (ymin bounds)); Lit "), ST_MakePoint(";
     Hole (Py.format_f 6 (xmax bounds)); Lit ", ";
     Hole (Py.format_f 6 (ymax bounds)); Lit ")), ";
     Hole (Py.format_d srid); Lit ")"];
  rewrite !Hf, Hd; reflexivity.
Qed.

Lemma clip_step_hits pat is_clipped bbox geom :
pat ∈ query_words -> Py.count_sub pat bbox = O ->
Py.count_sub pat (clip_step is_clipped bbox geom)
= (hits "ST_Intersection" pat is_clipped + Py.count_sub pat geom)%nat.
Proof.
intros Hp Hb. unfold clip_step, hits. destruct is_clipped; [| reflexivity].
each_word Hp;
  count_pieces [Lit "ST_Intersection("; Hole geom; Lit ", "; Hole bbox; Lit ")"];
  rewrite Hb; eval_counts; cbn; lia.
Qed.

Lemma simplify_step_hits pat tolerance geom :
pat ∈ query_words ->
Py.count_sub pat (simplify_step tolerance geom)
= (hits "ST_SimplifyPreserveTopology" pat (bool_decide (is_Some tolerance))
   + Py.count_sub pat geom)%nat.
Proof.
intros Hp. unfold simplify_step, hits. destruct tolerance as [t |]; [| reflexivity].
pose proof (format_f_free pat 2 t Hp) as Hf.
rewrite bool_decide_eq_true_2 by eauto.
each_word Hp;
  count_pieces [Lit "ST_SimplifyPreserveTopology("; Hole geom; Lit ", ";
                Hole (Py.format_f 2 t); Lit ")"];
  rewrite Hf; eval_counts; cbn; lia.
Qed.

Lemma transform_step_hits pat is_geo geom :
pat ∈ query_words ->
Py.count_sub pat (transform_step is_geo geom)
= (hits "ST_Transform" pat is_geo + Py.count_sub pat geom)%nat.
Proof.
intros Hp. unfold transform_step, hits. destruct is_geo; [| reflexivity].
each_word Hp;
  count_pieces [Lit "ST_Transform("; Hole geom; Lit ", 4326)"];
  eval_counts; cbn; lia.
Qed.

Lemma scale_step_hits pat scale bounds geom :
pat ∈ query_words ->
Py.count_sub pat (scale_step scale bounds geom)
= (hits "ST_TransScale" pat (bool_decide (is_Some (truthy scale)))
   + Py.count_sub pat geom)%nat.
Proof.
intros Hp. unfold scale_step, hits. destruct (truthy scale) as [s |].
2: { rewrite bool_decide_eq_false_2 by (intros [x Hx]; discriminate Hx). reflexivity. }
rewrite bool_decide_eq_true_2 by eauto.
cbn [scale_operands].
pose proof (fun x => format_f_free pat 2 x Hp) as Hf.
each_word Hp;
  count_pieces
    [Lit "ST_TransScale("; Hole geom; Lit ", ";
     Hole (Py.format_f 2 (- xmin bounds)); Lit ", ";
     Hole (Py.format_f 2 (- ymin bounds)); Lit ", (";
     Hole (Py.format_f 2 s); Lit " / (";
     Hole (Py.format_f 2 (xmax bounds)); Lit " - ";
     Hole (Py.format_f 2 (xmin bounds)); Lit ")), (";
     Hole (Py.format_f 2 s); Lit " / (";
     Hole (Py.format_f 2 (ymax bounds)); Lit " - ";
     Hole (Py.format_f 2 (ymin bounds)); Lit ")))"];
  rewrite !Hf; eval_counts; cbn; lia.
Qed.

Lemma geometry_expression_hits pat srid bounds padding tolerance is_geo is_clipped scale :
pat ∈ query_words ->
Py.count_sub pat
  (geometry_expression (padded_bbox srid bounds padding) bounds tolerance
     is_geo is_clipped scale)
= (hits "ST_TransScale" pat (bool_decide (is_Some (truthy scale)))
   + hits "ST_Transform" pat is_geo
   + hits "ST_SimplifyPreserveTopology" pat (bool_decide (is_Some tolerance))
   + hits "ST_Intersection" pat is_clipped)%nat.
Proof.
intros Hp. unfold geometry_expression.
rewrite scale_step_hits, transform_step_hits, simplify_step_hits, clip_step_hits
  by (assumption || (apply padded_bbox_free; assumption)).
assert (Py.count_sub pat "q.__geometry__" = O) as -> by (each_word Hp; reflexivity).
lia.
Qed.

Lemma query_template_words pat columns geom subquery bbox :
pat ∈ query_words -> Py.count_sub pat bbox = O ->
Py.count_sub pat (query_template columns geom subquery bbox)
= (Py.count_sub pat columns + Py.count_sub pat geom + Py.count_sub pat subquery)%nat.
Proof.
intros Hp Hb. unfold query_template, where_clause.
each_word Hp;
  count_pieces
    [Lit "SELECT "; Hole columns;
     Lit ("," ++ Py.nl ++ Py.spaces 21 ++ "ST_AsBinary("); Hole geom;
     Lit (") AS __geometry__" ++ Py.nl ++ Py.spaces 14 ++ "FROM (" ++ Py.nl
            ++ Py.spaces 16);
     Hole subquery;
     Lit (Py.nl ++ Py.spaces 16 ++ ") AS q" ++ Py.nl ++ Py.spaces 14
            ++ "WHERE ST_IsValid(q.__geometry__)" ++ Py.nl ++ Py.spaces 16
            ++ "AND q.__geometry__ && ");
     Hole bbox;
     Lit (Py.nl ++ Py.spaces 16 ++ "AND ST_Intersects(q.__geometry__, ");
     Hole bbox; Lit ")"];
  rewrite Hb; eval_counts; lia.
Qed.

Lemma join_words pat (l : list string) :
pat ∈ query_words ->
Py.count_sub pat (Py.join ", " l) = list_sum (map (Py.count_sub pat) l).
Proof.
intros Hp. induction l as [| x l IH]; [reflexivity |].
destruct l as [| y l]; [cbn; lia |].
change (Py.join ", " (x :: y :: l)) with (x ++ ", " ++ Py.join ", " (y :: l)).
change (list_sum (map (Py.count_sub pat) (x :: y :: l)))
  with (Py.count_sub pat x + list_sum (map (Py.count_sub pat) (y :: l)))%nat.
rewrite <- IH.
each_word Hp;
  count_pieces [Hole x; Lit ", "; Hole (Py.join ", " (y :: l))];
  eval_counts; lia.
Qed.

Lemma hits_self word on : hits word word on = (if on then 1 else 0)%nat.
Proof. unfold hits. rewrite String.eqb_refl, andb_true_r. reflexivity. Qed.

Lemma hits_other word pat on : word <> pat -> hits word pat on = O.
Proof.
intros Hne. unfold hits. destruct (String.eqb_spec word pat); [contradiction |].
rewrite andb_false_r. reflexivity.
Qed.

Lemma list_sum_zero (f : string -> nat) (l : list string) :
Forall (fun s => f s = O) l -> list_sum (map f l) = O.
Proof.
induction 1 as [| x l Hx _ IH]; [reflexivity |].
change (list_sum (map f (x :: l))) with (f x + list_sum (map f l))%nat.
rewrite Hx, IH. reflexivity.
Qed.

(** The digest function stands in the column list exactly when the
  identifier is synthesized; the other words never do. *)
Lemma select_columns_words pat (cs : gset string) columns :
pat ∈ query_words ->
(forall c, c ∈ cs -> Py.count_sub pat c = O) ->
select_columns (Some cs) = Py.Ok columns ->
Py.count_sub pat columns = hits "MD5" pat (negb (has_id cs)).
Proof.
intros Hp Hcs. unfold select_columns, has_id.
destruct (bool_decide ("__geometry__" ∈ cs)); [| intros [=]].
intros [= <-]. rewrite join_words by exact Hp.
assert (list_sum (map (Py.count_sub pat)
          (map (fun c => "q." ++ dquote ++ c ++ dquote)
               (filter (fun c => c <> "__geometry__") (elements cs)))) = O) as Hquoted.
{ apply list_sum_zero, List.Forall_forall. intros s Hs.
  apply (proj2 (list_elem_of_In _ _)) in Hs.
  apply list_elem_of_fmap in Hs as (c & -> & Hc).
  apply list_elem_of_filter in Hc as [_ Hc]. apply elem_of_elements in Hc.
  pose proof (Hcs c Hc) as Hcount. unfold dquote.
  each_word Hp;
    count_pieces [Lit ("q." ++ String (ascii_of_nat 34) ""); Hole c;
                  Lit (String (ascii_of_nat 34) "")];
    rewrite Hcount; reflexivity. }
destruct (bool_decide ("__id__" ∈ cs)).
- rewrite Hquoted. unfold hits. reflexivity.
- rewrite map_app, list_sum_app, Hquoted.
  each_word Hp; reflexivity.
Qed.

(** X9.  Each of the four wrappers of the geometry expression stands in it
  once when it is switched on and not at all when it is off:
  [ST_Intersection] by the clip flag, [ST_SimplifyPreserveTopology] by a
  tolerance that is not [None], [ST_Transform] by [is_geo] and
  [ST_TransScale] by a scale that is neither [None] nor zero.  The rest
  of the synthesized query adds no occurrence: with column names and a
  substituted sub-query free of these names, the whole query counts the
  same. *)
Theorem wrappers_when_enabled srid subquery (cs : gset string) bounds tolerance
  is_geo is_clipped padding scale :
let bbox := padded_bbox srid bounds padding in
let geom := geometry_expression bbox bounds tolerance is_geo is_clipped scale in
let wrappers : list (string * bool) :=
  [("ST_Intersection", is_clipped);
   ("ST_SimplifyPreserveTopology", bool_decide (is_Some tolerance));
   ("ST_Transform", is_geo);
   ("ST_TransScale", bool_decide (is_Some (truthy scale)))] in
forall (word : string) (on : bool), (word, on) ∈ wrappers ->
  Py.count_sub word geom = (if on then 1 else 0)%nat
  /\ (forall q,
        build_query srid subquery (Some cs) bounds tolerance is_geo is_clipped padding scale
        = Py.Ok q ->
        (forall c, c ∈ cs -> Py.count_sub word c = O) ->
        Py.count_sub word (Py.replace subquery "!bbox!" bbox) = O ->
        Py.count_sub word q = (if on then 1 else 0)%nat).
Proof.
intros bbox geom wrappers word on Hin.
assert (word ∈ query_words /\ word <> "MD5"
        /\ Py.count_sub word geom = (if on then 1 else 0)%nat) as (Hw & Hmd5 & Hgeom).
{ subst wrappers geom bbox. unfold query_words.
  rewrite !elem_of_cons, elem_of_nil in Hin.
  destruct Hin as [E | [E | [E | [E | []]]]]; injection E as -> ->;
    (split; [in_list |]); (split; [discriminate |]);
    rewrite geometry_expression_hits by (unfold query_words; in_list);
    rewrite hits_self, !hits_other by discriminate; lia. }
split; [exact Hgeom |].
intros q E Hcs Hsub. unfold build_query in E.
apply obind_Ok in E as (columns & Hcols & E). injection E as <-.
fold bbox. fold geom.
rewrite query_template_words by (exact Hw || (apply padded_bbox_free; exact Hw)).
rewrite (select_columns_words word cs columns Hw Hcs Hcols), Hsub, Hgeom.
rewrite hits_other by congruence. lia.
Qed.

Lemma wrappers_when_enabled_witness :
Py.count_sub "ST_Intersection" Demo.roads_variant = 1%nat
/\ Py.count_sub "ST_TransScale" Demo.roads_variant = 1%nat
/\ Py.count_sub "ST_Transform" Demo.roads_variant = 0%nat.
Proof.
pose proof (wrappers_when_enabled 900913 Demo.roads_query (dom Demo.road) Demo.quadrant
              (Some (3 # 2)) false true 5 (Some 4096%Q)) as Hw.
cbv zeta in Hw.
assert (build_query 900913 Demo.roads_query (Some (dom Demo.road)) Demo.quadrant
          (Some (3 # 2)) false true 5 (Some 4096%Q) = Py.Ok Demo.roads_variant) as Hq
  by (vm_compute; reflexivity).
assert (forall word, word ∈ ["ST_Intersection"; "ST_TransScale"; "ST_Transform"] ->
          (forall c, c ∈ dom Demo.road -> Py.count_sub word c = O)
          /\ Py.count_sub word
               (Py.replace Demo.roads_query "!bbox!" (padded_bbox 900913 Demo.quadrant 5))
             = O) as Hfree.
{ intros word Hword. rewrite !elem_of_cons, elem_of_nil in Hword.
  split.
  - intros c Hc. apply elem_of_dom in Hc as [v Hv].
    unfold Demo.road in Hv.
    apply lookup_insert_Some in Hv as [[<- _] | [_ Hv]];
      [| apply lookup_insert_Some in Hv as [[<- _] | [_ Hv]];
         [| rewrite lookup_empty in Hv; discriminate Hv]];
      destruct Hword as [-> | [-> | [-> | []]]]; reflexivity.
  - destruct Hword as [-> | [-> | [-> | []]]]; vm_compute; reflexivity. }
split; [| split].
- refine (proj2 (Hw "ST_Intersection" true _) _ Hq _ _); [in_list | |];
    apply Hfree; in_list.
- refine (proj2 (Hw "ST_TransScale" true _) _ Hq _ _);
    [do 3 apply list_elem_of_further; apply list_elem_of_here | |];
    apply Hfree; in_list.
- refine (proj2 (Hw "ST_Transform" false _) _ Hq _ _);
    [do 2 apply list_elem_of_further; apply list_elem_of_here | |];
    apply Hfree; in_list.
Defined.

Lemma bbox_ends_foreign pat body tail :
last_foreign pat ")" = true ->
last_foreign pat ("ST_SetSRID(" ++ body ++ ", " ++ tail ++ ")") = true.
Proof.
intros Hp.
apply (last_foreign_app pat "ST_SetSRID("), last_foreign_app, (last_foreign_app pat ", "),
  last_foreign_app.
exact Hp.
Qed.

(** X10.  No [!bbox!] token survives the substitution: neither in the
  sub-query [build_query] embeds, nor in the statement a probe of
  [query_columns] executes, nor, when no column name holds the token, in
  the whole synthesized query.  A sub-query without the token is used as
  it is. *)
Theorem bbox_token_replaced srid subquery bounds padding :
Py.count_sub "!bbox!" (Py.replace subquery "!bbox!" (padded_bbox srid bounds padding)) = O
/\ Py.count_sub "!bbox!" (probe_query srid subquery bounds) = O
/\ (Py.count_sub "!bbox!" subquery = O ->
      Py.replace subquery "!bbox!" (padded_bbox srid bounds padding) = subquery
      /\ probe_query srid subquery bounds = subquery ++ Py.nl ++ " LIMIT 1")
/\ (forall (cs : gset string) tolerance is_geo is_clipped scale q,
      build_query srid subquery (Some cs) bounds tolerance is_geo is_clipped padding scale
      = Py.Ok q ->
      (forall c, c ∈ cs -> Py.count_sub "!bbox!" c = O) ->
      Py.count_sub "!bbox!" q = O).
Proof.
assert ("!bbox!" ∈ query_words) as Hw by (unfold query_words; in_list).
assert (Py.count_sub "!bbox!"
          (Py.replace subquery "!bbox!" (padded_bbox srid bounds padding)) = O) as Hsub.
{ apply replace_clean;
    [discriminate | reflexivity | apply bbox_ends_foreign; reflexivity
     | apply padded_bbox_free; exact Hw]. }
split; [exact Hsub |]. split; [| split].
- unfold probe_query.
  count_pieces [Hole (Py.replace subquery "!bbox!" (probe_bbox srid bounds));
                Lit (Py.nl ++ " LIMIT 1")].
  rewrite replace_clean;
    [reflexivity | discriminate | reflexivity | apply bbox_ends_foreign; reflexivity
     | apply probe_bbox_free; exact Hw].
- intros Hnone. unfold probe_query. rewrite !replace_absent by exact Hnone.
  split; reflexivity.
- intros cs tolerance is_geo is_clipped scale q E Hcs.
  unfold build_query in E. apply obind_Ok in E as (columns & Hcols & E).
  injection E as <-.
  rewrite query_template_words by (exact Hw || (apply padded_bbox_free; exact Hw)).
  rewrite (select_columns_words "!bbox!" cs columns Hw Hcs Hcols), Hsub.
  rewrite geometry_expression_hits by exact Hw.
  rewrite !hits_other by discriminate. reflexivity.
Qed.

Lemma bbox_token_replaced_witness :
Py.replace "SELECT way AS __geometry__ FROM rivers" "!bbox!"
  (padded_bbox 900913 Sample.box 0)
= "SELECT way AS __geometry__ FROM rivers"
/\ Py.count_sub "!bbox!" Demo.roads_variant = O.
Proof.
split.
- exact (proj1 (proj1 (proj2 (proj2
           (bbox_token_replaced 900913 "SELECT way AS __geometry__ FROM rivers"
              Sample.box 0))) eq_refl)).
- refine (proj2 (proj2 (proj2 (bbox_token_replaced 900913 Demo.roads_query Demo.quadrant 5)))
            (dom Demo.road) (Some (3 # 2)) false true (Some 4096%Q) Demo.roads_variant _ _).
  + vm_compute. reflexivity.
  + intros c Hc. apply elem_of_dom in Hc as [v Hv].
    unfold Demo.road in Hv.
    apply lookup_insert_Some in Hv as [[<- _] | [_ Hv]];
      [| apply lookup_insert_Some in Hv as [[<- _] | [_ Hv]];
         [| rewrite lookup_empty in Hv; discriminate Hv]];
      reflexivity.
Defined.

(** *** The projected columns *)

Lemma append_inv_tail (a b : string) (c : ascii) :
a ++ String c "" = b ++ String c "" -> a = b.
Proof.
intros E. apply (f_equal Py.rev) in E. rewrite !rev_snoc in E.
injection E as E. rewrite <- (rev_involutive a), <- (rev_involutive b), E. reflexivity.
Qed.

Lemma quoted_inj (c c' : string) :
"q." ++ dquote ++ c ++ dquote = "q." ++ dquote ++ c' ++ dquote -> c = c'.
Proof.
unfold dquote. intros E. injection E as E. exact (append_inv_tail _ _ _ E).
Qed.

(** X11.  The column list of the synthesized query: every column of the
  sub-query other than [__geometry__] is projected under its quoted name
  and nothing else is, except the identifier, which is computed as a
  digest of the geometry exactly when the sub-query has no [__id__]
  column. *)
Theorem select_columns_projection (cs : gset string) (columns : string) :
select_columns (Some cs) = Py.Ok columns ->
exists l,
  columns = Py.join ", " l
  /\ (forall c, "q." ++ dquote ++ c ++ dquote ∈ l <-> c ∈ cs /\ c <> "__geometry__")
  /\ ("Substr(MD5(ST_AsBinary(q.__geometry__)), 1, 10) AS __id__" ∈ l <-> "__id__" ∉ cs)
  /\ (forall s, s ∈ l ->
        s = "Substr(MD5(ST_AsBinary(q.__geometry__)), 1, 10) AS __id__"
        \/ exists c, s = "q." ++ dquote ++ c ++ dquote)
  /\ ((forall c, c ∈ cs -> Py.count_sub "MD5" c = O) ->
      Py.count_sub "MD5" columns = (if has_id cs then 0 else 1)%nat).
Proof.
intros E.
assert ((forall c, c ∈ cs -> Py.count_sub "MD5" c = O) ->
        Py.count_sub "MD5" columns = (if has_id cs then 0 else 1)%nat) as Hmd5.
{ intros Hcs.
  rewrite (select_columns_words "MD5" cs columns) by
    (assumption || (unfold query_words; in_list)).
  rewrite hits_self. destruct (has_id cs); reflexivity. }
unfold select_columns in E.
destruct (bool_decide ("__geometry__" ∈ cs)); [| discriminate E].
injection E as E.
set (quoted := map (fun c => "q." ++ dquote ++ c ++ dquote)
                   (filter (fun c => c <> "__geometry__") (elements cs))) in *.
assert (forall c, "q." ++ dquote ++ c ++ dquote ∈ quoted <-> c ∈ cs /\ c <> "__geometry__")
  as Hquoted.
{ intros c. subst quoted. rewrite list_elem_of_fmap. split.
  - intros (c' & Hq & Hc'). apply quoted_inj in Hq as <-.
    apply list_elem_of_filter in Hc' as [Hne Hc']. apply elem_of_elements in Hc'.
    split; assumption.
  - intros [Hc Hne]. exists c. split; [reflexivity |].
    apply list_elem_of_filter. split; [exact Hne | apply elem_of_elements; exact Hc]. }
assert ("Substr(MD5(ST_AsBinary(q.__geometry__)), 1, 10) AS __id__" ∉ quoted) as Hno.
{ subst quoted. rewrite list_elem_of_fmap. intros (c & Hq & _). discriminate Hq. }
assert (forall s, s ∈ quoted -> exists c, s = "q." ++ dquote ++ c ++ dquote) as Hshape.
{ intros s Hs. subst quoted. apply list_elem_of_fmap in Hs as (c & -> & _). eauto. }
destruct (bool_decide ("__id__" ∈ cs)) eqn:Hid.
- apply bool_decide_eq_true in Hid.
  exists quoted. split; [symmetry; exact E |]. split; [exact Hquoted |].
  split; [split; [intros Hin; contradiction | intros Hn; contradiction] |].
  split; [intros s Hs; right; apply Hshape; exact Hs | exact Hmd5].
- apply bool_decide_eq_false in Hid.
  exists (quoted ++ ["Substr(MD5(ST_AsBinary(q.__geometry__)), 1, 10) AS __id__"])%list.
  split; [symmetry; exact E |]. split; [| split; [| split; [| exact Hmd5]]].
  + intros c. rewrite elem_of_app, Hquoted, list_elem_of_singleton.
    split; [intros [Hc | Hc]; [exact Hc | discriminate Hc] | intros Hc; left; exact Hc].
  + split; [intros _; exact Hid |].
    intros _. apply elem_of_app. right. apply list_elem_of_here.
  + intros s Hs. apply elem_of_app in Hs as [Hs | Hs];
      [right; apply Hshape; exact Hs |].
    apply list_elem_of_singleton in Hs. left. exact Hs.
Qed.

Lemma select_columns_projection_witness :
exists l,
  Sample.columns = Py.join ", " l
  /\ "Substr(MD5(ST_AsBinary(q.__geometry__)), 1, 10) AS __id__" ∈ l
  /\ "q." ++ dquote ++ "name" ++ dquote ∈ l.
Proof.
destruct (select_columns_projection (dom Demo.road) Sample.columns)
  as (l & Hl & Hq & Hid & _).
- vm_compute. reflexivity.
- exists l. split; [exact Hl |]. split.
  + apply Hid. rewrite elem_of_dom. intros [v Hv]. vm_compute in Hv. discriminate Hv.
  + apply Hq. split; [| discriminate].
    apply elem_of_dom. eexists. vm_compute. reflexivity.
Defined.

(** ** The probe loop of [query_columns] *)

Lemma expand_centre (b : Bounds) :
(xmin (expand b) + xmax (expand b) == xmin b + xmax b)%Q
/\ (ymin (expand b) + ymax (expand b) == ymin b + ymax b)%Q.
Proof. unfold expand. cbn [xmin xmax ymin ymax]. split; ring. Qed.

Lemma height_expand (b : Bounds) : (height (expand b) == 8 * height b)%Q.
Proof. unfold height, expand. cbn [ymax ymin]. ring. Qed.

Lemma expand_contains (b : Bounds) :
(0 <= width b)%Q -> (0 <= height b)%Q ->
(xmin (expand b) <= xmin b /\ xmax b <= xmax (expand b)
 /\ ymin (expand b) <= ymin b /\ ymax b <= ymax (expand b))%Q.
Proof.
unfold width, height, expand. cbn [xmin xmax ymin ymax]. intros Hw Hh.
repeat split; lra.
Qed.

(** X12.  The boxes the probe loop visits are concentric and nested: each
  expansion keeps the centre of the box and multiplies its width and its
  height by 8, so the box after [k] failed probes has the centre of the
  tile, [8^k] times its extents, and contains it. *)
Theorem nth_box_concentric (k : nat) : forall b : Bounds,
(xmin (nth_box k b) + xmax (nth_box k b) == xmin b + xmax b)%Q
/\ (ymin (nth_box k b) + ymax (nth_box k b) == ymin b + ymax b)%Q
/\ (width (nth_box k b) == inject_Z (8 ^ Z.of_nat k) * width b)%Q
/\ (height (nth_box k b) == inject_Z (8 ^ Z.of_nat k) * height b)%Q
/\ ((0 <= width b)%Q -> (0 <= height b)%Q ->
      (xmin (nth_box k b) <= xmin b /\ xmax b <= xmax (nth_box k b)
       /\ ymin (nth_box k b) <= ymin b /\ ymax b <= ymax (nth_box k b))%Q).
Proof.
induction k as [| k IH]; intros b.
- unfold nth_box. cbn [Nat.iter nat_rect].
  change (inject_Z (8 ^ Z.of_nat 0)) with 1%Q.
  split; [reflexivity |]. split; [reflexivity |].
  split; [ring |]. split; [ring |].
  intros _ _. repeat split; apply Qle_refl.
- rewrite nth_box_S.
  destruct (IH (expand b)) as (Hx & Hy & Hw & Hh & Hin).
  destruct (expand_centre b) as [Hcx Hcy].
  pose proof (width_expand b) as Hwe. pose proof (height_expand b) as Hhe.
  replace (Z.of_nat (S k)) with (Z.succ (Z.of_nat k)) by lia.
  rewrite Z.pow_succ_r by lia. rewrite inject_Z_mult.
  change (inject_Z 8) with 8%Q.
  revert Hw Hh. generalize (inject_Z (8 ^ Z.of_nat k)) as p. intros p Hw Hh.
  split; [rewrite Hx; exact Hcx |]. split; [rewrite Hy; exact Hcy |].
  split; [rewrite Hw, Hwe; ring |]. split; [rewrite Hh, Hhe; ring |].
  intros H0w H0h.
  destruct (expand_contains b H0w H0h) as (E1 & E2 & E3 & E4).
  destruct Hin as (I1 & I2 & I3 & I4); [lra | lra |].
  repeat split; lra.
Qed.

Lemma nth_box_concentric_witness :
(xmin (nth_box 2 Sample.box) <= xmin Sample.box
 /\ xmax Sample.box <= xmax (nth_box 2 Sample.box)
 /\ ymin (nth_box 2 Sample.box) <= ymin Sample.box
 /\ ymax Sample.box <= ymax (nth_box 2 Sample.box))%Q.
Proof.
apply (nth_box_concentric 2 Sample.box); vm_compute; discriminate.
Defined.

Lemma probes_snoc srid subquery b n :
probes srid subquery b (S n)
= (probes srid subquery b n ++ [probe_query srid subquery (nth_box n b)])%list.
Proof. unfold probes. rewrite seq_S, map_app. reflexivity. Qed.

(** After [n] probes without a row the loop is where it would have started
  on the [n]-th box. *)
Lemma loop_skip (db : Cursor) srid subquery (n : nat) : forall b fuel trace,
(forall k, (k < n)%nat ->
   below_cutoff (nth_box k b) = true
   /\ db (probe_query srid subquery (nth_box k b)) = inr []) ->
query_columns_loop (n + fuel) db srid subquery b trace
= query_columns_loop fuel db srid subquery (nth_box n b)
    (trace ++ probes srid subquery b n)%list.
Proof.
induction n as [| n IH]; intros b fuel trace Hk.
- unfold probes, nth_box. cbn [Nat.iter nat_rect seq map Nat.add].
  rewrite app_nil_r. reflexivity.
- destruct (Hk O ltac:(lia)) as [Hb Hdb].
  unfold nth_box in Hb, Hdb. cbn [Nat.iter nat_rect] in Hb, Hdb.
  change (S n + fuel)%nat with (S (n + fuel)).
  rewrite loop_no_row by assumption.
  rewrite IH.
  + rewrite nth_box_S, probes_S, <- app_assoc. reflexivity.
  + intros k Hlt. rewrite <- nth_box_S. apply Hk. lia.
Qed.

Section ProbeLoop.
Context `{Database}.

(** X13.  The loop tests the width of the box only.  On a box of width
    zero the test never fails, so that with a sub-query that returns no
    row the loop does not end: whatever the fuel, it is used up, one
    probe for each unit. *)
Theorem query_columns_degenerate_box dbinfo db srid subquery (b : Bounds) :
  connect dbinfo = inr db ->
  (width b == 0)%Q ->
  (forall k, db (probe_query srid subquery (nth_box k b)) = inr []) ->
  forall fuel trace,
    query_columns fuel dbinfo srid subquery b trace
    = (Py.OutOfFuel, (trace ++ probes srid subquery b fuel)%list).
Proof.
  intros Hc Hw Hdb fuel trace.
  assert (forall k, below_cutoff (nth_box k b) = true) as Hbelow.
  { intros k. apply below_cutoff_nth_box. rewrite Hw. unfold cutoff.
    generalize (inject_Z (8 ^ Z.of_nat k)) as p. intros p.
    assert (p * 0 * (p * 0) == 0)%Q as -> by ring. reflexivity. }
  unfold query_columns, Connection. rewrite Hc.
  replace fuel with (fuel + 0)%nat at 1 by lia.
  rewrite loop_skip by (intros k _; split; [apply Hbelow | apply Hdb]).
  apply loop_out_of_fuel, Hbelow.
Qed.

(** X14.  Errors of the database end the introspection at once: a
    refused connection before any probe, a failing probe after the probes
    that found no row, and no further box is tried. *)
Theorem query_columns_database_error dbinfo srid subquery (b : Bounds) fuel trace :
  (forall e, connect dbinfo = inl e ->
     query_columns fuel dbinfo srid subquery b trace = (Py.Raise e, trace))
  /\ (forall db n e,
        connect dbinfo = inr db ->
        (forall k, (k < n)%nat ->
           below_cutoff (nth_box k b) = true
           /\ db (probe_query srid subquery (nth_box k b)) = inr []) ->
        below_cutoff (nth_box n b) = true ->
        db (probe_query srid subquery (nth_box n b)) = inl e ->
        (n < fuel)%nat ->
        query_columns fuel dbinfo srid subquery b trace
        = (Py.Raise e, (trace ++ probes srid subquery b (S n))%list)).
Proof.
  unfold query_columns, Connection. split.
  - intros e ->. reflexivity.
  - intros db n e -> Hk Hn He Hfuel.
    replace fuel with (n + S (fuel - S n))%nat by lia.
    rewrite loop_skip by exact Hk.
    rewrite (loop_error db srid subquery _ _ _ e) by assumption.
    rewrite probes_snoc, <- app_assoc. reflexivity.
Qed.
End ProbeLoop.

Lemma query_columns_degenerate_box_witness :
@query_columns Sample.silent 3 ∅ 900913 Demo.nowhere_query (mkBounds 5 0 5 10) []
= (Py.OutOfFuel, ([] ++ probes 900913 Demo.nowhere_query (mkBounds 5 0 5 10) 3)%list).
Proof.
apply (@query_columns_degenerate_box Sample.silent ∅ (fun _ => inr [])).
- reflexivity.
- reflexivity.
- intros k. reflexivity.
Defined.

Lemma query_columns_database_error_witness :
@query_columns Sample.refusing 1 ∅ 900913 Demo.roads_query Sample.box []
= (Py.Raise (Py.DatabaseError "could not connect to server"), [])
/\ @query_columns Sample.failing 1 ∅ 900913 Demo.roads_query Sample.box []
   = (Py.Raise (Py.DatabaseError "relation does not exist"),
      ([] ++ probes 900913 Demo.roads_query Sample.box 1)%list).
Proof.
split.
- exact (proj1 (@query_columns_database_error Sample.refusing ∅ 900913 Demo.roads_query
                  Sample.box 1 []) _ eq_refl).
- refine (proj2 (@query_columns_database_error Sample.failing ∅ 900913 Demo.roads_query
                   Sample.box 1 []) _ O _ eq_refl _ _ _ _).
  + intros k Hk. lia.
  + vm_compute. reflexivity.
  + reflexivity.
  + lia.
Defined.

(** ** [Provider.renderTile] and its column cache *)

Lemma getitem_nil {A} (i : Z) : Py.getitem (@nil A) i = Py.Raise Py.IndexError.
Proof.
unfold Py.getitem. cbn [length]. change (Z.of_nat 0) with 0%Z.
destruct ((0 <=? (if (i <? 0)%Z then (i + 0)%Z else i))%Z
          && ((if (i <? 0)%Z then (i + 0)%Z else i) <? 0)%Z) eqn:Hr; [| reflexivity].
apply andb_true_iff in Hr as [Ha Hb].
apply Z.leb_le in Ha. apply Z.ltb_lt in Hb. lia.
Qed.

Section Render.
Context `{Database} `{Codecs}.

Lemma ensure_columns_hit fuel query bounds self trace c :
  Provider.columns self !! query = Some c ->
  Provider.ensure_columns fuel query bounds (self, trace) = (Py.Ok tt, (self, trace)).
Proof.
  intros Hc. unfold Provider.ensure_columns, Py.bind, Py.get. cbn [fst].
  rewrite Hc. reflexivity.
Qed.

Lemma ensure_columns_miss fuel query bounds self trace o trace' :
  Provider.columns self !! query = None ->
  query_columns fuel (Provider.dbinfo self) (Provider.srid self) query bounds trace
  = (o, trace') ->
  Provider.ensure_columns fuel query bounds (self, trace)
  = match o with
    | Py.Ok found =>
        (Py.Ok tt,
         (Provider.set_columns self (<[query := found]> (Provider.columns self)), trace'))
    | Py.Raise e => (Py.Raise e, (self, trace'))
    | Py.OutOfFuel => (Py.OutOfFuel, (self, trace'))
    end.
Proof.
  intros Hc Hq. unfold Provider.ensure_columns.
  unfold Py.bind at 1. unfold Py.get at 1. cbn [fst]. rewrite Hc.
  unfold Py.bind at 1. unfold Py.on_snd. cbn [fst snd]. rewrite Hq.
  destruct o; reflexivity.
Qed.

(** [renderTile] from the outcome of consulting the cache. *)
Lemma renderTile_run fuel coord self trace query o st1 :
  Provider.resolve_query (Provider.queries self) (Coordinate.zoom coord)
  = Py.Ok (Some query) ->
  query <> "" ->
  Provider.ensure_columns fuel query (Provider.tile_bounds (Provider.layer self) coord)
    (self, trace) = (o, st1) ->
  Provider.renderTile fuel coord (self, trace)
  = (match o with
     | Py.Ok _ => answer_tile self coord query (Provider.columns st1.1 !! query)
     | Py.Raise e => Py.Raise e
     | Py.OutOfFuel => Py.OutOfFuel
     end, st1).
Proof.
  intros Hq Hne Hcols. destruct o as [[] | e |].
  - rewrite (renderTile_after_columns _ _ _ _ _ _ Hq Hne Hcols).
    unfold answer_tile, Py.bind, Py.lift, Py.ret.
    destruct (Provider.resolve_tolerance _ _ _) as [tol | |]; cbn [Py.obind];
      try reflexivity.
    destruct (Provider.columns st1.1 !! query) as [c |]; cbn [Py.obind];
      try reflexivity.
    destruct (Response.init _ _ _ _ _ _ _ _ _ _); reflexivity.
  - unfold Provider.renderTile.
    unfold Py.bind at 1. unfold Py.get at 1. cbn [fst].
    unfold Py.bind at 1. unfold Py.lift at 1. rewrite Hq.
    rewrite (nonempty_Some query Hne).
    unfold Py.bind at 1. rewrite Hcols. reflexivity.
  - unfold Provider.renderTile.
    unfold Py.bind at 1. unfold Py.get at 1. cbn [fst].
    unfold Py.bind at 1. unfold Py.lift at 1. rewrite Hq.
    rewrite (nonempty_Some query Hne).
    unfold Py.bind at 1. rewrite Hcols. reflexivity.
Qed.

Lemma renderTile_hit fuel coord self trace query c :
  Provider.resolve_query (Provider.queries self) (Coordinate.zoom coord)
  = Py.Ok (Some query) ->
  query <> "" ->
  Provider.columns self !! query = Some c ->
  Provider.renderTile fuel coord (self, trace)
  = (answer_tile self coord query (Some c), (self, trace)).
Proof.
  intros Hq Hne Hc.
  rewrite (renderTile_run fuel coord self trace query (Py.Ok tt) (self, trace) Hq Hne
             (ensure_columns_hit _ _ _ _ _ _ Hc)).
  cbn [fst]. rewrite Hc. reflexivity.
Qed.

Lemma renderTile_empty fuel coord self trace q :
  Provider.resolve_query (Provider.queries self) (Coordinate.zoom coord) = Py.Ok q ->
  Provider.nonempty q = None ->
  Provider.renderTile fuel coord (self, trace)
  = (Py.Ok (TileEmpty (EmptyResponse.mk (Provider.tile_bounds (Provider.layer self) coord))),
     (self, trace)).
Proof.
  intros Hq Hn. unfold Provider.renderTile.
  unfold Py.bind at 1. unfold Py.get at 1. cbn [fst].
  unfold Py.bind at 1. unfold Py.lift at 1. rewrite Hq, Hn. reflexivity.
Qed.

Lemma renderTile_unresolved fuel coord self trace e :
  Provider.resolve_query (Provider.queries self) (Coordinate.zoom coord) = Py.Raise e ->
  Provider.renderTile fuel coord (self, trace) = (Py.Raise e, (self, trace)).
Proof.
  intros Hq. unfold Provider.renderTile.
  unfold Py.bind at 1. unfold Py.get at 1. cbn [fst].
  unfold Py.bind at 1. unfold Py.lift at 1. rewrite Hq. reflexivity.
Qed.

(** X15.  Requests that need no database.  A provider configured with an
    empty list of queries fails every request with [IndexError], the
    fallback [queries[-1]] being out of range as well; a request whose
    query resolves to null or to the empty text is answered by an
    [EmptyResponse] for the bounds of the tile, at every zoom.  Neither
    connects to the database nor changes the provider. *)
Theorem renderTile_without_query fuel coord self trace :
  (Provider.queries self = [] ->
     Provider.renderTile fuel coord (self, trace) = (Py.Raise Py.IndexError, (self, trace)))
  /\ (renders_empty self (Coordinate.zoom coord) = true ->
        Provider.renderTile fuel coord (self, trace)
        = (Py.Ok (TileEmpty (EmptyResponse.mk
                               (Provider.tile_bounds (Provider.layer self) coord))),
           (self, trace))).
Proof.
  split.
  - intros Hq. apply renderTile_unresolved. rewrite Hq.
    unfold Provider.resolve_query. rewrite !getitem_nil. reflexivity.
  - unfold renders_empty. intros He.
    destruct (Provider.resolve_query (Provider.queries self) (Coordinate.zoom coord))
      as [q | |] eqn:Hq; try discriminate He.
    destruct (Provider.nonempty q) eqn:Hn; [discriminate He |].
    apply (renderTile_empty _ _ _ _ q); assumption.
Qed.

Lemma ensure_columns_Ok fuel query bounds self trace st1 :
  Provider.ensure_columns fuel query bounds (self, trace) = (Py.Ok tt, st1) ->
  exists c,
    Provider.columns st1.1 !! query = Some c
    /\ Provider.queries st1.1 = Provider.queries self
    /\ Provider.layer st1.1 = Provider.layer self
    /\ Provider.dbinfo st1.1 = Provider.dbinfo self
    /\ Provider.srid st1.1 = Provider.srid self
    /\ Provider.clip st1.1 = Provider.clip self
    /\ Provider.simplify st1.1 = Provider.simplify self
    /\ Provider.simplify_until st1.1 = Provider.simplify_until self.
Proof.
  destruct (Provider.columns self !! query) as [c |] eqn:Hc.
  - rewrite (ensure_columns_hit _ _ _ _ _ c Hc). intros [= <-].
    exists c. cbn [fst]. repeat split. exact Hc.
  - destruct (query_columns fuel (Provider.dbinfo self) (Provider.srid self) query bounds
                trace) as [o trace'] eqn:Hq.
    rewrite (ensure_columns_miss _ _ _ _ _ o trace' Hc Hq).
    destruct o as [found | e |]; intros [= <-].
    exists found. cbn [fst Provider.set_columns Provider.columns Provider.queries
                       Provider.layer Provider.dbinfo Provider.srid Provider.clip
                       Provider.simplify Provider.simplify_until].
    repeat split. apply lookup_insert_eq.
Qed.

Lemma answer_tile_fields self self' coord query cached :
  Provider.layer self' = Provider.layer self ->
  Provider.dbinfo self' = Provider.dbinfo self ->
  Provider.srid self' = Provider.srid self ->
  Provider.clip self' = Provider.clip self ->
  Provider.simplify self' = Provider.simplify self ->
  Provider.simplify_until self' = Provider.simplify_until self ->
  answer_tile self' coord query cached = answer_tile self coord query cached.
Proof.
  unfold answer_tile. intros -> -> -> -> -> ->. reflexivity.
Qed.

(** X16.  The columns of a query are looked up once.  After a request
    that was answered, the same request is answered again with the same
    tile without a statement being executed, whatever the fuel; and any
    request that resolves to the same query, for whatever tile, leaves
    the database and the cache alone. *)
Theorem renderTile_introspects_once fuel coord self trace t self' trace' :
  Provider.renderTile fuel coord (self, trace) = (Py.Ok t, (self', trace')) ->
  (forall fuel' trace2,
     Provider.renderTile fuel' coord (self', trace2) = (Py.Ok t, (self', trace2)))
  /\ (forall fuel' coord' trace2,
        Provider.resolve_query (Provider.queries self) (Coordinate.zoom coord')
        = Provider.resolve_query (Provider.queries self) (Coordinate.zoom coord) ->
        (Provider.renderTile fuel' coord' (self', trace2)).2 = (self', trace2)).
Proof.
  intros E.
  destruct (Provider.resolve_query (Provider.queries self) (Coordinate.zoom coord))
    as [q | e |] eqn:Hq.
  2: { rewrite (renderTile_unresolved _ _ _ _ e Hq) in E. discriminate E. }
  2: { unfold Provider.renderTile in E.
       unfold Py.bind at 1 in E. unfold Py.get at 1 in E. cbn [fst] in E.
       unfold Py.bind at 1 in E. unfold Py.lift at 1 in E. rewrite Hq in E.
       discriminate E. }
  destruct (Provider.nonempty q) as [query |] eqn:Hn.
  - assert (q = Some query /\ query <> "") as [-> Hne].
    { destruct q as [[| c s] |]; try discriminate Hn.
      injection Hn as <-. split; [reflexivity | discriminate]. }
    destruct (Provider.ensure_columns fuel query
                (Provider.tile_bounds (Provider.layer self) coord) (self, trace))
      as [o st1] eqn:Hens.
    rewrite (renderTile_run _ _ _ _ _ _ _ Hq Hne Hens) in E.
    destruct o as [[] | e |]; try discriminate E.
    injection E as Ht Hst. subst st1.
    apply ensure_columns_Ok in Hens
      as (c & Hc & Hqs & Hl & Hd & Hs & Hcl & Hsi & Hsu).
    cbn [fst] in *.
    split.
    + intros fuel' trace2.
      rewrite (renderTile_hit fuel' coord self' trace2 query c) by
        (rewrite ?Hqs; assumption).
      rewrite (answer_tile_fields self self') by assumption.
      rewrite <- Hc, Ht. reflexivity.
    + intros fuel' coord' trace2 Hsame.
      rewrite (renderTile_hit fuel' coord' self' trace2 query c) by
        (rewrite ?Hqs; assumption).
      reflexivity.
  - rewrite (renderTile_empty _ _ _ _ q Hq Hn) in E. injection E as <- <- <-.
    split.
    + intros fuel' trace2. apply (renderTile_empty _ _ _ _ q); assumption.
    + intros fuel' coord' trace2 Hsame.
      rewrite (renderTile_empty fuel' coord' self trace2 q) by assumption.
      reflexivity.
Qed.

(** X17.  An introspection that finds no row is remembered.  Where the
    tolerance of the zoom resolves (zooms 0 to 21, and every zoom from
    [simplify_until] on), a request whose introspection ends with [None]
    stores [None] for the query and fails in [build_query] with the
    [TypeError] of iterating [None]; from then on every request for this
    query fails in the same way without a statement being executed. *)
Theorem renderTile_exhausted_introspection fuel coord self trace query tol :
  Provider.resolve_query (Provider.queries self) (Coordinate.zoom coord)
  = Py.Ok (Some query) ->
  query <> "" ->
  Provider.resolve_tolerance (Provider.simplify self) (Provider.simplify_until self)
    (Coordinate.zoom coord) = Py.Ok tol ->
  (forall trace',
     Provider.columns self !! query = None ->
     query_columns fuel (Provider.dbinfo self) (Provider.srid self) query
       (Provider.tile_bounds (Provider.layer self) coord) trace = (Py.Ok None, trace') ->
     Provider.renderTile fuel coord (self, trace)
     = (Py.Raise (Py.TypeError "'NoneType' object is not iterable"),
        (Provider.set_columns self (<[query := None]> (Provider.columns self)), trace'))
     /\ Provider.renderTile fuel coord
          (Provider.set_columns self (<[query := None]> (Provider.columns self)), trace')
        = (Py.Raise (Py.TypeError "'NoneType' object is not iterable"),
           (Provider.set_columns self (<[query := None]> (Provider.columns self)), trace')))
  /\ (Provider.columns self !! query = Some None ->
        Provider.renderTile fuel coord (self, trace)
        = (Py.Raise (Py.TypeError "'NoneType' object is not iterable"), (self, trace))).
Proof.
  intros Hq Hne Htol.
  assert (forall p tr,
            Provider.queries p = Provider.queries self ->
            Provider.simplify p = Provider.simplify self ->
            Provider.simplify_until p = Provider.simplify_until self ->
            Provider.columns p !! query = Some None ->
            Provider.renderTile fuel coord (p, tr)
            = (Py.Raise (Py.TypeError "'NoneType' object is not iterable"), (p, tr)))
    as Hcached.
  { intros p tr Hqs Hsi Hsu Hc.
    rewrite (renderTile_hit fuel coord p tr query None) by (rewrite ?Hqs; assumption).
    unfold answer_tile. rewrite Hsi, Hsu, Htol. cbn [Py.obind].
    unfold Response.init. rewrite build_query_no_columns. reflexivity. }
  split.
  - intros trace' Hc Hcols. split.
    + pose proof (ensure_columns_miss fuel query _ self trace _ trace' Hc Hcols) as Hens.
      rewrite (renderTile_run _ _ _ _ _ _ _ Hq Hne Hens).
      cbn [fst Provider.set_columns Provider.columns]. rewrite lookup_insert_eq.
      unfold answer_tile. rewrite Htol. cbn [Py.obind].
      unfold Response.init. rewrite build_query_no_columns. reflexivity.
    + apply Hcached; try reflexivity.
      cbn [Provider.set_columns Provider.columns]. apply lookup_insert_eq.
  - intros Hc. apply Hcached; auto.
Qed.

(** X18.  An introspection that fails is not remembered: when the
    connection is refused or a probe raises, [renderTile] raises the same
    error and the provider is left as it was, without an entry for the
    query, so that the next request looks the columns up again. *)
Theorem renderTile_failed_introspection fuel coord self trace query e trace' :
  Provider.resolve_query (Provider.queries self) (Coordinate.zoom coord)
  = Py.Ok (Some query) ->
  query <> "" ->
  Provider.columns self !! query = None ->
  query_columns fuel (Provider.dbinfo self) (Provider.srid self) query
    (Provider.tile_bounds (Provider.layer self) coord) trace = (Py.Raise e, trace') ->
  Provider.renderTile fuel coord (self, trace) = (Py.Raise e, (self, trace'))
  /\ (forall e', connect (Provider.dbinfo self) = inl e' -> e = e' /\ trace' = trace).
Proof.
  intros Hq Hne Hc Hcols.
  pose proof (ensure_columns_miss fuel query _ self trace _ trace' Hc Hcols) as Hens.
  split.
  - rewrite (renderTile_run _ _ _ _ _ _ _ Hq Hne Hens). reflexivity.
  - intros e' He'. unfold query_columns, Connection in Hcols. rewrite He' in Hcols.
    injection Hcols as -> ->. split; reflexivity.
Qed.

End Render.

Lemma renderTile_without_query_witness :
@Provider.renderTile Sample.refusing Demo.codecs 0 (Coordinate.mk 0 0 3) (Sample.bare, [])
= (Py.Raise Py.IndexError, (Sample.bare, []))
/\ @Provider.renderTile Sample.refusing Demo.codecs 0 (Coordinate.mk 0 0 25) (Demo.b, [])
   = (Py.Ok (TileEmpty (EmptyResponse.mk
                          (Provider.tile_bounds (Provider.layer Demo.b)
                             (Coordinate.mk 0 0 25)))),
      (Demo.b, [])).
Proof.
split.
- exact (proj1 (@renderTile_without_query Sample.refusing Demo.codecs 0
                  (Coordinate.mk 0 0 3) Sample.bare []) eq_refl).
- exact (proj2 (@renderTile_without_query Sample.refusing Demo.codecs 0
                  (Coordinate.mk 0 0 25) Demo.b []) eq_refl).
Defined.

Lemma renderTile_introspects_once_witness :
@Provider.renderTile Demo.db Demo.codecs 0 Demo.tile (Sample.warm.1, ["SELECT 1"])
= (Py.Ok (TileResponse Demo.a_response), (Sample.warm.1, ["SELECT 1"])).
Proof.
refine (proj1 (@renderTile_introspects_once Demo.db Demo.codecs 1 Demo.tile Demo.a []
                 (TileResponse Demo.a_response) Sample.warm.1 Sample.warm.2 _)
          O ["SELECT 1"]).
vm_compute. reflexivity.
Defined.

Lemma renderTile_exhausted_introspection_witness :
@Provider.renderTile Demo.db Demo.codecs 1 Demo.tile (Demo.exhausted, [])
= (Py.Raise (Py.TypeError "'NoneType' object is not iterable"), (Demo.exhausted, [])).
Proof.
refine (proj2 (@renderTile_exhausted_introspection Demo.db Demo.codecs 1 Demo.tile
                 Demo.exhausted [] Demo.nowhere_query
                 (Some (1 * base_unit_distance 10)%Q) _ _ _) _).
- reflexivity.
- discriminate.
- apply (resolve_tolerance_rule 1 16 10). lia.
- vm_compute. reflexivity.
Defined.

Lemma renderTile_failed_introspection_witness :
@Provider.renderTile Sample.refusing Demo.codecs 1 Demo.tile (Demo.a, [])
= (Py.Raise (Py.DatabaseError "could not connect to server"), (Demo.a, [])).
Proof.
refine (proj1 (@renderTile_failed_introspection Sample.refusing Demo.codecs 1 Demo.tile
                 Demo.a [] Demo.roads_query _ [] _ _ _ _)).
- reflexivity.
- discriminate.
- reflexivity.
- reflexivity.
Defined.

(** ** [MultiProvider] and [MultiResponse] *)

Section MultiSave.
Context `{Database} `{Codecs} `{Framework}.

Lemma unknown_layers_nil (config : gmap string Provider.t) :
  MultiResponse.unknown_layers [] config = ∅.
Proof.
  unfold MultiResponse.unknown_layers. cbn [list_to_set].
  apply set_eq. intros x. rewrite elem_of_difference, elem_of_empty. tauto.
Qed.

(** X19.  A multi-layer provider without sub-layers.  Its response fails
    for JSON and TopoJSON with the [ValueError] of unpacking an empty
    [zip], and for OpenScienceMap and Mapbox merges an empty list of
    feature layers; neither touches a layer or the database. *)
Theorem save_without_names (fuel : nat) (provider : MultiProvider.t)
    (coord : Coordinate.t) (w : World) :
  MultiProvider.names provider = [] ->
  let response := MultiProvider.renderTile provider coord in
  (forall format, format = "JSON" \/ format = "TopoJSON" ->
     MultiResponse.save fuel response format w
     = (Py.Raise (Py.ValueError "need more than 0 values to unpack"), w))
  /\ MultiResponse.save fuel response "OpenScienceMap" w
     = (Py.Ok (MultiResponse.merge_layers oscimap [] coord), w)
  /\ MultiResponse.save fuel response "Mapbox" w
     = (Py.Ok (MultiResponse.merge_layers mapbox [] coord), w).
Proof.
  intros Hn response. subst response. unfold MultiProvider.renderTile. rewrite Hn.
  split; [| split].
  - assert (forall format,
              MultiResponse.get_tiles (MultiResponse.mk [] coord) format w
              = (Py.Raise (Py.ValueError "need more than 0 values to unpack"), w)) as Hg.
    { intros format. unfold MultiResponse.get_tiles.
      unfold Py.bind at 1. unfold Py.get at 1.
      cbn [MultiResponse.names]. rewrite unknown_layers_nil.
      rewrite bool_decide_eq_true_2 by reflexivity. reflexivity. }
    intros format [-> | ->]; unfold MultiResponse.save;
      repeat case_bool_decide; try congruence;
      unfold Py.bind at 1; rewrite Hg; reflexivity.
  - destruct w as [config trace]. reflexivity.
  - destruct w as [config trace]. reflexivity.
Qed.

Lemma lookup_layers_known (config : gmap string Provider.t) (names : list string) :
  MultiResponse.unknown_layers names config = ∅ ->
  exists found, MultiResponse.lookup_layers config names = Py.Ok found
                /\ length found = length names.
Proof.
  unfold MultiResponse.unknown_layers. intros Hu.
  assert (forall n, n ∈ names -> is_Some (config !! n)) as Hall.
  { intros n Hn. apply elem_of_dom.
    destruct (decide (n ∈ dom config)) as [Hd | Hd]; [exact Hd |].
    assert (n ∈ (list_to_set names ∖ dom config : gset string)) as Hin
      by (apply elem_of_difference; split; [apply elem_of_list_to_set; exact Hn | exact Hd]).
    rewrite Hu in Hin. apply elem_of_empty in Hin as []. }
  clear Hu. induction names as [| n rest IH].
  - exists []. split; reflexivity.
  - destruct (Hall n (list_elem_of_here _ _)) as [p Hp].
    destruct IH as (found & Hf & Hlen);
      [intros m Hm; apply Hall, list_elem_of_further, Hm |].
    exists (p :: found). cbn [MultiResponse.lookup_layers length].
    rewrite Hp, Hf, Hlen. split; reflexivity.
Qed.

Lemma mapM_length {S A B} (f : A -> Py.M S B) (l : list A) : forall s ys s',
  MultiResponse.mapM f l s = (Py.Ok ys, s') -> length ys = length l.
Proof.
  induction l as [| x rest IH]; intros s ys s' E.
  - injection E as <- _. reflexivity.
  - cbn [MultiResponse.mapM] in E.
    apply bind_Ok in E as (y & s1 & _ & E).
    apply bind_Ok in E as (more & s2 & Hmore & E).
    injection E as <- _. cbn [length]. f_equal. exact (IH _ _ _ Hmore).
Qed.

Lemma mapO_length {A B} (f : A -> Py.outcome B) (l : list A) : forall ys,
  MultiResponse.mapO f l = Py.Ok ys -> length ys = length l.
Proof.
  induction l as [| x rest IH]; intros ys E.
  - injection E as <-. reflexivity.
  - cbn [MultiResponse.mapO] in E.
    apply obind_Ok in E as (y & _ & E).
    apply obind_Ok in E as (more & Hmore & E).
    injection E as <-. cbn [length]. f_equal. exact (IH _ Hmore).
Qed.

Lemma filter_zip_none {A B} (P : A * B -> Prop) `{!forall x, Decision (P x)}
    (a : list A) : forall (b : list B),
  Forall (fun x => forall y, ~ P (x, y)) a ->
  filter P (MultiResponse.zip a b) = [].
Proof.
  induction a as [| x a IH]; intros b Hall; [reflexivity |].
  destruct b as [| y b]; [reflexivity |].
  apply Forall_cons in Hall as [Hx Hall].
  cbn [MultiResponse.zip]. rewrite filter_cons_False by apply Hx.
  apply IH, Hall.
Qed.

Lemma filter_zip_first {A B} (P : A * B -> Prop) `{!forall x, Decision (P x)}
    (a : list A) : forall (b : list B) (i : nat) (x : A) (y : B),
  a !! i = Some x -> b !! i = Some y -> P (x, y) ->
  (forall j x' y', (j < i)%nat -> a !! j = Some x' -> b !! j = Some y' -> ~ P (x', y')) ->
  exists rest, filter P (MultiResponse.zip a b) = (x, y) :: rest.
Proof.
  induction a as [| x0 a IH]; intros b i x y Ha Hb HP Hbefore; [discriminate Ha |].
  destruct b as [| y0 b]; [discriminate Hb |].
  cbn [MultiResponse.zip]. destruct i as [| i].
  - injection Ha as ->. injection Hb as ->.
    rewrite filter_cons_True by exact HP. eauto.
  - rewrite filter_cons_False by (apply (Hbefore O); [lia | reflexivity | reflexivity]).
    apply (IH b i x y Ha Hb HP).
    intros j x' y' Hj Hx' Hy'. apply (Hbefore (S j)); [lia | exact Hx' | exact Hy'].
Qed.

(** X20.  [get_tiles] with every sub-layer known and at least one named:
    each layer is fetched with the lower-case format as its extension.
    When every mime-type ends in [/json], every body parses and every
    parsed tile has the type of the format ([FeatureCollection] for json,
    [Topology] otherwise), the parsed tiles are returned, one for each
    name.  When a mime-type does not end in [/json], the error names the
    first such sub-layer and its mime-type; it is raised after all the
    layers have been fetched. *)
Theorem get_tiles_outcome (self : MultiResponse.t) (format : string) (w w' : World)
    (found : list Provider.t) (fetched : list (string * string)) :
  MultiResponse.unknown_layers (MultiResponse.names self) (layers w) = ∅ ->
  MultiResponse.names self <> [] ->
  MultiResponse.lookup_layers (layers w) (MultiResponse.names self) = Py.Ok found ->
  MultiResponse.mapM
    (fun layer => getTile layer (MultiResponse.coord self) (Py.lower format)) found w
  = (Py.Ok fetched, w') ->
  length fetched = length (MultiResponse.names self)
  /\ (forall tiles types,
        Forall (fun mb : string * string => Py.endswith mb.1 "/json" = true) fetched ->
        MultiResponse.mapO json_loads (map snd fetched) = Py.Ok tiles ->
        MultiResponse.mapO json_type tiles = Py.Ok types ->
        Forall (fun ty => ty = if bool_decide (Py.lower format = "json")
                               then "FeatureCollection" else "Topology") types ->
        MultiResponse.get_tiles self format w = (Py.Ok tiles, w')
        /\ length tiles = length (MultiResponse.names self))
  /\ (forall i name mime,
        MultiResponse.names self !! i = Some name ->
        map fst fetched !! i = Some mime ->
        Py.endswith mime "/json" = false ->
        (forall j mime', (j < i)%nat -> map fst fetched !! j = Some mime' ->
           Py.endswith mime' "/json" = true) ->
        MultiResponse.get_tiles self format w
        = (Py.Raise (Py.KnownUnknown
             (MultiResponse.module_name
                ++ ".get_tiles encountered a non-JSON mime-type in "
                ++ name ++ " sub-layer: " ++ dquote ++ mime ++ dquote)), w')).
Proof.
  intros Hu Hne Hfound Hfetch.
  destruct (lookup_layers_known _ _ Hu) as (found' & Hf' & Hlen).
  assert (found' = found) as -> by congruence.
  pose proof (mapM_length _ _ _ _ _ Hfetch) as Hlf.
  assert (length fetched = length (MultiResponse.names self)) as Hlength by lia.
  assert (exists mb more, fetched = mb :: more) as (mb & more & ->).
  { destruct fetched as [| mb more]; [| eauto].
    destruct (MultiResponse.names self); [congruence | discriminate Hlength]. }
  split; [exact Hlength |]. split.
  - intros tiles types Hmimes Htiles Htypes Hexp.
    split; [| rewrite (mapO_length _ _ _ Htiles), length_map; exact Hlength].
    unfold MultiResponse.get_tiles.
    unfold Py.bind at 1. unfold Py.get at 1.
    rewrite bool_decide_eq_true_2 by exact Hu.
    unfold Py.bind at 1. unfold Py.lift at 1. rewrite Hfound.
    unfold Py.bind at 1. rewrite Hfetch.
    rewrite filter_zip_none.
    2: { apply List.Forall_forall. intros m Hm y.
         apply (proj2 (list_elem_of_In _ _)) in Hm.
         apply list_elem_of_fmap in Hm as (mb' & -> & Hmb').
         rewrite List.Forall_forall in Hmimes.
         specialize (Hmimes mb' (proj1 (list_elem_of_In _ _) Hmb')).
         cbn [fst]. rewrite Hmimes. discriminate. }
    unfold Py.bind at 1. unfold Py.lift at 1. rewrite Htiles.
    unfold Py.bind at 1. unfold Py.lift at 1. rewrite Htypes.
    rewrite filter_zip_none.
    2: { apply List.Forall_forall. intros ty Hty y.
         rewrite List.Forall_forall in Hexp. specialize (Hexp ty Hty).
         cbn [fst]. intros Hbad. apply Hbad. exact Hexp. }
    reflexivity.
  - intros i name mime Hname Hmime Hbad Hbefore.
    unfold MultiResponse.get_tiles.
    unfold Py.bind at 1. unfold Py.get at 1.
    rewrite bool_decide_eq_true_2 by exact Hu.
    unfold Py.bind at 1. unfold Py.lift at 1. rewrite Hfound.
    unfold Py.bind at 1. rewrite Hfetch.
    destruct (filter_zip_first
                (fun mn : string * string => Py.endswith mn.1 "/json" = false)
                (map fst (mb :: more)) (MultiResponse.names self) i mime name
                Hmime Hname Hbad)
      as (rest & ->).
    { intros j m' n' Hj Hm' _. cbn [fst]. rewrite (Hbefore j m' Hj Hm'). discriminate. }
    reflexivity.
Qed.
End MultiSave.

Lemma save_without_names_witness :
@MultiResponse.save Demo.db Demo.codecs Demo.framework 1
  (MultiProvider.renderTile (MultiProvider.init (Demo.layer "all") []) Demo.tile)
  "JSON" Demo.world
= (Py.Raise (Py.ValueError "need more than 0 values to unpack"), Demo.world)
/\ @MultiResponse.save Demo.db Demo.codecs Demo.framework 1
     (MultiProvider.renderTile (MultiProvider.init (Demo.layer "all") []) Demo.tile)
     "Mapbox" Demo.world
   = (Py.Ok (MultiResponse.merge_layers mapbox [] Demo.tile), Demo.world).
Proof.
pose proof (@save_without_names Demo.db Demo.codecs Demo.framework 1
              (MultiProvider.init (Demo.layer "all") []) Demo.tile Demo.world eq_refl)
  as (Hj & _ & Hm).
split; [apply Hj; left; reflexivity | exact Hm].
Defined.

Lemma get_tiles_outcome_witness :
@MultiResponse.get_tiles Demo.framework (MultiResponse.mk ["a"; "b"] Demo.tile) "JSON"
  Demo.world
= (Py.Ok ["{}"; "{}"], Demo.world).
Proof.
refine (proj1 (proj1 (proj2
          (@get_tiles_outcome Demo.framework (MultiResponse.mk ["a"; "b"] Demo.tile) "JSON"
             Demo.world Demo.world [Demo.a; Demo.b]
             [("application/json", "{}"); ("application/json", "{}")] _ _ _ _))
          ["{}"; "{}"] ["FeatureCollection"; "FeatureCollection"] _ _ _ _)).
- vm_compute. reflexivity.
- discriminate.
- vm_compute. reflexivity.
- reflexivity.
- repeat constructor.
- reflexivity.
- reflexivity.
- repeat constructor.
Defined.

(** ** [Provider.__init__] *)

Section Configure.
Context `{Resources} `{Numerals}.

Lemma init_Ok layer dirpath dbinfo queries clip srid simplify simplify_until self :
  Provider.init layer dirpath dbinfo queries clip srid simplify simplify_until
  = Py.Ok self ->
  exists srid' simplify' simplify_until' loaded,
    int_of (default (VInt 900913) srid) = Py.Ok srid'
    /\ float_of (default (VFloat 1) simplify) = Py.Ok simplify'
    /\ int_of (default (VInt 16) simplify_until) = Py.Ok simplify_until'
    /\ Provider.load_queries dirpath queries = Py.Ok loaded
    /\ self = Provider.mk layer
                (filter (fun kv : string * string => kv.1 ∈ Provider.keys) dbinfo)
                (bool_of (default (VBool true) clip)) srid' simplify' simplify_until'
                loaded ∅.
Proof.
  unfold Provider.init. intros E.
  apply obind_Ok in E as (srid' & Hsrid & E).
  apply obind_Ok in E as (simplify' & Hsimplify & E).
  apply obind_Ok in E as (until' & Huntil & E).
  apply obind_Ok in E as (loaded & Hload & E).
  injection E as <-. exists srid', simplify', until', loaded. repeat split; assumption.
Qed.

Lemma load_queries_Ok dirpath (queries : list (option string)) : forall loaded,
  Provider.load_queries dirpath queries = Py.Ok loaded ->
  length loaded = length queries
  /\ forall i q, queries !! i = Some q ->
       exists l, loaded !! i = Some l /\ Provider.load_query dirpath q = Py.Ok l.
Proof.
  induction queries as [| q0 rest IH]; intros loaded E.
  - injection E as <-. split; [reflexivity | intros i q Hq; discriminate Hq].
  - cbn [Provider.load_queries] in E.
    apply obind_Ok in E as (l0 & Hl0 & E).
    apply obind_Ok in E as (more & Hmore & E).
    injection E as <-.
    destruct (IH more Hmore) as [Hlen Hall].
    split; [cbn [length]; rewrite Hlen; reflexivity |].
    intros [| i] q Hq.
    + injection Hq as <-. exists l0. split; [reflexivity | exact Hl0].
    + apply (Hall i q Hq).
Qed.

Lemma load_query_null dirpath (q : option string) :
  Provider.load_query dirpath q = Py.Ok None <-> q = None.
Proof.
  split; [| intros ->; reflexivity].
  destruct q as [q |]; [| reflexivity].
  unfold Provider.load_query.
  destruct (urlparse (urljoin dirpath q)) as [scheme path].
  destruct (bool_decide (scheme ∈ ["file"; ""]) && path_exists path).
  - destruct (read_file path); intros [=].
  - destruct (bool_decide (scheme = "http") && negb (Py.contains " " (urljoin dirpath q))).
    + destruct (urlopen (urljoin dirpath q)); intros [=].
    + intros [=].
Qed.

(** X21.  The queries [Provider.__init__] leaves on the provider: as many
    as were configured, null exactly where the configuration has null,
    and for a text entry the content of the file it names when the joined
    URL has the scheme [file] or none and the path exists, the content
    behind the URL when the scheme is [http] and the URL holds no space,
    and the text itself in every other case, an [https] URL among them.
    The column cache starts empty. *)
Theorem init_loads_queries layer dirpath dbinfo queries clip srid simplify
    simplify_until self :
  Provider.init layer dirpath dbinfo queries clip srid simplify simplify_until
  = Py.Ok self ->
  length (Provider.queries self) = length queries
  /\ Provider.columns self = ∅
  /\ (forall i, Provider.queries self !! i = Some None <-> queries !! i = Some None)
  /\ (forall i q,
        queries !! i = Some (Some q) ->
        let url := urljoin dirpath q in
        let scheme := (urlparse url).1 in
        let path := (urlparse url).2 in
        (scheme ∈ ["file"; ""] -> path_exists path = true ->
           exists text,
             read_file path = inr text /\ Provider.queries self !! i = Some (Some text))
        /\ (scheme = "http" -> Py.contains " " url = false ->
              exists text,
                urlopen url = inr text /\ Provider.queries self !! i = Some (Some text))
        /\ (scheme ∉ ["file"; ""] \/ path_exists path = false ->
            scheme <> "http" \/ Py.contains " " url = true ->
            Provider.queries self !! i = Some (Some q))).
Proof.
  intros E.
  apply init_Ok in E as (srid' & simplify' & until' & loaded & _ & _ & _ & Hload & ->).
  cbn [Provider.queries Provider.columns].
  destruct (load_queries_Ok _ _ _ Hload) as [Hlen Hall].
  split; [exact Hlen |]. split; [reflexivity |]. split.
  - intros i. split.
    + intros Hi.
      destruct (queries !! i) as [q |] eqn:Hq.
      * destruct (Hall i q Hq) as (l & Hl & Hq').
        assert (l = None) as -> by congruence.
        apply load_query_null in Hq' as ->. reflexivity.
      * apply lookup_ge_None in Hq. apply lookup_lt_Some in Hi. lia.
    + intros Hq. destruct (Hall i None Hq) as (l & Hl & Hq').
      injection Hq' as <-. exact Hl.
  - intros i q Hq.
    destruct (Hall i (Some q) Hq) as (l & Hl & Hq'). rewrite Hl.
    unfold Provider.load_query in Hq'.
    set (url := urljoin dirpath q) in *.
    destruct (urlparse url) as [scheme path]. cbn [fst snd].
    split; [| split].
    + intros Hs He.
      rewrite bool_decide_eq_true_2, He in Hq' by exact Hs. cbn [andb] in Hq'.
      destruct (read_file path) as [e | text]; [discriminate Hq' |].
      injection Hq' as <-. eauto.
    + intros -> Hsp.
      rewrite bool_decide_eq_false_2 in Hq'
        by (rewrite !not_elem_of_cons; repeat (split; [discriminate |]);
            apply not_elem_of_nil).
      rewrite bool_decide_eq_true_2, Hsp in Hq' by reflexivity.
      cbn [andb negb] in Hq'.
      destruct (urlopen url) as [e | text]; [discriminate Hq' |].
      injection Hq' as <-. eauto.
    + intros Hfile Hhttp.
      assert (bool_decide (scheme ∈ ["file"; ""]) && path_exists path = false) as Hf.
      { destruct Hfile as [Hs | He];
          [rewrite bool_decide_eq_false_2 by exact Hs; reflexivity
          | rewrite He; apply andb_false_r]. }
      assert (bool_decide (scheme = "http") && negb (Py.contains " " url) = false) as Hh.
      { destruct Hhttp as [Hs | Hsp];
          [rewrite bool_decide_eq_false_2 by exact Hs; reflexivity
          | rewrite Hsp; apply andb_false_r]. }
      rewrite Hf, Hh in Hq'. injection Hq' as <-. reflexivity.
Qed.

(** X22.  Of the connection parameters it is given [Provider.__init__]
    keeps those named host, user, password, database, port and dbname,
    with their values, and drops every other, so that nothing else
    reaches [connect].  The four options are stored coerced: [clip] as
    its truth value, so that any text that is not empty, ["false"]
    included, is true; [srid] and [simplify_until] as integers, a float
    being truncated toward zero; [simplify] as a float; an option left
    out is its default.  A value that [int] or [float] refuses raises
    its error, whatever the queries are. *)
Theorem init_connection_parameters layer dirpath dbinfo queries clip srid simplify
    simplify_until :
  let init :=
    Provider.init layer dirpath dbinfo queries clip srid simplify simplify_until in
  (forall self, init = Py.Ok self ->
     (forall k, k ∈ Provider.keys -> Provider.dbinfo self !! k = dbinfo !! k)
     /\ (forall k, k ∉ Provider.keys -> Provider.dbinfo self !! k = None)
     /\ Provider.dbinfo self ⊆ dbinfo
     /\ Provider.layer self = layer
     /\ Provider.clip self = bool_of (default (VBool true) clip)
     /\ int_of (default (VInt 900913) srid) = Py.Ok (Provider.srid self)
     /\ float_of (default (VFloat 1) simplify) = Py.Ok (Provider.simplify self)
     /\ int_of (default (VInt 16) simplify_until) = Py.Ok (Provider.simplify_until self)
     /\ (forall s, clip = Some (VStr s) -> s <> "" -> Provider.clip self = true)
     /\ (clip = None -> Provider.clip self = true)
     /\ (srid = None -> Provider.srid self = 900913%Z)
     /\ (simplify = None -> Provider.simplify self = 1%Q)
     /\ (simplify_until = None -> Provider.simplify_until self = 16%Z)
     /\ (forall x, simplify_until = Some (VFloat x) ->
           Provider.simplify_until self = Z.quot (Qnum x) (Z.pos (Qden x))
           /\ (inject_Z (Z.abs (Provider.simplify_until self)) <= Qabs x)%Q))
  /\ (forall e, int_of (default (VInt 900913) srid) = Py.Raise e -> init = Py.Raise e)
  /\ (forall srid' e,
        int_of (default (VInt 900913) srid) = Py.Ok srid' ->
        float_of (default (VFloat 1) simplify) = Py.Raise e -> init = Py.Raise e)
  /\ (forall srid' simplify' e,
        int_of (default (VInt 900913) srid) = Py.Ok srid' ->
        float_of (default (VFloat 1) simplify) = Py.Ok simplify' ->
        int_of (default (VInt 16) simplify_until) = Py.Raise e -> init = Py.Raise e).
Proof.
  intros init. subst init. split; [| split; [| split]].
  - intros self E.
    apply init_Ok in E
      as (srid' & simplify' & until' & loaded & Hsrid & Hsimplify & Huntil & _ & ->).
    cbn [Provider.dbinfo Provider.clip Provider.srid Provider.simplify
         Provider.simplify_until Provider.layer].
    split.
    { intros k Hk. destruct (dbinfo !! k) as [v |] eqn:Hv.
      - apply map_lookup_filter_Some. split; [exact Hv | exact Hk].
      - apply map_lookup_filter_None. left. exact Hv. }
    split; [intros k Hk; apply map_lookup_filter_None; right; intros v _; exact Hk |].
    split; [apply map_filter_subseteq |].
    split; [reflexivity |]. split; [reflexivity |].
    split; [exact Hsrid |]. split; [exact Hsimplify |]. split; [exact Huntil |].
    split.
    { intros s -> Hs. change (negb (String.eqb s "") = true).
      destruct (String.eqb_spec s ""); [contradiction | reflexivity]. }
    split; [intros ->; reflexivity |].
    split; [intros ->; injection Hsrid as <-; reflexivity |].
    split; [intros ->; injection Hsimplify as <-; reflexivity |].
    split; [intros ->; injection Huntil as <-; reflexivity |].
    intros x ->.
    change (Py.Ok (Z.quot (Qnum x) (Z.pos (Qden x))) = Py.Ok until') in Huntil.
    injection Huntil as <-.
    split; [reflexivity |].
    destruct x as [n d]. cbn [Qnum Qden].
    unfold Qle, Qabs. cbn [Qnum Qden inject_Z].
    pose proof (Z.quot_abs n (Z.pos d) ltac:(lia)) as Hq.
    pose proof (Z.mul_quot_le (Z.abs n) (Z.pos d) ltac:(lia) ltac:(lia)) as Hm.
    rewrite <- Hq, (Z.abs_eq (Z.pos d)) by lia. lia.
  - intros e He. unfold Provider.init. rewrite He. reflexivity.
  - intros srid' e Hs He. unfold Provider.init. rewrite Hs, He. reflexivity.
  - intros srid' simplify' e Hs Hf He. unfold Provider.init. rewrite Hs, Hf, He.
    reflexivity.
Qed.
End Configure.

Lemma init_loads_queries_witness :
Provider.queries Sample.loaded
= [None; Some Demo.roads_query; Some "https://example.com/q.pgsql";
   Some Demo.islands_query; Some "SELECT way AS __geometry__ FROM rivers"]
/\ Provider.queries Sample.loaded !! 2%nat = Some (Some "https://example.com/q.pgsql").
Proof.
split; [vm_compute; reflexivity |].
refine (proj2 (proj2 (proj2 (proj2 (proj2
          (@init_loads_queries Sample.resources Sample.numerals (Demo.layer "a")
             "/etc/tiles/" Sample.connection Sample.configured
             (Some (VStr "false")) None (Some (VInt 2)) (Some (VFloat (169 # 10)))
             Sample.loaded _)))
          2%nat "https://example.com/q.pgsql" eq_refl)) _ _).
- vm_compute. reflexivity.
- left. cut ("https" ∉ ["file"; ""]); [exact (fun Hn => Hn) |].
  rewrite !not_elem_of_cons.
  repeat (split; [discriminate |]). apply not_elem_of_nil.
- left. cut ("https" <> "http"); [exact (fun Hn => Hn) | discriminate].
Defined.

Lemma init_connection_parameters_witness :
Provider.dbinfo Sample.loaded !! "host" = Some "localhost"
/\ Provider.dbinfo Sample.loaded !! "sslmode" = None
/\ Provider.clip Sample.loaded = true
/\ Provider.srid Sample.loaded = 900913%Z
/\ Provider.simplify_until Sample.loaded = 16%Z
/\ @Provider.init Sample.resources Sample.numerals (Demo.layer "a") "/etc/tiles/"
     Sample.connection Sample.configured None (Some (VStr "mercator")) None None
   = Py.Raise (Py.ValueError "invalid literal for int()").
Proof.
pose proof (@init_connection_parameters Sample.resources Sample.numerals (Demo.layer "a")
              "/etc/tiles/" Sample.connection Sample.configured
              (Some (VStr "false")) None (Some (VInt 2)) (Some (VFloat (169 # 10))))
  as Hp.
cbv zeta in Hp. destruct Hp as (Hok & _).
destruct (Hok Sample.loaded)
  as (Hkeep & Hdrop & _ & _ & _ & _ & _ & _ & Hclip & _ & Hsrid & _ & _ & Huntil);
  [vm_compute; reflexivity |].
split; [rewrite Hkeep by (unfold Provider.keys; in_list); vm_compute; reflexivity |].
split.
{ apply Hdrop. unfold Provider.keys. rewrite !not_elem_of_cons.
  repeat (split; [discriminate |]). apply not_elem_of_nil. }
split; [apply (Hclip "false"); [reflexivity | discriminate] |].
split; [apply Hsrid; reflexivity |].
split; [exact (proj1 (Huntil (169 # 10) eq_refl)) |].
exact (proj1 (proj2 (@init_connection_parameters Sample.resources Sample.numerals
                       (Demo.layer "a") "/etc/tiles/" Sample.connection Sample.configured
                       None (Some (VStr "mercator")) None None))
         _ eq_refl).
Defined.

(** ** The tolerance table *)

(** X23.  The table of unit distances halves from one zoom to the next and
  stays positive: for two neighbouring zooms of the table the coarser
  entry is twice the finer one. *)
Theorem tolerances_halve (z : Z) :
(0 <= z < 21)%Z ->
exists coarse fine,
  Py.getitem tolerances z = Py.Ok coarse
  /\ Py.getitem tolerances (z + 1) = Py.Ok fine
  /\ (coarse == 2 * fine)%Q /\ (0 < fine)%Q /\ (fine < coarse)%Q.
Proof.
intros Hz. exists (base_unit_distance z), (base_unit_distance (z + 1)).
rewrite !tolerances_lookup by lia.
pose proof (base_unit_distance_succ z ltac:(lia)) as Hs.
pose proof (base_unit_distance_pos (z + 1) ltac:(lia)) as Hp.
repeat split; try assumption. lra.
Qed.

Lemma tolerances_halve_witness :
exists coarse fine,
  Py.getitem tolerances 10 = Py.Ok coarse
  /\ Py.getitem tolerances (10 + 1) = Py.Ok fine
  /\ (coarse == 2 * fine)%Q /\ (0 < fine)%Q /\ (fine < coarse)%Q.
Proof.
apply (tolerances_halve 10). lia.
Defined.
